(** * QA-AI-Agent: reconciliation, history and classification engine

    A shallow embedding of the parts of the agent that the specification
    makes claims about, followed by the theorems that settle them.

    - [Py]            : the string primitives of Python the code relies on
    - [Utils]         : [src/utils.py] (names, root causes, paths, URLs)
    - [Regex]         : the part of [re] the patterns of the code need
    - [Cache]         : [TestDataCache], the reading side
    - [Analyzer]      : [FailureClassification] of [src/agent/analyzer.py]
    - [CategoryRules] : [src/reporters/category_rules.py]
    - [HtmlParser]    : [_extract_execution_log] of [src/parsers/html_parser.py]
    - [Models]        : [src/parsers/models.py]
    - [Matching]      : [TestNameNormalizer.find_matching_test]
    - [CacheBuild]    : [TestDataCache._build_cache] and [has_test]
    - [Summary]       : [get_summary_stats] and [_extract_platform]
    - [DataBuilder]   : [src/parsers/data_builder.py]
    - [Memory]        : [src/agent/memory.py] (recurring failures)
    - [Main]          : the category breakdown of [src/main.py]
    - [Samples]       : concrete inputs used by the examples

    Text is modelled as [string], i.e. sequences of 8-bit characters; the
    case mappings and the whitespace class are those of Python restricted
    to that range (7-bit letters for [upper]/[lower]). *)

From Stdlib Require Import Ascii String List Arith Bool Lia ZArith QArith.
From stdpp Require Import base list strings gmap.

Local Open Scope list_scope.

(* ===================================================================== *)
(** * Python string primitives *)
(* ===================================================================== *)

Module Py.

(** [str.isspace] on one character: TAB..CR, FS..US and the blank. *)
Definition is_space (c : ascii) : bool :=
  let n := nat_of_ascii c in
  ((9 <=? n) && (n <=? 13)) || ((28 <=? n) && (n <=? 32)).

Definition is_upper (c : ascii) : bool :=
  let n := nat_of_ascii c in (65 <=? n) && (n <=? 90).

Definition is_lower (c : ascii) : bool :=
  let n := nat_of_ascii c in (97 <=? n) && (n <=? 122).

Definition lower_char (c : ascii) : ascii :=
  if is_upper c then ascii_of_nat (nat_of_ascii c + 32) else c.

Definition upper_char (c : ascii) : ascii :=
  if is_lower c then ascii_of_nat (nat_of_ascii c - 32) else c.

Fixpoint map_chars (f : ascii -> ascii) (s : string) : string :=
  match s with
  | EmptyString => EmptyString
  | String c s' => String (f c) (map_chars f s')
  end.

(** [s.lower()] and [s.upper()] *)
Definition lower (s : string) : string := map_chars lower_char s.
Definition upper (s : string) : string := map_chars upper_char s.

(** [s.lstrip()], [s.rstrip()], [s.strip()] *)
Fixpoint lstrip (s : string) : string :=
  match s with
  | EmptyString => EmptyString
  | String c s' => if is_space c then lstrip s' else s
  end.

Fixpoint rstrip (s : string) : string :=
  match s with
  | EmptyString => EmptyString
  | String c s' =>
      match rstrip s' with
      | EmptyString => if is_space c then EmptyString else String c EmptyString
      | r => String c r
      end
  end.

Definition strip (s : string) : string := lstrip (rstrip s).

(** the first, resp. the last, character is not white space *)
Definition first_ok (s : string) : bool :=
  match s with
  | EmptyString => true
  | String c _ => negb (is_space c)
  end.

Fixpoint last_ok (s : string) : bool :=
  match s with
  | EmptyString => true
  | String c s' =>
      match s' with
      | EmptyString => negb (is_space c)
      | String _ _ => last_ok s'
      end
  end.

(** [s.split(sep)] for a one-character separator: never the empty list. *)
Fixpoint split (sep : ascii) (s : string) : list string :=
  match s with
  | EmptyString => [EmptyString]
  | String c s' =>
      if Ascii.eqb c sep then EmptyString :: split sep s'
      else match split sep s' with
           | p :: ps => String c p :: ps
           | [] => [String c EmptyString]
           end
  end.

(** [s.split()]: the maximal runs of characters that are not whitespace *)
Fixpoint split_ws (s : string) : list string :=
  match s with
  | EmptyString => []
  | String c s' =>
      if is_space c then split_ws s'
      else
        match s' with
        | EmptyString => [String c EmptyString]
        | String d _ =>
            if is_space d then String c EmptyString :: split_ws s'
            else match split_ws s' with
                 | w :: ws => String c w :: ws
                 | [] => [String c EmptyString]
                 end
        end
  end.

(** [sep.join(parts)] *)
Fixpoint join (sep : string) (parts : list string) : string :=
  match parts with
  | [] => EmptyString
  | p :: ps =>
      match ps with
      | [] => p
      | _ :: _ => p +:+ sep +:+ join sep ps
      end
  end.

(** truthiness of a string *)
Definition truthy (s : string) : bool :=
  match s with EmptyString => false | _ => true end.

(** [c in s] for a character *)
Fixpoint has_char (c : ascii) (s : string) : bool :=
  match s with
  | EmptyString => false
  | String d s' => Ascii.eqb d c || has_char c s'
  end.

(** [s.startswith(p)] *)
Fixpoint startswith (p s : string) : bool :=
  match p with
  | EmptyString => true
  | String a p' =>
      match s with
      | EmptyString => false
      | String b s' => Ascii.eqb a b && startswith p' s'
      end
  end.

(** [needle in hay] *)
Fixpoint contains (needle hay : string) : bool :=
  startswith needle hay ||
  match hay with
  | EmptyString => false
  | String _ hay' => contains needle hay'
  end.

(** [s[:n]] and [s[n:]]; a slice never fails, it clamps to the text. *)
Fixpoint take_str (n : nat) (s : string) : string :=
  match n, s with
  | S n', String c s' => String c (take_str n' s')
  | _, _ => EmptyString
  end.

Fixpoint drop_str (n : nat) (s : string) : string :=
  match n, s with
  | S n', String _ s' => drop_str n' s'
  | _, _ => s
  end.

(** [s[i:j]] for non-negative [i], [j] *)
Definition slice (i j : nat) (s : string) : string :=
  take_str (j - i) (drop_str i s).

(** [s.replace(old, new)] for a non-empty [old]: occurrences are replaced
    left to right without overlap; [skip] counts the characters of an
    occurrence still to be passed over. *)
Fixpoint replace_aux (old new : string) (skip : nat) (s : string) : string :=
  match s with
  | EmptyString => EmptyString
  | String c s' =>
      match skip with
      | S k => replace_aux old new k s'
      | O =>
          if startswith old s
          then new +:+ replace_aux old new (String.length old - 1) s'
          else String c (replace_aux old new 0 s')
      end
  end.

Definition replace (old new s : string) : string :=
  if truthy old then replace_aux old new 0 s else s.

Definition newline_char : ascii := ascii_of_nat 10.
Definition newline : string := String newline_char EmptyString.

(** [l[-1]] of a list that is not empty, and [l[-2:]] *)
Definition last_part (l : list string) : string := List.last l EmptyString.
Definition last_two (l : list string) : list string :=
  List.skipn (length l - 2) l.

(** Truthiness of a string and of an optional string ([None] or [""]). *)
Definition truthy_opt (o : option string) : bool :=
  match o with Some s => truthy s | None => false end.

(** [s * n] *)
Fixpoint repeat_str (s : string) (n : nat) : string :=
  match n with
  | O => EmptyString
  | S n' => s +:+ repeat_str s n'
  end.

(** [x in [a, b, ...]] on strings *)
Definition mem (x : string) (l : list string) : bool :=
  existsb (String.eqb x) l.

(** [l[:n]] on a list: a negative [n] counts from the end of the list,
    and the slice is empty when that falls before its start. *)
Definition slice_to {A : Type} (n : Z) (l : list A) : list A :=
  if (0 <=? n)%Z then take (Z.to_nat n) l
  else take (length l - Z.to_nat (- n)) l.

(** [s.isascii()]: every character is below 128.  On such a text
    [lower] and [upper] above are [str.lower] and [str.upper]. *)
Fixpoint isascii (s : string) : bool :=
  match s with
  | EmptyString => true
  | String c s' => (nat_of_ascii c <? 128) && isascii s'
  end.

End Py.

(* ===================================================================== *)
(** * src/utils.py *)
(* ===================================================================== *)

Module Utils.
Import Py.

(** The [while] loop of [remove_duplicate_class_name] over [parts]:
    every visited segment is kept, and the segment after it is skipped
    when it is equal to it. *)
Fixpoint collapse (parts : list string) : list string :=
  match parts with
  | [] => []
  | p :: rest =>
      match rest with
      | q :: rest' =>
          if String.eqb p q then p :: collapse rest' else p :: collapse rest
      | [] => [p]
      end
  end.

(** no two neighbouring segments are equal *)
Fixpoint no_adjacent (parts : list string) : bool :=
  match parts with
  | [] => true
  | p :: rest =>
      match rest with
      | [] => true
      | q :: _ => negb (String.eqb p q) && no_adjacent rest
      end
  end.

(** no segment occurs three times in a row *)
Fixpoint no_triple (parts : list string) : bool :=
  match parts with
  | [] => true
  | p :: rest =>
      match rest with
      | q :: r :: _ => negb (String.eqb p q && String.eqb q r) && no_triple rest
      | _ => true
      end
  end.

Definition remove_duplicate_class_name (class_name : string) : string :=
  if negb (truthy class_name) || negb (has_char "." class_name) then class_name
  else
    let parts := split "." class_name in
    if length parts <? 2 then class_name
    else join "." (collapse parts).

(** [TestNameNormalizer.normalize] *)
Definition normalize (name : string) : string :=
  if negb (truthy name) then ""
  else strip (remove_duplicate_class_name name).

(** [TestNameNormalizer.match] *)
Definition match_names (name1 name2 : string) : bool :=
  String.eqb (normalize name1) (normalize name2).

(** ** [normalize_root_cause] *)

(** The calls of [re.sub] in [normalize_root_cause], in the order of the
    source; each one has a fixed pattern, replacement and flags. *)
Inductive substitution : Type :=
| SubUrl                 (* https?://...            -> [URL] *)
| SubDateDayMonthYear    (* 24 Dec 2025             -> [DATE] *)
| SubDateMonthDayYear    (* Dec 24, 2025            -> [DATE] *)
| SubDateIso             (* 2025-12-24              -> [DATE] *)
| SubDateSlash           (* 12/24/2025              -> [DATE] *)
| SubDateDash            (* 24-12-2025              -> [DATE] *)
| SubTime                (* 22:45:43, 10:30 am      -> [TIME] *)
| SubDuration            (* 40.431 seconds          -> [DURATION] *)
| SubTestcase            (* class.method, no page   -> [TESTCASE] *)
| SubElementQuoteEnd     (* xpage:text'             -> xpage:[ELEMENT]' *)
| SubElementQuoted       (* 'xpage:text'            -> 'xpage:[ELEMENT]' *)
| SubElementBare         (* xpage:text              -> xpage:[ELEMENT] *)
| SubJsonKeys            (* actual json doesn't contain all expected keys -> missing keys *)
| SubMissingKeys         (* missing key(s)          -> missing keys *)
| SubMissingKeysList     (* missing keys: [..]      -> missing keys: [keys_list] *)
| SubExpectedHasQuoted   (* expected has: '[..]'    -> missing keys: [keys_list] *)
| SubExpectedHas         (* expected has: [..]      -> missing keys: [keys_list] *)
| SubPathUuid            (* /uuid                   -> /{uuid} *)
| SubPathSegment         (* /segment                -> /{id} *)
| SubPathNumber          (* /123                    -> /{id} *)
| SubApiMethod           (* api name: get /x        -> api name: [endpoint] *)
| SubApiPath             (* api name: /x            -> api name: [endpoint] *)
| SubApiResponse         (* api name: xresponse     -> api name: [api_response] *)
| SubApiName             (* api name: x             -> api name: [api_name] *)
| SubStatusCode          (* 30x, 40x, 50x           -> [status_code] *)
| SubCssId               (* #id                     -> #[id] *)
| SubDataCy              (* data-cy='x'             -> data-cy=[attr] *)
| SubUuid                (* uuid                    -> [UUID] *)
| SubNumericId           (* six digits or more      -> [NUMERIC_ID] *)
| SubEmail.              (* a@b.cd                  -> [EMAIL] *)

Definition substitutions : list substitution :=
  [ SubUrl; SubDateDayMonthYear; SubDateMonthDayYear; SubDateIso; SubDateSlash;
    SubDateDash; SubTime; SubDuration; SubTestcase; SubElementQuoteEnd;
    SubElementQuoted; SubElementBare; SubJsonKeys; SubMissingKeys;
    SubMissingKeysList; SubExpectedHasQuoted; SubExpectedHas; SubPathUuid;
    SubPathSegment; SubPathNumber; SubApiMethod; SubApiPath; SubApiResponse;
    SubApiName; SubStatusCode; SubCssId; SubDataCy; SubUuid; SubNumericId;
    SubEmail ].

Section RootCause.
(** [re.sub] of the standard library for each of these calls. *)
Variable re_sub : substitution -> string -> string.

Definition has_missing_keys (normalized : string) : bool :=
  contains "missing keys" normalized ||
  contains "[keys_list]" normalized ||
  contains "expected has" (lower normalized) ||
  contains "actual json" (lower normalized).

(** The value of [normalized] before the final cut: lowered, the
    substitutions applied in order, white space collapsed, and the
    missing-keys messages folded into one of two fixed texts. *)
Definition normalized_before_cut (root_cause : string) : string :=
  let normalized := lower root_cause in
  let normalized := fold_left (fun text sub => re_sub sub text) substitutions normalized in
  let normalized := join " " (split_ws normalized) in
  if has_missing_keys normalized then
    if contains "[status_code]" normalized
    then "api name: [api_name], status code: [status_code], missing keys: [keys_list]"
    else "api name: [api_name], missing keys: [keys_list]"
  else normalized.

Definition normalize_root_cause (root_cause : string) : string :=
  if negb (truthy root_cause) then ""
  else strip (take_str 200 (normalized_before_cut root_cause)).

End RootCause.

(** ** [ReportUrlBuilder] *)

(** [ReportUrlBuilder.normalize_path]: backslashes become slashes. *)
Definition normalize_path (path : string) : string :=
  if negb (truthy path) then path else replace "\" "/" path.

(** [ReportUrlBuilder.extract_project_name] *)
Definition extract_project_name (report_name : string) : string :=
  if negb (truthy report_name) then ""
  else
    let parts := split "-" report_name in
    if 2 <=? length parts then
      if String.eqb (hd "" parts) "Regression" && (3 <=? length parts)
      then nth 1 parts ""
      else hd "" parts
    else report_name.

(** [ReportUrlBuilder.build_dashboard_url]; [None] is an argument left out. *)
Definition build_dashboard_url (base_url report_name html_path : string)
    (project_name job_name : option string) : string :=
  if negb (truthy report_name) then html_path
  else
    let project_name :=
      if truthy_opt project_name then default "" project_name
      else extract_project_name report_name in
    if negb (truthy project_name) then html_path
    else if startswith "ProdSanity-" report_name
    then base_url +:+ "/Results/" +:+ project_name +:+ "/" +:+ report_name
         +:+ "/" +:+ html_path
    else if truthy_opt job_name
    then base_url +:+ "/Results/" +:+ project_name +:+ "/" +:+ default "" job_name
         +:+ "/" +:+ report_name +:+ "/" +:+ html_path
    else base_url +:+ "/Results/" +:+ project_name +:+ "/" +:+ report_name
         +:+ "/" +:+ html_path.

(** [extract_class_and_method] *)
Definition extract_class_and_method (full_name : string) : string * string :=
  if negb (truthy full_name) then ("", "")
  else
    let cleaned_name := remove_duplicate_class_name full_name in
    let parts := split "." cleaned_name in
    if length parts <? 2 then (cleaned_name, "")
    else (last_part (removelast parts), last_part parts).

End Utils.

(* ===================================================================== *)
(** * Regular expressions ([re.search], [re.match]) *)
(* ===================================================================== *)

(** The patterns of the code use literals, character classes, greedy
    repetition, alternation and the word boundary.  [run] is the usual
    backtracking matcher: alternatives left to right, repetition greedy,
    so that the end of the match it reports is the one [re] reports. *)
Module Regex.
Import Py.

Inductive re : Type :=
| Eps                              (* the empty pattern *)
| Chr (p : ascii -> bool)          (* one character of a class *)
| Cat (a b : re)
| Alt (a b : re)                   (* a|b *)
| Star (a : re)                    (* a*  *)
| WordB.                           (* \b *)

Definition is_digit (c : ascii) : bool :=
  let n := nat_of_ascii c in (48 <=? n) && (n <=? 57).

(** [\w] *)
Definition is_word (c : ascii) : bool :=
  is_upper c || is_lower c || is_digit c || Ascii.eqb c "_".

Definition is_word_opt (o : option ascii) : bool :=
  match o with Some c => is_word c | None => false end.

Definition head (s : string) : option ascii :=
  match s with String c _ => Some c | EmptyString => None end.

(** [run r prev s k]: match [r] at the front of [s] ([prev] is the
    character before it) and hand the rest of the text to [k]; the
    first success in backtracking order wins. *)
Fixpoint run {A : Type} (r : re) (prev : option ascii) (s : string)
    (k : option ascii -> string -> option A) : option A :=
  match r with
  | Eps => k prev s
  | Chr p =>
      match s with
      | String c s' => if p c then k (Some c) s' else None
      | EmptyString => None
      end
  | Cat a b => run a prev s (fun prev' s' => run b prev' s' k)
  | Alt a b =>
      match run a prev s k with
      | Some x => Some x
      | None => run b prev s k
      end
  | Star a =>
      (fix loop (fuel : nat) (prev : option ascii) (s : string) : option A :=
         match fuel with
         | O => k prev s
         | S fuel' =>
             match run a prev s (fun prev' s' =>
                     if String.length s' <? String.length s
                     then loop fuel' prev' s' else None) with
             | Some x => Some x
             | None => k prev s
             end
         end) (String.length s) prev s
  | WordB =>
      if xorb (is_word_opt prev) (is_word_opt (head s)) then k prev s else None
  end.

(** [re.match(r, s)]: the end of the match anchored at the start. *)
Definition match_end (r : re) (prev : option ascii) (s : string) : option nat :=
  run r prev s (fun _ rest => Some (String.length s - String.length rest)).

(** [re.search(r, s)]: [(m.start(), m.end())] of the leftmost match. *)
Fixpoint search_from (r : re) (prev : option ascii) (s : string) (i : nat)
    : option (nat * nat) :=
  match match_end r prev s with
  | Some n => Some (i, i + n)
  | None =>
      match s with
      | EmptyString => None
      | String c s' => search_from r (Some c) s' (S i)
      end
  end.

Definition search (r : re) (s : string) : option (nat * nat) :=
  search_from r None s 0.

Definition found (r : re) (s : string) : bool :=
  match search r s with Some _ => true | None => false end.

Definition re_match (r : re) (s : string) : bool :=
  match match_end r None s with Some _ => true | None => false end.

(** ** Pattern combinators *)

Definition chr (c : ascii) : re := Chr (Ascii.eqb c).
(** a character under [re.IGNORECASE] *)
Definition chri (c : ascii) : re :=
  Chr (fun d => Ascii.eqb (lower_char d) (lower_char c)).

Fixpoint lit (s : string) : re :=
  match s with
  | EmptyString => Eps
  | String c EmptyString => chr c
  | String c s' => Cat (chr c) (lit s')
  end.

Fixpoint liti (s : string) : re :=
  match s with
  | EmptyString => Eps
  | String c EmptyString => chri c
  | String c s' => Cat (chri c) (liti s')
  end.

Definition plus (a : re) : re := Cat a (Star a).
Definition opt (a : re) : re := Alt a Eps.
Fixpoint seq (l : list re) : re :=
  match l with
  | [] => Eps
  | [a] => a
  | a :: l' => Cat a (seq l')
  end.

Definition dquote : ascii := ascii_of_nat 34.

Definition ws : re := Chr is_space.                       (* \s *)
Definition ws0 : re := Star ws.                           (* \s* *)
Definition ws1 : re := plus ws.                           (* \s+ *)
Definition digit : re := Chr is_digit.                    (* \d *)
Definition word : re := Chr is_word.                      (* \w *)
Definition dot : re := Chr (fun c => negb (Ascii.eqb c newline_char)).  (* . *)
Definition is_quote (c : ascii) : bool :=
  Ascii.eqb c "'" || Ascii.eqb c dquote.
Definition quote : re := Chr is_quote.          (* a single or double quote *)
Definition nquote : re := Chr (fun c => negb (is_quote c)). (* any other character *)

(** words separated by [\s+], under [re.IGNORECASE] *)
Fixpoint wordsi (l : list string) : re :=
  match l with
  | [] => Eps
  | [w] => liti w
  | w :: l' => Cat (liti w) (Cat ws1 (wordsi l'))
  end.

End Regex.

(* ===================================================================== *)
(** * src/utils.py: TestDataCache;  src/agent/analyzer.py: FailureClassification *)
(* ===================================================================== *)

Module Cache.

(** One entry of [TestDataCache._cache] (the keys the rules read). *)
Record entry : Type := {
  execution_log : string;
  error_message : string;
  stack_trace   : string;
  combined_log  : string
}.

(** [TestDataCache._cache]: normalized test name to entry. *)
Abbreviation TestDataCache := (gmap string entry).

Definition get_combined_log (cache : TestDataCache) (test_name : string) : string :=
  let normalized := Utils.normalize test_name in
  match cache !! normalized with
  | Some cached => combined_log cached
  | None => ""
  end.

Definition get_execution_log (cache : TestDataCache) (test_name : string) : string :=
  let normalized := Utils.normalize test_name in
  match cache !! normalized with
  | Some cached => execution_log cached
  | None => ""
  end.

End Cache.

Module Analyzer.

Record FailureClassification : Type := {
  test_name            : string;
  classification       : string;
  confidence           : string;
  root_cause           : option string;
  recommended_action   : option string;
  root_cause_category  : string
}.

End Analyzer.

(* ===================================================================== *)
(** * src/reporters/category_rules.py *)
(* ===================================================================== *)

Module CategoryRules.
Import Py Regex Cache Analyzer.

(** [x or ""] *)
Definition or_empty (o : option string) : string :=
  match o with Some s => if truthy s then s else "" | None => "" end.

Record CategoryRule : Type := {
  rule_name : string;
  priority  : nat;
  category  : string;
  matches   : FailureClassification -> TestDataCache -> bool
}.

(** ** The patterns of the rules *)

(** a quoted name containing [Page] *)
Definition page (ignorecase : bool) : re :=
  seq [quote; plus nquote; (if ignorecase then liti "Page" else lit "Page");
       Star nquote; quote].

Definition NOT_or_not : re := Alt (liti "NOT") (liti "not").
Definition colon_or_dash : re := Chr (fun c => Ascii.eqb c ":" || Ascii.eqb c "-").

(** 'XPage' NOT loaded even after :- 40.071 seconds  (IGNORECASE) *)
Definition pat_page_not_loaded_seconds : re :=
  seq [page true; ws1; wordsi ["NOT"; "loaded"; "even"; "after"]; ws0;
       colon_or_dash; ws0; plus digit; opt (chr "."); Star digit; ws1;
       liti "seconds"].

(** 'XPage' not loaded even after   (case-sensitive, run on lowered text) *)
Definition pat_page_not_loaded_lower : re :=
  seq [page false; ws1; lit "not"; ws1; lit "loaded"; ws1; lit "even"; ws1;
       lit "after"].

(** 'XPage' (?:NOT|not) loaded even after   (IGNORECASE) *)
Definition pat_page_not_loaded : re :=
  seq [page true; ws1; NOT_or_not; ws1; wordsi ["loaded"; "even"; "after"]].

(** 'XPage' not loaded   (IGNORECASE) *)
Definition pat_page_not_loaded_short : re :=
  seq [page true; ws1; wordsi ["not"; "loaded"]].

(** Element 'x' is NOT visible even after waiting for N seconds *)
Definition pat_element_not_visible : re :=
  seq [liti "Element"; ws1; quote; plus nquote; quote; ws1; liti "is"; ws1;
       NOT_or_not; ws1;
       wordsi ["visible"; "even"; "after"; "waiting"; "for"]; ws1;
       plus digit; ws1; liti "seconds"].

(** Element 'x' is NOT visible and clickable even after waiting for N seconds *)
Definition pat_element_not_visible_clickable : re :=
  seq [liti "Element"; ws1; quote; plus nquote; quote; ws1; liti "is"; ws1;
       NOT_or_not; ws1;
       wordsi ["visible"; "and"; "clickable"; "even"; "after"; "waiting"; "for"];
       ws1; plus digit; ws1; liti "seconds"].

Definition waiting_for_element : re :=
  wordsi ["waiting"; "for"; "element"; "to"; "be"].

(** TimeoutException.*waiting for element to be (?:clickable|visible) *)
Definition pat_timeout_waiting : re :=
  seq [liti "TimeoutException"; Star dot; waiting_for_element; ws1;
       Alt (liti "clickable") (liti "visible")].

Definition pat_selenium_timeout_waiting : re :=
  seq [liti "org.openqa.selenium.TimeoutException"; Star dot;
       waiting_for_element; ws1; Alt (liti "clickable") (liti "visible")].

(** TimeoutException.*Expected condition failed.*waiting ... clickable *)
Definition pat_timeout_expected_condition : re :=
  seq [liti "TimeoutException"; Star dot;
       wordsi ["Expected"; "condition"; "failed"]; Star dot;
       waiting_for_element; ws1; liti "clickable"].

(** expected 'X' was :-'Y'. but actual is *)
Definition pat_expected_was_but_actual : re :=
  seq [liti "expected"; ws1; opt quote; plus nquote; opt quote; ws1;
       liti "was"; ws0; colon_or_dash; ws0; opt quote; plus nquote; opt quote;
       ws0; opt (chr "."); ws0; liti "but"; ws1; liti "actual"; ws1; liti "is"].

(** expected [^.]*but actual *)
Definition pat_expected_but_actual : re :=
  seq [liti "expected"; ws1; Star (Chr (fun c => negb (Ascii.eqb c ".")));
       liti "but"; ws1; liti "actual"].

Definition pat_classes_of_keys : re :=
  wordsi ["classes"; "of"; "actual"; "and"; "expected"; "key"].

(** missing (?:key|field) : *)
Definition pat_missing_key : re :=
  seq [liti "missing"; ws1; Alt (liti "key") (liti "field"); ws0; chr ":"].

(** actual json doesn'?t contain all expected keys *)
Definition pat_json_keys : re :=
  seq [liti "actual"; ws1; liti "json"; ws1; liti "doesn"; opt (chr "'");
       liti "t"; ws1; wordsi ["contain"; "all"; "expected"; "keys"]].

(** key / value is null *)
Definition pat_key_value_null : re :=
  seq [liti "key"; ws0; chr "/"; ws0; wordsi ["value"; "is"; "null"]].

Definition pat_following_asserts : re :=
  wordsi ["the"; "following"; "asserts"; "failed"].

Definition pat_word_expected : re := seq [WordB; liti "expected"; WordB].
Definition pat_word_actual : re := seq [WordB; liti "actual"; WordB].

(** ** The rules *)

Definition ElementClickInterceptedRule : CategoryRule := {|
  rule_name := "ElementClickInterceptedRule";
  priority := 12;
  category := "ELEMENT_NOT_FOUND";
  matches := fun failure cache =>
    let root_cause := or_empty (root_cause failure) in
    let combined_text :=
      lower (root_cause +:+ " " +:+ or_empty (recommended_action failure)) in
    let execution_log := lower (get_combined_log cache (test_name failure)) in
    contains "ElementClickInterceptedException" root_cause ||
    contains "elementclickinterceptedexception" combined_text ||
    contains "ElementClickInterceptedException"
             (get_combined_log cache (test_name failure)) ||
    contains "elementclickinterceptedexception" execution_log
|}.

Definition is_page_load_timeout_pattern (root_cause execution_log : string) : bool :=
  found pat_page_not_loaded_seconds root_cause ||
  found pat_page_not_loaded_seconds execution_log ||
  found pat_page_not_loaded_lower (lower root_cause) ||
  found pat_page_not_loaded_lower (lower execution_log) ||
  found pat_page_not_loaded root_cause ||
  found pat_page_not_loaded execution_log.

Definition is_element_visibility_timeout (root_cause execution_log : string) : bool :=
  found pat_element_not_visible root_cause ||
  found pat_element_not_visible execution_log ||
  found pat_element_not_visible_clickable root_cause ||
  found pat_element_not_visible_clickable execution_log.

Definition is_timeout_exception_for_element (root_cause execution_log : string) : bool :=
  found pat_timeout_waiting root_cause ||
  found pat_timeout_waiting execution_log ||
  found pat_selenium_timeout_waiting root_cause ||
  found pat_selenium_timeout_waiting execution_log ||
  found pat_timeout_expected_condition root_cause ||
  found pat_timeout_expected_condition execution_log.

Definition PageLoadTimeoutRule : CategoryRule := {|
  rule_name := "PageLoadTimeoutRule";
  priority := 15;
  category := "TIMEOUT";
  matches := fun failure cache =>
    let root_cause := or_empty (root_cause failure) in
    let execution_log := get_combined_log cache (test_name failure) in
    is_page_load_timeout_pattern root_cause execution_log ||
    is_element_visibility_timeout root_cause execution_log ||
    is_timeout_exception_for_element root_cause execution_log
|}.

Definition locator_issue_in (text : string) : bool :=
  contains "staleelementreferenceexception" text.

Definition null_pointer_on_element (text : string) : bool :=
  contains "nullpointerexception" text &&
  (contains "webelement" text || contains "getpageelement" text ||
   contains "gettext()" text || contains ".gettext()" text).

Definition index_out_of_bounds_zero (text : string) : bool :=
  contains "indexoutofboundsexception" text &&
  (contains "length 0" text || contains "index 0" text ||
   contains "out of bounds for length 0" text).

Definition ElementLocatorExceptionRule : CategoryRule := {|
  rule_name := "ElementLocatorExceptionRule";
  priority := 11;
  category := "ELEMENT_NOT_FOUND";
  matches := fun failure cache =>
    let root_cause := or_empty (root_cause failure) in
    let recommended_action := or_empty (recommended_action failure) in
    let combined_text := lower (root_cause +:+ " " +:+ recommended_action) in
    let execution_log := lower (get_combined_log cache (test_name failure)) in
    locator_issue_in combined_text ||
    locator_issue_in execution_log ||
    null_pointer_on_element combined_text ||
    null_pointer_on_element execution_log ||
    index_out_of_bounds_zero combined_text ||
    index_out_of_bounds_zero execution_log ||
    contains "stringindexoutofboundsexception" combined_text ||
    contains "stringindexoutofboundsexception" execution_log ||
    contains "StringIndexOutOfBoundsException" root_cause ||
    contains "StringIndexOutOfBoundsException"
             (get_combined_log cache (test_name failure))
|}.

Definition IllegalArgumentExceptionRule : CategoryRule := {|
  rule_name := "IllegalArgumentExceptionRule";
  priority := 10;
  category := "ELEMENT_NOT_FOUND";
  matches := fun failure cache =>
    let root_cause := or_empty (root_cause failure) in
    let combined_text :=
      lower (root_cause +:+ " " +:+ or_empty (recommended_action failure)) in
    let execution_log := lower (get_combined_log cache (test_name failure)) in
    contains "illegalargumentexception" combined_text ||
    contains "illegalargumentexception" execution_log ||
    contains "IllegalArgumentException" root_cause ||
    contains "IllegalArgumentException"
             (get_combined_log cache (test_name failure))
|}.

Definition is_valid_timeout (root_cause execution_log : string) : bool :=
  let root_cause_lower := lower root_cause in
  found pat_page_not_loaded root_cause ||
  found pat_page_not_loaded execution_log ||
  contains "not loaded even after" root_cause_lower ||
  (contains "not loaded" root_cause_lower &&
   (contains "seconds" root_cause_lower || contains "timeout" root_cause_lower)) ||
  found pat_page_not_loaded_short root_cause_lower ||
  found pat_element_not_visible root_cause ||
  found pat_element_not_visible execution_log ||
  found pat_element_not_visible_clickable root_cause ||
  found pat_element_not_visible_clickable execution_log ||
  found pat_timeout_waiting root_cause ||
  found pat_timeout_waiting execution_log ||
  found pat_selenium_timeout_waiting root_cause ||
  found pat_selenium_timeout_waiting execution_log ||
  found pat_timeout_expected_condition root_cause ||
  found pat_timeout_expected_condition execution_log.

Definition NonPageLoadTimeoutFilterRule : CategoryRule := {|
  rule_name := "NonPageLoadTimeoutFilterRule";
  priority := 6;
  category := "OTHER";
  matches := fun failure cache =>
    let current_category := root_cause_category failure in
    if negb (String.eqb current_category "TIMEOUT") then false
    else
      let root_cause := or_empty (root_cause failure) in
      let execution_log := get_combined_log cache (test_name failure) in
      negb (is_valid_timeout root_cause execution_log)
|}.

Definition is_clearly_not_assertion
    (assertion_text root_cause execution_log : string) : bool :=
  contains "nosuchelementexception" assertion_text ||
  contains "elementclickinterceptedexception" assertion_text ||
  contains "staleelementreferenceexception" assertion_text ||
  contains "timeoutexception" assertion_text ||
  contains "webdriverexception" assertion_text ||
  found pat_page_not_loaded root_cause ||
  found pat_page_not_loaded execution_log ||
  contains "not loaded even after" assertion_text ||
  contains "not loaded even after" (lower execution_log).

Definition is_valid_assertion (assertion_text : string) : bool :=
  found pat_expected_was_but_actual assertion_text ||
  found pat_expected_but_actual assertion_text ||
  found pat_classes_of_keys assertion_text ||
  found pat_missing_key assertion_text ||
  found pat_json_keys assertion_text ||
  found pat_key_value_null assertion_text ||
  found pat_following_asserts assertion_text ||
  (found pat_word_expected assertion_text && found pat_word_actual assertion_text).

Definition AssertionFailureFilterRule : CategoryRule := {|
  rule_name := "AssertionFailureFilterRule";
  priority := 5;
  category := "OTHER";
  matches := fun failure cache =>
    let current_category := root_cause_category failure in
    if negb (String.eqb current_category "ASSERTION_FAILURE") then false
    else
      let root_cause := or_empty (root_cause failure) in
      let recommended_action := or_empty (recommended_action failure) in
      let execution_log := get_combined_log cache (test_name failure) in
      let assertion_text :=
        lower (root_cause +:+ " " +:+ recommended_action +:+ " " +:+ execution_log) in
      if is_clearly_not_assertion assertion_text root_cause execution_log then true
      else negb (is_valid_assertion assertion_text)
|}.

(** ** [list.sort(key=..., reverse=True)]: stable, largest key first *)
Section Sort.
Context {A : Type} (key_lt : A -> A -> bool).

Fixpoint insert_desc (x : A) (l : list A) : list A :=
  match l with
  | [] => [x]
  | y :: l' => if key_lt x y then y :: insert_desc x l' else x :: l
  end.

Definition sort_desc (l : list A) : list A := fold_right insert_desc [] l.

(** nothing in the list is above its head *)
Definition head_on_top (l : list A) : Prop :=
  match l with
  | [] => True
  | h :: _ => forall z, z ∈ l -> key_lt h z = false
  end.

End Sort.

(** ** [CategoryRuleEngine] *)

(** [__init__]: all rules, sorted by priority (highest first) *)
Definition engine_rules : list CategoryRule :=
  sort_desc (fun r1 r2 => priority r1 <? priority r2)
    [ ElementClickInterceptedRule;
      PageLoadTimeoutRule;
      ElementLocatorExceptionRule;
      IllegalArgumentExceptionRule;
      NonPageLoadTimeoutFilterRule;
      AssertionFailureFilterRule ].

(** [category_priority.get(c, 0)] *)
Definition category_priority (c : string) : nat :=
  if String.eqb c "TIMEOUT" then 15
  else if String.eqb c "ELEMENT_NOT_FOUND" then 12
  else if String.eqb c "ASSERTION_FAILURE" then 8
  else if String.eqb c "ENVIRONMENT_ISSUE" then 6
  else if String.eqb c "OTHER" then 1
  else 0.

(** the sort key [(category_priority.get(r.category, 0), r.priority)] *)
Definition selection_key (r : CategoryRule) : nat * nat :=
  (category_priority (category r), priority r).

Definition key_lt (k1 k2 : nat * nat) : bool :=
  (fst k1 <? fst k2) || ((fst k1 =? fst k2) && (snd k1 <? snd k2)).

Definition rule_lt (r1 r2 : CategoryRule) : bool :=
  key_lt (selection_key r1) (selection_key r2).

Definition matching_rules (rules : list CategoryRule)
    (failure : FailureClassification) (cache : TestDataCache) : list CategoryRule :=
  filter (fun r => matches r failure cache = true) rules.

(** [matching_rules[0]] after the sort, when some rule matched *)
Definition selected_rule (rules : list CategoryRule)
    (failure : FailureClassification) (cache : TestDataCache) : option CategoryRule :=
  match sort_desc rule_lt (matching_rules rules failure cache) with
  | r :: _ => Some r
  | [] => None
  end.

Definition classify_with (rules : list CategoryRule)
    (failure : FailureClassification) (cache : TestDataCache) : string :=
  let category := root_cause_category failure in
  let category :=
    if String.eqb category "NETWORK_ISSUE" || String.eqb category "ENVIRONMENT_FAILURE"
    then "ENVIRONMENT_ISSUE" else category in
  match selected_rule rules failure cache with
  | Some r => CategoryRules.category r
  | None => category
  end.

(** [CategoryRuleEngine().classify(failure, cache)] *)
Definition classify (failure : FailureClassification) (cache : TestDataCache) : string :=
  classify_with engine_rules failure cache.

(** The failure with its [root_cause_category] replaced by [category]. *)
Definition with_category (failure : FailureClassification) (category : string)
    : FailureClassification :=
  {| test_name := test_name failure;
     classification := classification failure;
     confidence := confidence failure;
     root_cause := root_cause failure;
     recommended_action := recommended_action failure;
     root_cause_category := category |}.

(** the merged upstream tag *)
Definition merged (tag : string) : string :=
  if String.eqb tag "NETWORK_ISSUE" || String.eqb tag "ENVIRONMENT_FAILURE"
  then "ENVIRONMENT_ISSUE" else tag.

(** The enumeration of the specification. *)
Definition categories : list string :=
  ["ELEMENT_NOT_FOUND"; "TIMEOUT"; "ASSERTION_FAILURE"; "ENVIRONMENT_ISSUE"; "OTHER"].

End CategoryRules.

(* ===================================================================== *)
(** * src/parsers/html_parser.py: the log isolator *)
(* ===================================================================== *)

Module HtmlParser.
Import Py Regex.

Definition start_marker_patterns : list re :=
  [ liti "Method arguments:";
    liti "Execution started for testcase";
    liti "Execution started for test";
    liti "Test Case Details" ].

Definition pat_execution_end : re := liti "EXECUTION OF TESTCASE ENDS HERE".

Definition word_or_dot : re := Chr (fun c => is_word c || Ascii.eqb c ".").

Definition exception_patterns : list re :=
  [ seq [lit "org.openqa.selenium."; plus word; lit "Exception:"];
    seq [lit "java.lang."; plus word; lit "Exception:"];
    seq [lit "java.lang."; plus word; lit "Error:"];
    lit "AssertionError:";
    seq [lit "at "; plus word_or_dot; chr "("; plus word_or_dot;
         lit ".java:"; plus digit; chr ")"] ].

Definition pat_next_test : re :=
  Alt (liti "Method arguments:") (liti "Execution started for testcase").

Definition failure_markers : list re :=
  [ liti "Failure occurred in test"; liti "Total time taken by Test" ].

Definition end_marker_patterns : list re :=
  [ liti "Total time taken by Test";
    liti "Failure occurred in test";
    seq [liti "org.openqa.selenium."; plus word; liti "Exception:"] ].

(** [for pattern in patterns: m = re.search(pattern, text); if m: ... break] *)
Fixpoint first_match (patterns : list re) (text : string) : option (nat * nat) :=
  match patterns with
  | [] => None
  | p :: ps =>
      match search p text with
      | Some m => Some m
      | None => first_match ps text
      end
  end.

(** The text of the log: the texts of the font tags, cleaned, the empty
    ones dropped, joined by newlines. *)
Definition full_log_of (font_texts : list string) : string :=
  let cleaned := map (fun t => replace "&nbsp;" " " (replace "&nbsp" " " t)) font_texts in
  join newline (List.filter truthy cleaned).

Definition find_start (full_log : string) : nat :=
  match first_match start_marker_patterns full_log with
  | Some (start, _) => start
  | None => 0
  end.

Definition find_end (full_log : string) (start_idx : nat) : nat :=
  let len := String.length full_log in
  match search pat_execution_end (drop_str start_idx full_log) with
  | Some (_, e) =>
      let execution_end_pos := start_idx + e in
      let remaining_after_end := drop_str execution_end_pos full_log in
      match first_match exception_patterns remaining_after_end with
      | Some (_, exception_end) =>
          let exception_pos := execution_end_pos + exception_end in
          match search pat_next_test (drop_str exception_end remaining_after_end) with
          | Some (next_start, _) => execution_end_pos + exception_end + next_start
          | None => Nat.min (exception_pos + 2000) len
          end
      | None =>
          match first_match failure_markers remaining_after_end with
          | Some (_, failure_end) => execution_end_pos + failure_end + 1000
          | None => Nat.min (execution_end_pos + 5000) len
          end
      end
  | None =>
      match first_match end_marker_patterns (drop_str start_idx full_log) with
      | Some (_, e) => start_idx + e + 2000
      | None => len
      end
  end.

(** [_extract_execution_log] on the text of the log *)
Definition isolate (full_log : string) : string :=
  let start_idx := find_start full_log in
  let end_idx := find_end full_log start_idx in
  let isolated_log := slice start_idx end_idx full_log in
  if (start_idx =? 0) && (end_idx =? String.length full_log) then full_log
  else isolated_log.

Definition _extract_execution_log (font_texts : list string) : string :=
  isolate (full_log_of font_texts).

(** No start marker and no end marker of any kind anywhere in the log. *)
Definition no_boundary (full_log : string) : Prop :=
  first_match start_marker_patterns full_log = None /\
  search pat_execution_end full_log = None /\
  first_match end_marker_patterns full_log = None.

End HtmlParser.

(* ===================================================================== *)
(** * src/parsers/models.py *)
(* ===================================================================== *)

Module Models.

Inductive TestStatus : Type := PASS | FAIL | SKIP | ERROR.

Definition status_eqb (a b : TestStatus) : bool :=
  match a, b with
  | PASS, PASS | FAIL, FAIL | SKIP, SKIP | ERROR, ERROR => true
  | _, _ => false
  end.

Record TestResult : Type := {
  class_name       : string;
  method_name      : string;
  status           : TestStatus;
  duration_seconds : Q;
  error_type       : option string;
  error_message    : option string;
  stack_trace      : option string;
  platform         : option string;
  execution_log    : option string;
  description      : option string
}.

Definition full_name (r : TestResult) : string :=
  Utils.remove_duplicate_class_name (class_name r) +:+ "." +:+ method_name r.

(** [status in [TestStatus.FAIL, TestStatus.ERROR]] *)
Definition failing (s : TestStatus) : bool :=
  match s with FAIL | ERROR => true | _ => false end.

Definition is_failure (r : TestResult) : bool := failing (status r).

End Models.

(* ===================================================================== *)
(** * src/utils.py: TestNameNormalizer.find_matching_test, TestDataCache._build_cache *)
(* ===================================================================== *)

Module Matching.
Import Py Models.

(** The three strategies tried on one result. *)
Definition result_matches (test_name : string) (result : TestResult) : bool :=
  let normalized_search := Utils.normalize test_name in
  let result_full_name := full_name result in
  if Utils.match_names test_name result_full_name then true
  else if String.eqb (Utils.normalize result_full_name) normalized_search then true
  else if truthy (class_name result) && truthy (method_name result) then
    let class_method :=
      Utils.remove_duplicate_class_name (class_name result)
      +:+ "." +:+ method_name result in
    Utils.match_names test_name class_method
  else false.

(** [TestNameNormalizer.find_matching_test] *)
Fixpoint find_matching_test (test_name : string) (test_results : list TestResult)
    : option TestResult :=
  match test_results with
  | [] => None
  | result :: rest =>
      if result_matches test_name result then Some result
      else find_matching_test test_name rest
  end.

End Matching.

Module CacheBuild.
Import Py Models.

(** [x or ''] on an optional text *)
Definition text_of (o : option string) : string := default "" o.

(** The combined log of a result: the execution log, then the error
    message and the stack trace unless the text so far contains them. *)
Definition combine (execution_log error_message stack_trace : string) : string :=
  let sep := newline +:+ newline in
  let combined_log := execution_log in
  let combined_log :=
    if truthy error_message && negb (contains error_message combined_log)
    then (if truthy combined_log then combined_log +:+ sep +:+ error_message
          else error_message)
    else combined_log in
  if truthy stack_trace && negb (contains stack_trace combined_log)
  then (if truthy combined_log then combined_log +:+ sep +:+ stack_trace
        else stack_trace)
  else combined_log.

Definition entry_of (result : TestResult) : Cache.entry :=
  let execution_log := text_of (Models.execution_log result) in
  let error_message := text_of (Models.error_message result) in
  let stack_trace := text_of (Models.stack_trace result) in
  {| Cache.execution_log := execution_log;
     Cache.error_message := error_message;
     Cache.stack_trace := stack_trace;
     Cache.combined_log := combine execution_log error_message stack_trace |}.

(** One turn of the loop of [_build_cache]. *)
Definition cache_step (cache : gmap string Cache.entry) (result : TestResult)
    : gmap string Cache.entry :=
  let normalized_name := Utils.normalize (full_name result) in
  if truthy normalized_name then <[normalized_name := entry_of result]> cache
  else cache.

(** [TestDataCache._build_cache] (the keys of an entry that hold text) *)
Definition _build_cache (test_results : list TestResult) : gmap string Cache.entry :=
  fold_left cache_step test_results ∅.

(** [TestDataCache.has_test] *)
Definition has_test (cache : gmap string Cache.entry) (test_name : string) : bool :=
  bool_decide (is_Some (cache !! Utils.normalize test_name)).

End CacheBuild.

(* ===================================================================== *)
(** * src/parsers/html_parser.py: get_summary_stats, _extract_platform *)
(* ===================================================================== *)

Module Summary.
Import Py Models.

Record TestSummary : Type := {
  total            : nat;
  passed           : nat;
  failed           : nat;
  skipped          : nat;
  errors           : nat;
  duration_seconds : Q
}.

(** [sum(1 for r in results if r.status == st)] *)
Definition count_status (st : TestStatus) (results : list TestResult) : nat :=
  length (List.filter (fun r => status_eqb (status r) st) results).

(** [HTMLReportParser.get_summary_stats] *)
Definition get_summary_stats (results : list TestResult) : TestSummary :=
  {| total := length results;
     passed := count_status PASS results;
     failed := count_status FAIL results;
     skipped := count_status SKIP results;
     errors := count_status ERROR results;
     duration_seconds :=
       fold_left (fun acc r => (acc + Models.duration_seconds r)%Q) results 0%Q |}.

(** [HTMLReportParser._extract_platform] *)
Definition _extract_platform (class_name : string) : string :=
  let class_lower := lower class_name in
  if contains ".api." class_lower then "API"
  else if contains ".mobile." class_lower then "MOBILE"
  else if contains ".web." class_lower then "WEB"
  else "UNKNOWN".

End Summary.

(* ===================================================================== *)
(** * Lines dropped from a failure reason (data_builder.py, memory.py) *)
(* ===================================================================== *)

Module ReasonLines.
Import Py Regex.

(** [^\s*Results\s*Url\s*:] and [^\s*Testcase\s*Name\s*:], IGNORECASE *)
Definition pat_results_url : re :=
  seq [ws0; liti "Results"; ws0; liti "Url"; ws0; chr ":"].
Definition pat_testcase_name : re :=
  seq [ws0; liti "Testcase"; ws0; liti "Name"; ws0; chr ":"].

Definition redundant (line : string) : bool :=
  re_match pat_results_url line || re_match pat_testcase_name line.

(** split into lines, drop the redundant ones, join, strip *)
Definition clean (reason : string) : string :=
  strip (join newline
           (List.filter (fun line => negb (redundant line)) (split newline_char reason))).

End ReasonLines.

(* ===================================================================== *)
(** * src/parsers/data_builder.py: the record reconciler *)
(* ===================================================================== *)

Module DataBuilder.
Import Py Regex Models.

(** A key of a database row: missing, [None], or a string. *)
Inductive field : Type := Absent | Null | Val (s : string).

(** [row.get(key, '')]: [None] stands for Python's [None] *)
Definition get_or_empty (f : field) : option string :=
  match f with
  | Absent => Some ""
  | Null => None
  | Val s => Some s
  end.

Record db_row : Type := {
  testcaseName  : field;
  testStatus    : field;
  failureReason : field
}.

(** The status vocabulary of [db_row_to_test_result]. *)
Definition parse_status (status_str : string) : TestStatus :=
  if mem status_str ["PASS"; "PASSED"; "SUCCESS"; "OK"] then PASS
  else if mem status_str ["FAIL"; "FAILED"; "FAILURE"] then FAIL
  else if mem status_str ["ERROR"; "ERRORED"] then ERROR
  else if mem status_str ["SKIP"; "SKIPPED"] then SKIP
  else PASS.

(** [(\w+Exception|\w+Error)] *)
Definition pat_error_type : re :=
  Alt (seq [plus word; lit "Exception"]) (seq [plus word; lit "Error"]).

Definition platform_of (class_name : string) : option string :=
  let class_name_lower := lower class_name in
  if contains "api" class_name_lower || contains ".api." class_name_lower
  then Some "API"
  else if contains "web" class_name_lower || contains ".web." class_name_lower
  then Some "WEB"
  else if contains "mobile" class_name_lower || contains ".mobile." class_name_lower
  then Some "MOBILE"
  else None.

(** [(error_type, error_message, stack_trace)] from the failure reason *)
Definition error_info (failure_reason : option string)
    : option string * option string * option string :=
  match failure_reason with
  | Some reason =>
      if truthy reason then
        let failure_reason := ReasonLines.clean reason in
        if truthy failure_reason then
          let first_line := hd "" (split newline_char failure_reason) in
          let error_type :=
            match search pat_error_type first_line with
            | Some (i, j) => Some (slice i j first_line)
            | None => None
            end in
          if has_char newline_char failure_reason
             && (500 <? String.length failure_reason)
          then (error_type, Some (take_str 500 first_line), Some failure_reason)
          else (error_type, Some failure_reason, None)
        else (None, None, None)
      else (None, None, None)
  | None => (None, None, None)
  end.

(** [db_row_to_test_result]; [None] when the function raises. *)
Definition db_row_to_test_result (row : db_row)
    (execution_log : option string) (duration : option Q) : option TestResult :=
  match get_or_empty (testcaseName row) with
  | None => None
  | Some testcase_name =>
      if negb (truthy testcase_name) then None
      else
        let parts := split "." testcase_name in
        let '(class_name, method_name) :=
          if 2 <=? length parts
          then (join "." (removelast parts), last_part parts)
          else ("", testcase_name) in
        match get_or_empty (testStatus row) with
        | None => None
        | Some raw_status =>
            let status_str := strip (upper raw_status) in
            let status := parse_status status_str in
            let '(error_type, error_message, stack_trace) :=
              error_info (get_or_empty (failureReason row)) in
            Some {| class_name := class_name;
                    method_name := method_name;
                    status := status;
                    duration_seconds :=
                      match duration with Some d => d | None => 0%Q end;
                    error_type := error_type;
                    error_message := error_message;
                    stack_trace := stack_trace;
                    platform := platform_of class_name;
                    execution_log := execution_log;
                    description := None |}
        end
  end.

(** A [dict] with string keys in insertion order. *)
Definition dict (V : Type) : Type := list (string * V).

Fixpoint dict_get {V : Type} (k : string) (d : dict V) : option V :=
  match d with
  | [] => None
  | (k', v) :: d' => if String.eqb k k' then Some v else dict_get k d'
  end.

(** Strategy 4: the first entry whose last segment is the method name,
    case-insensitively. *)
Fixpoint by_method_name {V : Type} (method_lower : string) (d : dict V) : option V :=
  match d with
  | [] => None
  | (html_full_name, v) :: d' =>
      let html_parts := split "." html_full_name in
      if (1 <=? length html_parts)
         && String.eqb (lower (last_part html_parts)) method_lower
      then Some v
      else by_method_name method_lower d'
  end.

(** The four matching strategies shared by the log and the duration lookup. *)
Definition find_matching {V : Type} (testcase_name : string) (d : dict V) : option V :=
  match d with
  | [] => None
  | _ :: _ =>
      match dict_get testcase_name d with
      | Some v => Some v
      | None =>
          let parts := split "." testcase_name in
          if 2 <=? length parts then
            let class_method := join "." (last_two parts) in
            match dict_get class_method d with
            | Some v => Some v
            | None =>
                let class_name := last_part (removelast parts) in
                let method_name := last_part parts in
                let cleaned_class := Utils.remove_duplicate_class_name class_name in
                let cleaned_class_method := cleaned_class +:+ "." +:+ method_name in
                match dict_get cleaned_class_method d with
                | Some v => Some v
                | None => by_method_name (lower method_name) d
                end
            end
          else None
      end
  end.

Definition _find_matching_execution_log (testcase_name : string)
    (execution_logs : dict string) : option string :=
  find_matching testcase_name execution_logs.

Definition _find_matching_duration (testcase_name : string)
    (durations : dict Q) : option Q :=
  find_matching testcase_name durations.

(** The decision taken on a duplicate: [execution_log] is the log found
    for the candidate, [test_result] the candidate, [existing] the entry
    already stored under the name. *)
Definition should_replace (execution_log : option string)
    (test_result existing : TestResult) : bool :=
  if truthy_opt execution_log && negb (truthy_opt (Models.execution_log existing))
  then true
  else if failing (status test_result) && status_eqb (status existing) PASS
  then true
  else if truthy_opt execution_log && truthy_opt (Models.execution_log existing)
  then
    (if failing (status test_result) && status_eqb (status existing) PASS
     then true else false)
  else false.

(** Deduplicate: keep only one entry per testcaseName. *)
Definition deduplicate (test_results_by_name : gmap string TestResult)
    (testcase_name : string) (execution_log : option string)
    (test_result : TestResult) : gmap string TestResult :=
  match test_results_by_name !! testcase_name with
  | None => <[testcase_name := test_result]> test_results_by_name
  | Some existing =>
      if should_replace execution_log test_result existing
      then <[testcase_name := test_result]> test_results_by_name
      else test_results_by_name
  end.

(** One turn of the loop over [db_results]. *)
Definition process_row (execution_logs : dict string) (durations : dict Q)
    (test_results_by_name : gmap string TestResult) (row : db_row)
    : gmap string TestResult :=
  match get_or_empty (testcaseName row) with
  | None => test_results_by_name
  | Some testcase_name =>
      if negb (truthy testcase_name) then test_results_by_name
      else
        let execution_log := _find_matching_execution_log testcase_name execution_logs in
        let duration := _find_matching_duration testcase_name durations in
        match db_row_to_test_result row execution_log duration with
        | Some test_result =>
            deduplicate test_results_by_name testcase_name execution_log test_result
        | None => test_results_by_name
        end
  end.

(** [get_full_report_data_from_db]: the map [test_results_by_name] whose
    values are the returned test results. *)
Definition get_full_report_data_from_db (db_results : list db_row)
    (execution_logs : dict string) (durations : dict Q)
    : gmap string TestResult :=
  fold_left (process_row execution_logs durations) db_results ∅.

(** The name and the parsed status of a row that enters the map. *)
Definition row_name (row : db_row) : option string :=
  match get_or_empty (testcaseName row) with
  | Some n => if truthy n then Some n else None
  | None => None
  end.

Definition row_status (row : db_row) : option TestStatus :=
  match get_or_empty (testStatus row) with
  | Some raw => Some (parse_status (strip (upper raw)))
  | None => None
  end.

(** What holds of the map after the rows [processed]: every entry has
    the log found for its name; an entry that is PASS has seen no
    failing row of its name; a name without entry has seen only rows
    that could not be converted. *)
Record invariant (logs : dict string) (processed : list db_row)
    (m : gmap string TestResult) : Prop := {
  inv_log : forall n r, m !! n = Some r ->
    execution_log r = _find_matching_execution_log n logs;
  inv_pass : forall n r, m !! n = Some r -> status r = PASS ->
    forall row, row ∈ processed -> row_name row = Some n ->
    forall st, row_status row = Some st -> failing st = false;
  inv_none : forall n, m !! n = None ->
    forall row, row ∈ processed -> row_name row = Some n ->
    row_status row = None
}.

(** Every entry is the result of a row of its name. *)
Definition from_rows (logs : dict string) (durs : dict Q) (processed : list db_row)
    (m : gmap string TestResult) : Prop :=
  forall n r, m !! n = Some r ->
    exists row, row ∈ processed /\ row_name row = Some n /\
      db_row_to_test_result row (_find_matching_execution_log n logs)
        (_find_matching_duration n durs) = Some r.

End DataBuilder.

(* ===================================================================== *)
(** * src/agent/memory.py: the history engine *)
(* ===================================================================== *)

Module Memory.
Import Py.

(** A row of the history query (a [dict]; a missing key and [None] read
    the same through [row.get]). *)
Record db_row : Type := {
  row_buildTag      : option string;
  row_status        : option string;   (* the status column *)
  row_error         : option string;   (* the error column *)
  row_executionDate : option string;
  row_date          : option string;   (* the date column under its own name *)
  row_id            : option Z
}.

(** Which columns the table has. *)
Record columns : Type := {
  status_col    : bool;
  error_col     : bool;
  date_col      : bool;
  has_id_column : bool
}.

(** An execution record; [None] is a key that was not set. *)
Record execution : Type := {
  buildTag      : option string;
  testStatus    : option string;
  failureReason : option string;
  date          : option string;
  executionDate : option string;
  id            : option Z
}.

Definition execution_record (cols : columns) (row : db_row) : execution :=
  let exec_date :=
    if date_col cols then
      let d := if truthy_opt (row_executionDate row)
               then row_executionDate row else row_date row in
      if truthy_opt d then d else None
    else None in
  {| buildTag := row_buildTag row;
     testStatus := if status_col cols then row_status row else None;
     failureReason :=
       if error_col cols
       then option_map ReasonLines.clean (row_error row)
       else None;
     date := exec_date;
     executionDate := exec_date;
     id := if has_id_column cols then row_id row else None |}.

(** [_get_test_execution_history_from_db], from the rows grouped by test
    (newest first): the slice [rows[:limit_per_test]] of each test is
    kept; [limit_per_test] is an [int] that nothing validates. *)
Definition _get_test_execution_history_from_db (cols : columns)
    (limit_per_test : Z) (results_by_test : list (string * list db_row))
    : list (string * list execution) :=
  (fun '(test_name, rows) =>
     (test_name, execution_record cols <$> slice_to limit_per_test rows))
  <$> results_by_test.

Definition failure_words : list string := ["FAIL"; "FAILED"; "ERROR"; "FAILURE"].

(** the test [str(exec_status).upper().strip() in [...]] on a status that
    is set and not empty *)
Definition is_failure (e : execution) : bool :=
  match testStatus e with
  | Some exec_status =>
      if truthy exec_status then mem (strip (upper exec_status)) failure_words
      else false
  | None => false
  end.

(** [0 if is_failure else 1] *)
Definition pass_bit (e : execution) : nat := if is_failure e then 0 else 1.

(** the raw failure count of a test *)
Definition failure_count (executions : list execution) : nat :=
  length (List.filter is_failure executions).

(** [while len(history) < 10: history.insert(0, 1)], [n] turns *)
Fixpoint pad_front (n : nat) (history : list nat) : list nat :=
  match n with
  | O => history
  | S n' => pad_front n' (1 :: history)
  end.

(** Ensure history has exactly 10 items (pad or truncate if needed). *)
Definition fit_history (history : list nat) : list nat :=
  if 10 <? length history then drop (length history - 10) history
  else if length history <? 10 then pad_front (10 - length history) history
  else history.

Definition default_history (count : nat) : list nat :=
  if 7 <=? count then [0; 0; 0; 0; 0; 0; 0; 0; 0; 0]
  else if 5 <=? count then [0; 0; 0; 0; 0; 1; 0; 1; 0; 1]
  else if 3 <=? count then [0; 0; 1; 0; 1; 0; 1; 0; 1; 0]
  else [1; 0; 1; 0; 1; 0; 1; 0; 1; 0].

(** The history vector of a test, oldest first ([W] is
    [Config.FLAKY_TESTS_LAST_RUNS], the [int] read from the environment;
    [count] the raw failure count). *)
Definition build_history (W : Z) (count : nat) (executions : list execution)
    : list nat :=
  let executions := slice_to W executions in
  let history := pass_bit <$> reverse executions in
  let history := fit_history history in
  match history with
  | [] => default_history count
  | _ :: _ => history
  end.

(** [sum(1 for status in history if status == 0)] *)
Definition failures_in_history (history : list nat) : nat :=
  length (List.filter (fun status => status =? 0) history).

(** One entry of [execution_details]; the optional keys are [None] when
    they are not set. *)
Record exec_detail : Type := {
  d_index         : nat;
  d_status        : string;
  d_history_index : nat;
  d_padded        : bool;
  d_testStatus    : option string;
  d_id            : option Z;
  d_buildTag      : option string;
  d_date          : option string;
  d_failureReason : option string
}.

(** [str(exec_record.get('date') or exec_record.get('executionDate', ''))] *)
Definition date_text (e : execution) : string :=
  if truthy_opt (date e) then default "" (date e)
  else default "" (executionDate e).

Definition detail_at (in_current : bool) (history_len padding_count : nat)
    (reversed_executions : list execution) (idx hist_status : nat) : exec_detail :=
  let status := if hist_status =? 1 then "pass" else "fail" in
  if idx <? padding_count then
    {| d_index := idx; d_status := status; d_history_index := idx;
       d_padded := true; d_testStatus := Some "PASSED";
       d_id := None; d_buildTag := None; d_date := None;
       d_failureReason := None |}
  else
    match reversed_executions !! (idx - padding_count) with
    | Some exec_record =>
        let corrected_testStatus := if hist_status =? 1 then "PASSED" else "FAILED" in
        let error_msg := default "" (failureReason exec_record) in
        let error_msg :=
          if (idx =? history_len - 1) && in_current && (hist_status =? 0)
             && negb (truthy (strip error_msg))
          then "Test failed in current build" else error_msg in
        {| d_index := idx; d_status := status; d_history_index := idx;
           d_padded := false; d_testStatus := Some corrected_testStatus;
           d_id := id exec_record; d_buildTag := buildTag exec_record;
           d_date := Some (date_text exec_record);
           d_failureReason := Some error_msg |}
    | None =>
        {| d_index := idx; d_status := status; d_history_index := idx;
           d_padded := true; d_testStatus := None;
           d_id := None; d_buildTag := None; d_date := None;
           d_failureReason := None |}
    end.

(** [execution_details], aligned with the history vector. *)
Definition build_execution_details (in_current : bool) (history : list nat)
    (executions_list : list execution) : list exec_detail :=
  let reversed_executions := reverse (take 10 executions_list) in
  let actual_execution_count := length reversed_executions in
  let history_length := length history in
  (* max(0, history_length - actual_execution_count) *)
  let padding_count := history_length - actual_execution_count in
  imap (detail_at in_current history_length padding_count reversed_executions)
       history.

(** A recurring-failure record (the keys the claims speak about; the
    dates and the classification statistics do not feed into them). *)
Record recurring_failure : Type := {
  test_name         : string;
  occurrences       : nat;
  in_current_run    : bool;
  history           : list nat;
  execution_details : list exec_detail
}.

Definition recurring_record (W : Z) (current_failures : list string)
    (test_name : string) (count : nat) (executions : list execution)
    : recurring_failure :=
  let history := build_history W count executions in
  let failures := failures_in_history history in
  let count := if negb (failures =? count) then failures else count in
  let in_current := mem test_name current_failures in
  {| test_name := test_name;
     occurrences := count;
     in_current_run := in_current;
     history := history;
     execution_details := build_execution_details in_current history executions |}.

(** [test_name in current_failures] for a record *)
Definition mem_current (current_failures : list string)
    (failure : recurring_failure) : bool :=
  mem (test_name failure) current_failures.

(** The tests whose raw failure count reaches the minimum, with that
    count and their executions ([failure_counts], [failure_details]). *)
Definition candidates (min_occurrences : nat)
    (test_history : list (string * list execution))
    : list (string * nat * list execution) :=
  omap (fun '(test_name, executions) =>
          let count := failure_count executions in
          if min_occurrences <=? count then Some (test_name, count, executions)
          else None)
       test_history.

(** [_detect_recurring_failures_from_db] on the rows the query returns. *)
Definition _detect_recurring_failures_from_db (cols : columns) (W : Z)
    (current_failures : list string) (min_occurrences : nat)
    (results_by_test : list (string * list db_row)) : list recurring_failure :=
  let test_history :=
    _get_test_execution_history_from_db cols W results_by_test in
  let recurring :=
    (fun '(test_name, count, executions) =>
       recurring_record W current_failures test_name count executions)
    <$> candidates min_occurrences test_history in
  filter (fun failure => min_occurrences <= occurrences failure) recurring.

(** ** Names sent to the query *)

(** [extract_class_method]: the last two segments of a name. *)
Definition extract_class_method (full_name : string) : string :=
  let parts := split "." full_name in
  if 2 <=? length parts then join "." (last_two parts) else full_name.

(** ** Failure patterns *)

(** [1 in history and 0 in history] *)
Definition is_intermittent (history : list nat) : bool :=
  existsb (Nat.eqb 1) history && existsb (Nat.eqb 0) history.

(** [_categorize_failure_pattern] *)
Definition _categorize_failure_pattern (is_intermittent same_reason
    different_reasons : bool) : string :=
  if is_intermittent then
    if same_reason then "Intermittently failing due to same reason"
    else "Intermittently failing but different reasons"
  else
    if same_reason then "Continuously failing due to same reason"
    else "Continuously failing but different reasons".

(** [any(keyword in error_upper for keyword in keywords)] *)
Definition any_keyword (keywords : list string) (error_upper : string) : bool :=
  existsb (fun keyword => contains keyword error_upper) keywords.

(** [_classify_from_error_message] *)
Definition _classify_from_error_message (error_message : string) : string :=
  if negb (truthy error_message) then "UNKNOWN"
  else
    let error_upper := upper error_message in
    if any_keyword ["ASSERTION"; "EXPECTED"; "ACTUAL"; "MISMATCH"; "VALIDATION"]
         error_upper
    then "PRODUCT_BUG"
    else if any_keyword ["NOSUCHELEMENT"; "TIMEOUT"; "STALE"; "WEBDRIVER"; "LOCATOR"]
              error_upper
    then "AUTOMATION_ISSUE"
    else if any_keyword ["API"; "HTTP"; "STATUS CODE"; "500"; "404"; "403"]
              error_upper
    then "PRODUCT_BUG"
    else "UNKNOWN".

(** ** Grouping by reason *)
Section Reasons.
Variable re_sub : Utils.substitution -> string -> string.

(** [len(set(normalize_root_cause(rc) for rc in root_causes if rc))] *)
Definition unique_root_causes (root_causes : list string) : nat :=
  length (remove_dups
            (map (Utils.normalize_root_cause re_sub)
                 (List.filter truthy root_causes))).

Definition same_reason (root_causes : list string) : bool :=
  unique_root_causes root_causes =? 1.

Definition different_reasons (root_causes : list string) : bool :=
  1 <? unique_root_causes root_causes.

(** the pattern label of a test from its history and its root causes *)
Definition failure_pattern (history : list nat) (root_causes : list string) : string :=
  _categorize_failure_pattern (is_intermittent history)
    (same_reason root_causes) (different_reasons root_causes).
End Reasons.

End Memory.

(* ===================================================================== *)
(** * src/main.py: the category breakdown *)
(* ===================================================================== *)

Module Main.
Import Py Analyzer.

(** The loop that keeps the first classification of every test name
    ([seen] holds the stripped names met so far). *)
Fixpoint deduplicate_from (seen : list string)
    (classifications : list FailureClassification) : list FailureClassification :=
  match classifications with
  | [] => []
  | classification :: rest =>
      let test_name_normalized := strip (test_name classification) in
      if mem test_name_normalized seen then deduplicate_from seen rest
      else classification :: deduplicate_from (test_name_normalized :: seen) rest
  end.

Definition deduplicated_classifications
    (classifications : list FailureClassification) : list FailureClassification :=
  deduplicate_from [] classifications.

(** One turn of the loop that fills [category_counts] and
    [category_failures]. *)
Definition count_failure (cache : Cache.TestDataCache)
    (acc : gmap string nat * gmap string (list FailureClassification))
    (failure : FailureClassification)
    : gmap string nat * gmap string (list FailureClassification) :=
  let category := CategoryRules.classify failure cache in
  let category_counts := fst acc in
  let category_failures := snd acc in
  (<[category := default 0 (category_counts !! category) + 1]> category_counts,
   <[category := default [] (category_failures !! category) ++ [failure]]>
     category_failures).

(** [(category_counts, category_failures)] after the loop *)
Definition category_breakdown (cache : Cache.TestDataCache)
    (failures : list FailureClassification)
    : gmap string nat * gmap string (list FailureClassification) :=
  fold_left (count_failure cache) failures (∅, ∅).

End Main.

(* ===================================================================== *)
(** * Sample inputs *)
(* ===================================================================== *)

Module Samples.

Definition mk_failure (name rc : string) (tag : string)
    : Analyzer.FailureClassification :=
  {| Analyzer.test_name := name;
     Analyzer.classification := "AUTOMATION_ISSUE";
     Analyzer.confidence := "HIGH";
     Analyzer.root_cause := Some rc;
     Analyzer.recommended_action := None;
     Analyzer.root_cause_category := tag |}.

Import Memory.

(** a table with all the columns *)
Definition all_cols : columns :=
  {| status_col := true; error_col := true; date_col := true; has_id_column := true |}.

Definition row_of (i : Z) (st : string) : db_row :=
  {| row_buildTag := Some "b"; row_status := Some st; row_error := None;
     row_executionDate := None; row_date := None; row_id := Some i |}.

(** Twelve executions of one test, newest first as the query returns
    them: ten failures after two passes. *)
Definition twelve : list db_row :=
  ((fun i => row_of i "FAILED") <$> [12; 11; 10; 9; 8; 7; 6; 5; 4; 3]%Z)
  ++ [row_of 2 "PASSED"; row_of 1 "PASSED"].

(** Twelve failures in a row. *)
Definition twelve_failures : list db_row :=
  (fun i => row_of i "FAILED") <$> [12; 11; 10; 9; 8; 7; 6; 5; 4; 3; 2; 1]%Z.

(** Three failures. *)
Definition three_failures : list db_row :=
  (fun i => row_of i "FAILED") <$> [12; 11; 10]%Z.

(** The records for [three_failures] when [FLAKY_TESTS_LAST_RUNS] is -1
    and one failure is enough. *)
Definition negative_window_records : list recurring_failure :=
  _detect_recurring_failures_from_db all_cols (-1) [] 1 [("T.m", three_failures)].

(** A failure whose text shows a page-load timeout and an intercepted click. *)
Definition timeout_and_click : Analyzer.FailureClassification :=
  mk_failure "T.m"
    "'LoginPage' NOT loaded even after :- 40.071 seconds; ElementClickInterceptedException"
    "OTHER".

(** A failure no rule matches, tagged upstream with a name of its own. *)
Definition product_bug : Analyzer.FailureClassification :=
  mk_failure "T.m" "boom" "PRODUCT_BUG".

(** A failure no rule matches, tagged NETWORK_ISSUE upstream. *)
Definition network_issue : Analyzer.FailureClassification :=
  mk_failure "T.m" "connection reset" "NETWORK_ISSUE".

(** [re.sub] on texts in which its pattern does not occur. *)
Definition no_occurrence (_ : Utils.substitution) (text : string) : string := text.

(** Two messages of letters only that differ in character 201. *)
Definition long_a : string := Py.repeat_str "x" 200 +:+ "a".
Definition long_b : string := Py.repeat_str "x" 200 +:+ "b".

(** Two candidates for one name: a failure without a log and a pass
    with one. *)
Definition fail_no_log : Models.TestResult :=
  {| Models.class_name := "T"; Models.method_name := "m";
     Models.status := Models.FAIL; Models.duration_seconds := 0;
     Models.error_type := None; Models.error_message := None;
     Models.stack_trace := None; Models.platform := None;
     Models.execution_log := None; Models.description := None |}.

Definition pass_with_log : Models.TestResult :=
  {| Models.class_name := "T"; Models.method_name := "m";
     Models.status := Models.PASS; Models.duration_seconds := 0;
     Models.error_type := None; Models.error_message := None;
     Models.stack_trace := None; Models.platform := None;
     Models.execution_log := Some "log"; Models.description := None |}.

Definition db_row_of (name st : string) : DataBuilder.db_row :=
  {| DataBuilder.testcaseName := DataBuilder.Val name;
     DataBuilder.testStatus := DataBuilder.Val st;
     DataBuilder.failureReason := DataBuilder.Absent |}.

(** The record of a test with twelve failing rows when the window is 12. *)
Definition sample_record : recurring_failure :=
  recurring_record 12 [] "T.m" 12 (execution_record all_cols <$> twelve_failures).

(** The pattern of the twelve executions of [twelve], oldest first. *)
Definition pattern12 : list nat := [1; 1; 0; 0; 0; 0; 0; 0; 0; 0; 0; 0].

End Samples.

(* ===================================================================== *)
(** * Theorems *)
(* ===================================================================== *)

Example normalize_abcc : Utils.normalize "A.B.C.C" = "A.B.C".
Proof. reflexivity. Qed.
Example normalize_abccm : Utils.normalize "A.B.C.C.method" = "A.B.C.method".
Proof. reflexivity. Qed.
Example normalize_xx : Utils.normalize "X.X" = "X".
Proof. reflexivity. Qed.
Example normalize_aaa : Utils.normalize "A.A.A" = "A.A".
Proof. reflexivity. Qed.
Example normalize_sp : Utils.normalize " A.A" = "A.A".
Proof. reflexivity. Qed.

Example search_literal :
  Regex.search (Regex.liti "ends here") "Execution ENDS here." = Some (10, 19).
Proof. vm_compute. reflexivity. Qed.
Example search_exception :
  Regex.search (Regex.seq [Regex.lit "java.lang."; Regex.plus Regex.word; Regex.lit "Exception:"])
               "x java.lang.NullPointerException: boom" = Some (2, 33).
Proof. vm_compute. reflexivity. Qed.
Example search_wordb :
  Regex.found (Regex.seq [Regex.WordB; Regex.liti "actual"; Regex.WordB]) "the actual value" = true
  /\ Regex.found (Regex.seq [Regex.WordB; Regex.liti "actual"; Regex.WordB]) "factually" = false.
Proof. vm_compute. auto. Qed.

Section CategoryExamples.
Import CategoryRules Samples.

Example engine_order :
  map rule_name engine_rules =
  ["PageLoadTimeoutRule"; "ElementClickInterceptedRule"; "ElementLocatorExceptionRule";
   "IllegalArgumentExceptionRule"; "NonPageLoadTimeoutFilterRule"; "AssertionFailureFilterRule"].
Proof. vm_compute. reflexivity. Qed.

Example classify_both :
  classify (mk_failure "T.m" "'LoginPage' NOT loaded even after :- 40.071 seconds; ElementClickInterceptedException" "OTHER") ∅ = "TIMEOUT".
Proof. vm_compute. reflexivity. Qed.

Example classify_click :
  classify (mk_failure "T.m" "ElementClickInterceptedException: x" "OTHER") ∅ = "ELEMENT_NOT_FOUND".
Proof. vm_compute. reflexivity. Qed.

Example classify_pretag :
  classify (mk_failure "T.m" "boom" "PRODUCT_BUG") ∅ = "PRODUCT_BUG".
Proof. vm_compute. reflexivity. Qed.

Example classify_demote :
  classify (mk_failure "T.m" "took too long" "TIMEOUT") ∅ = "OTHER"
  /\ classify (mk_failure "T.m" "Expected 'a' but actual 'b'" "ASSERTION_FAILURE") ∅ = "ASSERTION_FAILURE"
  /\ classify (mk_failure "T.m" "something" "ASSERTION_FAILURE") ∅ = "OTHER".
Proof. vm_compute. auto. Qed.
End CategoryExamples.

Section HtmlExamples.
Import HtmlParser.
Example isolate_second :
  _extract_execution_log
    ["first test tail"; "Method arguments: a"; "step 1";
     "EXECUTION OF TESTCASE ENDS HERE"; "Total time taken by Test: 3s"; "more"]
  = Py.join Py.newline ["Method arguments: a"; "step 1";
     "EXECUTION OF TESTCASE ENDS HERE"; "Total time taken by Test: 3s"; "more"].
Proof. vm_compute. reflexivity. Qed.

Example isolate_none :
  _extract_execution_log ["just some&nbsp;text"; ""; "and more"]
  = Py.join Py.newline ["just some ;text"; "and more"].
Proof. vm_compute. reflexivity. Qed.
End HtmlExamples.

Section DataBuilderExamples.
Import DataBuilder Models.
Example reconcile_foo :
  status <$> (get_full_report_data_from_db
    [ {| testcaseName := Val "Pkg.Foo.Foo.testBar"; testStatus := Val "FAILED"; failureReason := Absent |} ]
    [] [] !! "Pkg.Foo.Foo.testBar") = Some FAIL.
Proof. vm_compute. reflexivity. Qed.

Example to_result :
  db_row_to_test_result
    {| testcaseName := Val "a.web.Foo.t"; testStatus := Val " failed ";
       failureReason := Val "Results Url: x
java.lang.NullPointerException: boom" |} (Some "log") None
  = Some {| class_name := "a.web.Foo"; method_name := "t"; status := FAIL;
            duration_seconds := 0; error_type := Some "NullPointerException";
            error_message := Some "java.lang.NullPointerException: boom";
            stack_trace := None; platform := Some "WEB";
            execution_log := Some "log"; description := None |}.
Proof. vm_compute. reflexivity. Qed.

Example find_by_method :
  _find_matching_execution_log "P.Foo.Foo.t" [("x.Bar.T", "log1")] = Some "log1".
Proof. vm_compute. reflexivity. Qed.
End DataBuilderExamples.

Section MemoryExamples.
Import Memory Samples.
Example twelve_history :
  map (fun r => (occurrences r, history r))
      (_detect_recurring_failures_from_db all_cols 10 [] 3 [("T.m", twelve)])
  = [(10, [0;0;0;0;0;0;0;0;0;0])].
Proof. vm_compute. reflexivity. Qed.
Example three_history :
  map (fun r => (occurrences r, history r, map d_padded (execution_details r), map d_id (execution_details r)))
      (_detect_recurring_failures_from_db all_cols 5 [] 3 [("T.m", three_failures)])
  = [(3, [1;1;1;1;1;1;1;0;0;0], [true;true;true;true;true;true;true;false;false;false],
      [None;None;None;None;None;None;None;Some 10; Some 11; Some 12]%Z)].
Proof. vm_compute. reflexivity. Qed.
End MemoryExamples.

(* ===================================================================== *)
(** * Identity normalizer *)
(* ===================================================================== *)

Module PyFacts.
Import Py.

Lemma app_nil_l (s : string) : "" +:+ s = s.
Proof. reflexivity. Qed.

Lemma app_cons (c : ascii) (a b : string) :
  String c a +:+ b = String c (a +:+ b).
Proof. reflexivity. Qed.

Lemma app_nil_r (s : string) : s +:+ "" = s.
Proof. induction s as [|c s IH]; [reflexivity|]. rewrite app_cons, IH. reflexivity. Qed.

Lemma length_app (a b : string) :
  String.length (a +:+ b) = String.length a + String.length b.
Proof. induction a as [|c a IH]; [reflexivity|]. rewrite app_cons. simpl. lia. Qed.

(** ** split and join *)

Lemma split_not_nil sep s : split sep s <> [].
Proof.
  destruct s as [|c s]; simpl; [discriminate|].
  destruct (Ascii.eqb c sep); [discriminate|].
  destruct (split sep s); discriminate.
Qed.

Lemma join_cons sep p q ps :
  join sep (p :: q :: ps) = p +:+ sep +:+ join sep (q :: ps).
Proof. reflexivity. Qed.

Lemma join_split sep s : join (String sep "") (split sep s) = s.
Proof.
  induction s as [|c s IH]; [reflexivity|].
  simpl. destruct (Ascii.eqb_spec c sep) as [->|Hne].
  - pose proof (split_not_nil sep s) as Hnil.
    destruct (split sep s) as [|q ps] eqn:E; [congruence|].
    rewrite join_cons, IH. reflexivity.
  - pose proof (split_not_nil sep s) as Hnil.
    destruct (split sep s) as [|q ps] eqn:E; [congruence|].
    destruct ps as [|q' ps'].
    + simpl in *. congruence.
    + rewrite join_cons in *. rewrite app_cons, IH. reflexivity.
Qed.

Lemma split_free sep s : has_char sep s = false -> split sep s = [s].
Proof.
  induction s as [|c s IH]; [reflexivity|].
  simpl. intros H. apply orb_false_iff in H as [Hc Hs].
  rewrite Hc, (IH Hs). reflexivity.
Qed.

Lemma split_app_sep sep p s :
  has_char sep p = false ->
  split sep (p +:+ String sep s) = p :: split sep s.
Proof.
  induction p as [|c p IH]; intros H.
  - rewrite app_nil_l. simpl. rewrite Ascii.eqb_refl. reflexivity.
  - simpl in H. apply orb_false_iff in H as [Hc Hp].
    rewrite app_cons. simpl. rewrite Hc, (IH Hp). reflexivity.
Qed.

Lemma split_join sep parts :
  parts <> [] ->
  Forall (fun p => has_char sep p = false) parts ->
  split sep (join (String sep "") parts) = parts.
Proof.
  induction parts as [|p ps IH]; [congruence|].
  intros _ Hall. inversion Hall as [|? ? Hp Hps]; subst.
  destruct ps as [|q ps'].
  - simpl. apply split_free, Hp.
  - rewrite join_cons. rewrite app_cons, app_nil_l.
    rewrite (split_app_sep _ _ _ Hp), IH; [reflexivity|discriminate|assumption].
Qed.

Lemma split_parts_free sep s :
  Forall (fun p => has_char sep p = false) (split sep s).
Proof.
  induction s as [|c s IH]; simpl.
  - constructor; [reflexivity|constructor].
  - destruct (Ascii.eqb c sep) eqn:Hc.
    + constructor; [reflexivity|assumption].
    + pose proof (split_not_nil sep s) as Hnil.
      destruct (split sep s) as [|q ps]; [congruence|].
      inversion IH; subst. constructor; [|assumption].
      simpl. rewrite Hc. assumption.
Qed.

(** ** strip *)

Lemma lstrip_id s : first_ok s = true -> lstrip s = s.
Proof. destruct s as [|c s]; simpl; [reflexivity|]. destruct (is_space c); [discriminate|reflexivity]. Qed.

Lemma rstrip_id s : last_ok s = true -> rstrip s = s.
Proof.
  induction s as [|c s IH]; [reflexivity|].
  simpl. destruct s as [|d s'].
  - simpl. destruct (is_space c); [discriminate|reflexivity].
  - intros H. rewrite (IH H). reflexivity.
Qed.

Lemma length_lstrip s : String.length (lstrip s) <= String.length s.
Proof. induction s as [|c s IH]; simpl; [lia|]. destruct (is_space c); simpl; lia. Qed.

Lemma length_lstrip_lt s :
  first_ok s = false -> String.length (lstrip s) < String.length s.
Proof.
  destruct s as [|c s]; simpl; [discriminate|].
  destruct (is_space c); [|discriminate]. intros _.
  pose proof (length_lstrip s). lia.
Qed.

Lemma length_rstrip s : String.length (rstrip s) <= String.length s.
Proof.
  induction s as [|c s IH]; simpl; [lia|].
  destruct (rstrip s); simpl in *; [destruct (is_space c); simpl; lia|lia].
Qed.

Lemma length_rstrip_lt s :
  last_ok s = false -> String.length (rstrip s) < String.length s.
Proof.
  induction s as [|c s IH]; [discriminate|].
  simpl. destruct s as [|d s'].
  - simpl. destruct (is_space c); [simpl; lia|discriminate].
  - intros H. specialize (IH H).
    destruct (rstrip (String d s')); simpl in *; [destruct (is_space c); simpl; lia|lia].
Qed.

Lemma strip_id s : strip s = s <-> first_ok s = true /\ last_ok s = true.
Proof.
  unfold strip. split.
  - intros H.
    assert (Hl : last_ok s = true).
    { destruct (last_ok s) eqn:E; [reflexivity|].
      pose proof (length_rstrip_lt s E). pose proof (length_lstrip (rstrip s)).
      rewrite H in *. lia. }
    rewrite (rstrip_id s Hl) in H. split; [|assumption].
    destruct (first_ok s) eqn:E; [reflexivity|].
    pose proof (length_lstrip_lt s E). rewrite H in *. lia.
  - intros [Hf Hl]. rewrite (rstrip_id s Hl). apply lstrip_id, Hf.
Qed.

Lemma last_ok_app a b :
  last_ok (a +:+ b) = match b with EmptyString => last_ok a | _ => last_ok b end.
Proof.
  induction a as [|c a IH].
  - rewrite app_nil_l. destruct b; reflexivity.
  - rewrite app_cons. destruct b as [|d b].
    + rewrite app_nil_r. reflexivity.
    + simpl. destruct a as [|c' a']; [reflexivity|].
      rewrite app_cons in *. exact IH.
Qed.

Lemma dot_not_space : is_space "." = false.
Proof. reflexivity. Qed.

Lemma first_ok_join p ps : first_ok (join "." (p :: ps)) = first_ok p.
Proof.
  destruct ps as [|q ps]; [reflexivity|].
  rewrite join_cons. destruct p as [|c p]; reflexivity.
Qed.

Lemma last_ok_join parts : last_ok (join "." parts) = last_ok (List.last parts "").
Proof.
  induction parts as [|p ps IH]; [reflexivity|].
  destruct ps as [|q ps']; [reflexivity|].
  rewrite join_cons. rewrite last_ok_app.
  change (List.last (p :: q :: ps') "") with (List.last (q :: ps') "").
  rewrite <- IH.
  change ("." +:+ join "." (q :: ps')) with (String "." (join "." (q :: ps'))).
  destruct (join "." (q :: ps')); reflexivity.
Qed.

End PyFacts.

Module UtilsFacts.
Import Py PyFacts Utils.

Lemma collapse_cons p q rest :
  collapse (p :: q :: rest)
  = if String.eqb p q then p :: collapse rest else p :: collapse (q :: rest).
Proof. reflexivity. Qed.

Lemma no_adjacent_cons p q rest :
  no_adjacent (p :: q :: rest) = negb (String.eqb p q) && no_adjacent (q :: rest).
Proof. reflexivity. Qed.

Lemma no_triple_cons p q r rest :
  no_triple (p :: q :: r :: rest)
  = negb (String.eqb p q && String.eqb q r) && no_triple (q :: r :: rest).
Proof. reflexivity. Qed.

Lemma collapse_fixed parts : no_adjacent parts = true -> collapse parts = parts.
Proof.
  induction parts as [|p rest IH]; [reflexivity|].
  destruct rest as [|q rest']; [reflexivity|].
  intros H. rewrite no_adjacent_cons in H. apply andb_true_iff in H as [Hpq Hrest].
  rewrite collapse_cons. apply negb_true_iff in Hpq. rewrite Hpq, (IH Hrest). reflexivity.
Qed.

(** Facts about [collapse] that need its two-step recursion: the first
    and last segments stay, segments only disappear, and without a
    triple no two neighbours of the result are equal. *)
Lemma collapse_props n : forall parts, length parts <= n ->
  hd_error (collapse parts) = hd_error parts /\
  List.last (collapse parts) "" = List.last parts "" /\
  (forall P : string -> Prop, Forall P parts -> Forall P (collapse parts)) /\
  (no_triple parts = true -> no_adjacent (collapse parts) = true).
Proof.
  induction n as [|n IH]; intros parts Hlen.
  - destruct parts; [|simpl in Hlen; lia].
    repeat split; auto.
  - destruct parts as [|p rest]; [repeat split; auto|].
    destruct rest as [|q rest']; [repeat split; auto|].
    rewrite collapse_cons. simpl in Hlen.
    destruct (String.eqb_spec p q) as [->|Hne].
    + destruct (IH rest' ltac:(lia)) as (Hhd & Hlast & Hall & Hadj).
      split; [reflexivity|]. split; [|split].
      * destruct rest' as [|r rest'']; [reflexivity|].
        change (List.last (q :: q :: r :: rest'') "") with (List.last (r :: rest'') "").
        rewrite <- Hlast.
        destruct (collapse (r :: rest'')) as [|x xs] eqn:E; [discriminate Hhd|].
        reflexivity.
      * intros P HP. inversion HP as [|? ? Hq HP']; subst.
        inversion HP' as [|? ? _ HP'']; subst.
        constructor; [assumption|apply Hall, HP''].
      * intros Ht. destruct rest' as [|r rest'']; [reflexivity|].
        rewrite no_triple_cons in Ht. rewrite String.eqb_refl in Ht. cbn [andb] in Ht.
        apply andb_true_iff in Ht as [Hqr Ht].
        assert (Ht' : no_triple (r :: rest'') = true).
        { destruct rest'' as [|r' rest3]; [reflexivity|].
          rewrite no_triple_cons in Ht. apply andb_true_iff in Ht as [_ Ht]. exact Ht. }
        specialize (Hadj Ht').
        destruct (collapse (r :: rest'')) as [|x xs] eqn:E; [discriminate Hhd|].
        injection Hhd as ->. rewrite no_adjacent_cons. rewrite Hqr, Hadj. reflexivity.
    + destruct (IH (q :: rest') ltac:(simpl; lia)) as (Hhd & Hlast & Hall & Hadj).
      split; [reflexivity|]. split; [|split].
      * destruct (collapse (q :: rest')) as [|x xs] eqn:E; [discriminate Hhd|].
        change (List.last (p :: x :: xs) "") with (List.last (x :: xs) "").
        rewrite Hlast. reflexivity.
      * intros P HP. inversion HP as [|? ? Hp HP']; subst.
        constructor; [assumption|apply Hall, HP'].
      * intros Ht.
        assert (Ht' : no_triple (q :: rest') = true).
        { destruct rest' as [|r rest'']; [reflexivity|].
          rewrite no_triple_cons in Ht. apply andb_true_iff in Ht as [_ Ht]. exact Ht. }
        specialize (Hadj Ht').
        destruct (collapse (q :: rest')) as [|x xs] eqn:E; [discriminate Hhd|].
        injection Hhd as ->. rewrite no_adjacent_cons.
        apply String.eqb_neq in Hne. rewrite Hne, Hadj. reflexivity.
Qed.

Lemma collapse_not_nil parts : parts <> [] -> collapse parts <> [].
Proof.
  intros H E. destruct parts as [|p rest]; [congruence|].
  destruct (collapse_props _ (p :: rest) (le_n _)) as (Hhd & _).
  rewrite E in Hhd. discriminate.
Qed.

(** [remove_duplicate_class_name] always is the join of the collapsed
    segments: the early returns agree with it. *)
Lemma remove_duplicate_class_name_join name :
  remove_duplicate_class_name name = join "." (collapse (split "." name)).
Proof.
  unfold remove_duplicate_class_name.
  destruct name as [|c name]; [reflexivity|].
  cbn [truthy negb orb].
  destruct (has_char "." (String c name)) eqn:Hdot; cbn [negb].
  - destruct (length (split "." (String c name)) <? 2) eqn:Hlen; [|reflexivity].
    apply Nat.ltb_lt in Hlen.
    pose proof (split_not_nil "." (String c name)) as Hnil.
    destruct (split "." (String c name)) as [|p [|q ps]] eqn:E;
      [congruence| |simpl in Hlen; lia].
    cbn [collapse join]. pose proof (join_split "." (String c name)) as J.
    rewrite E in J. simpl in J. congruence.
  - rewrite (split_free _ _ Hdot). reflexivity.
Qed.

Lemma remove_duplicate_class_name_fixed name :
  no_triple (split "." name) = true ->
  remove_duplicate_class_name (remove_duplicate_class_name name)
  = remove_duplicate_class_name name.
Proof.
  intros Ht. rewrite !remove_duplicate_class_name_join.
  destruct (collapse_props _ (split "." name) (le_n _)) as (_ & _ & Hall & Hadj).
  rewrite split_join.
  - rewrite (collapse_fixed _ (Hadj Ht)). reflexivity.
  - apply collapse_not_nil, split_not_nil.
  - apply Hall, split_parts_free.
Qed.

(** Collapsing keeps a name without surrounding white space that way. *)
Lemma remove_duplicate_class_name_stripped name :
  strip name = name ->
  strip (remove_duplicate_class_name name) = remove_duplicate_class_name name.
Proof.
  intros Hs. apply strip_id in Hs as [Hf Hl]. apply strip_id.
  rewrite remove_duplicate_class_name_join.
  rewrite <- (join_split "." name) in Hf, Hl.
  change (String "." "") with "." in Hf, Hl.
  pose proof (split_not_nil "." name) as Hnil.
  destruct (collapse_props _ (split "." name) (le_n _)) as (Hhd & Hlast & _ & _).
  split.
  - destruct (split "." name) as [|p ps] eqn:E; [congruence|].
    destruct (collapse (p :: ps)) as [|x xs] eqn:Ec; [discriminate Hhd|].
    injection Hhd as ->. rewrite first_ok_join in *. exact Hf.
  - rewrite last_ok_join in *. rewrite Hlast. exact Hl.
Qed.

End UtilsFacts.

(** C2, the claim as it stands fails: a segment that occurs three times in
    a row is collapsed to two copies by the first pass and to one by the
    second. *)
Lemma normalize_not_idempotent :
  Utils.normalize (Utils.normalize "A.A.A") <> Utils.normalize "A.A.A".
Proof. vm_compute. discriminate. Qed.

(** White space is trimmed after the collapse, so trimming can bring two
    equal segments together that the first pass saw as different. *)
Lemma normalize_not_idempotent_blank :
  Utils.normalize (Utils.normalize " A.A") <> Utils.normalize " A.A".
Proof. vm_compute. discriminate. Qed.

(** C2 (amended): normalization is idempotent on every name that has no
    leading or trailing white space and in which no dot-separated segment
    occurs three or more times in a row. *)
Theorem normalize_idempotent (name : string) :
  Py.strip name = name ->
  Utils.no_triple (Py.split "." name) = true ->
  Utils.normalize (Utils.normalize name) = Utils.normalize name.
Proof.
  intros Hs Ht. unfold Utils.normalize at 2 3.
  destruct name as [|c name]; [reflexivity|].
  cbn [Py.truthy negb].
  rewrite (UtilsFacts.remove_duplicate_class_name_stripped _ Hs).
  unfold Utils.normalize.
  destruct (Py.truthy (Utils.remove_duplicate_class_name (String c name))) eqn:E.
  - cbn [negb]. rewrite (UtilsFacts.remove_duplicate_class_name_fixed _ Ht).
    apply UtilsFacts.remove_duplicate_class_name_stripped, Hs.
  - cbn [negb]. destruct (Utils.remove_duplicate_class_name (String c name));
      [reflexivity|discriminate].
Qed.

Lemma normalize_idempotent_witness :
  Py.strip "Pkg.Foo.Foo.testBar" = "Pkg.Foo.Foo.testBar" /\
  Utils.no_triple (Py.split "." "Pkg.Foo.Foo.testBar") = true /\
  Utils.normalize (Utils.normalize "Pkg.Foo.Foo.testBar")
  = Utils.normalize "Pkg.Foo.Foo.testBar".
Proof.
  split; [reflexivity|]. split; [reflexivity|].
  apply (normalize_idempotent "Pkg.Foo.Foo.testBar"); reflexivity.
Defined.

(* ===================================================================== *)
(** * History engine *)
(* ===================================================================== *)

Module MemoryFacts.
Import Memory.

Lemma pad_front_replicate n history :
  pad_front n history = replicate n 1 ++ history.
Proof.
  revert history. induction n as [|n IH]; intros history; [reflexivity|].
  simpl. rewrite IH.
  change (1 :: history) with ([1] ++ history). rewrite app_assoc. f_equal.
  clear. induction n as [|n IH]; [reflexivity|]. simpl. rewrite IH. reflexivity.
Qed.

(** The vector after the fit: the last ten entries, passes in front. *)
Lemma fit_history_spec history :
  fit_history history
  = replicate (10 - length history) 1 ++ drop (length history - 10) history.
Proof.
  unfold fit_history.
  destruct (10 <? length history) eqn:Hgt.
  - apply Nat.ltb_lt in Hgt.
    replace (10 - length history) with 0 by lia. reflexivity.
  - apply Nat.ltb_ge in Hgt.
    replace (length history - 10) with 0 by lia. rewrite drop_0.
    destruct (length history <? 10) eqn:Hlt.
    + apply pad_front_replicate.
    + apply Nat.ltb_ge in Hlt. replace (10 - length history) with 0 by lia.
      reflexivity.
Qed.

Lemma length_fit_history history : length (fit_history history) = 10.
Proof.
  rewrite fit_history_spec, length_app, length_replicate, length_drop. lia.
Qed.

Lemma take_same_min {A : Type} (n m : nat) (l : list A) :
  n `min` length l = m `min` length l -> take n l = take m l.
Proof.
  intros H. destruct (Nat.le_gt_cases (length l) n) as [Hn|Hn].
  - rewrite (take_ge l n Hn), (take_ge l m); [reflexivity|lia].
  - replace m with n by lia. reflexivity.
Qed.

(** The slice [l[:n]] for a window that is not negative. *)
Lemma slice_to_nonneg {A : Type} (n : Z) (l : list A) :
  (0 <= n)%Z -> Py.slice_to n l = take (Z.to_nat n) l.
Proof.
  intros H. unfold Py.slice_to.
  destruct (0 <=? n)%Z eqn:E; [reflexivity|]. apply Z.leb_gt in E. lia.
Qed.

(** A slice is a prefix, whatever the sign of the bound. *)
Lemma slice_to_take {A : Type} (n : Z) (l : list A) :
  exists k, Py.slice_to n l = take k l.
Proof. unfold Py.slice_to. destruct (0 <=? n)%Z; eauto. Qed.

Lemma slice_to_fmap {A B : Type} (f : A -> B) (n : Z) (l : list A) :
  f <$> Py.slice_to n l = Py.slice_to n (f <$> l).
Proof.
  unfold Py.slice_to. rewrite length_fmap.
  destruct (0 <=? n)%Z; apply fmap_take.
Qed.

(** Slicing twice with a bound that is not negative is slicing once. *)
Lemma slice_to_twice {A : Type} (n : Z) (l : list A) :
  (0 <= n)%Z -> Py.slice_to n (Py.slice_to n l) = take (Z.to_nat n) l.
Proof.
  intros H. rewrite !slice_to_nonneg by exact H.
  rewrite take_take. f_equal. lia.
Qed.

(** The history vector: the ten newest of the executions that the slice
    keeps, oldest first, behind the passes that fill it up to ten. *)
Lemma build_history_spec W count executions :
  let real := pass_bit <$> reverse (take 10 (Py.slice_to W executions)) in
  build_history W count executions = replicate (10 - length real) 1 ++ real.
Proof.
  intros real. unfold build_history.
  set (K := Py.slice_to W executions) in *.
  pose proof (length_fit_history (pass_bit <$> reverse K)) as Hlen.
  destruct (fit_history (pass_bit <$> reverse K)) as [|h t] eqn:E;
    [discriminate Hlen|].
  rewrite <- E, fit_history_spec. clear E Hlen. subst real.
  rewrite !length_fmap, !length_reverse, length_take.
  rewrite <- fmap_drop.
  replace (drop (length K - 10) (reverse K)) with (reverse (take 10 K)).
  - f_equal. f_equal. lia.
  - rewrite drop_reverse. f_equal. apply take_same_min. lia.
Qed.

Lemma length_build_history W count executions :
  length (build_history W count executions) = 10.
Proof.
  rewrite build_history_spec. cbv zeta.
  rewrite length_app, length_replicate, length_fmap, length_reverse, length_take. lia.
Qed.

(** Every record comes from a test of the query, through
    [recurring_record], and has passed the last filter. *)
Lemma detect_inv cols W current_failures min_occurrences results_by_test rec :
  rec ∈ _detect_recurring_failures_from_db cols W current_failures
          min_occurrences results_by_test ->
  exists rows,
    (test_name rec, rows) ∈ results_by_test /\
    let executions := execution_record cols <$> Py.slice_to W rows in
    min_occurrences <= failure_count executions /\
    min_occurrences <= occurrences rec /\
    rec = recurring_record W current_failures (test_name rec)
            (failure_count executions) executions.
Proof.
  unfold _detect_recurring_failures_from_db. intros H.
  apply list_elem_of_filter in H as [Hmin H].
  apply list_elem_of_fmap in H as [[[name count] executions] [-> H]].
  unfold candidates in H. apply list_elem_of_omap in H as [[name' executions'] [H Hc]].
  cbn beta iota in Hc.
  destruct (min_occurrences <=? failure_count executions') eqn:Hle; [|discriminate].
  inversion Hc; subst; clear Hc.
  unfold _get_test_execution_history_from_db in H.
  apply list_elem_of_fmap in H as [[name'' rows] [Heq H]].
  inversion Heq; subst; clear Heq.
  exists rows. split; [exact H|]. cbv zeta.
  apply Nat.leb_le in Hle. repeat split; assumption.
Qed.

Lemma occurrences_recurring_record W current name count executions :
  occurrences (recurring_record W current name count executions)
  = failures_in_history (build_history W count executions).
Proof.
  unfold recurring_record. cbn [occurrences].
  destruct (failures_in_history (build_history W count executions) =? count) eqn:E;
    cbn [negb]; [|reflexivity].
  apply Nat.eqb_eq in E. congruence.
Qed.

End MemoryFacts.

(** C3: in every recurring-failure record the reported number of
    occurrences is the number of 0 entries of the record's history vector,
    whatever the raw count of failing rows was, and it is at least the
    configured minimum. *)
Theorem recomputed_count_consistency
    (cols : Memory.columns) (W : Z) (current_failures : list string)
    (min_occurrences : nat) (results_by_test : list (string * list Memory.db_row))
    (rec : Memory.recurring_failure) :
  rec ∈ Memory._detect_recurring_failures_from_db cols W current_failures
          min_occurrences results_by_test ->
  Memory.occurrences rec = length (List.filter (fun v => v =? 0) (Memory.history rec))
  /\ min_occurrences <= Memory.occurrences rec.
Proof.
  intros H. apply MemoryFacts.detect_inv in H as (rows & _ & _ & Hmin & Hrec).
  split; [|exact Hmin].
  rewrite Hrec. rewrite MemoryFacts.occurrences_recurring_record. reflexivity.
Qed.

Lemma recomputed_count_consistency_witness :
  Samples.sample_record
    ∈ Memory._detect_recurring_failures_from_db Samples.all_cols 12 [] 5
        [("T.m", Samples.twelve_failures)]
  /\ Memory.failure_count
       (Memory.execution_record Samples.all_cols <$> Samples.twelve_failures) = 12
  /\ Memory.occurrences Samples.sample_record = 10
  /\ Memory.occurrences Samples.sample_record
     = length (List.filter (fun v => v =? 0) (Memory.history Samples.sample_record))
  /\ 5 <= Memory.occurrences Samples.sample_record.
Proof.
  assert (H : Samples.sample_record
                ∈ Memory._detect_recurring_failures_from_db Samples.all_cols 12 [] 5
                    [("T.m", Samples.twelve_failures)]).
  { vm_compute. constructor. }
  split; [exact H|]. split; [reflexivity|]. split; [reflexivity|].
  exact (recomputed_count_consistency _ _ _ _ _ _ H).
Defined.

(** C4, the claim as it stands fails: with a window of 5 the vector of a
    test with three executions has ten entries, not five. *)
Lemma history_length_not_window :
  exists rec,
    rec ∈ Memory._detect_recurring_failures_from_db Samples.all_cols 5 [] 3
            [("T.m", Samples.three_failures)]
    /\ length (Memory.history rec) <> 5.
Proof.
  eexists. split; [vm_compute; constructor|]. vm_compute. discriminate.
Qed.

(** C4 (amended): the history vector of every record has exactly ten
    entries, for every integer window [W] (so its length is [W] only for
    [W = 10]); and for a window that is not negative it holds the outcomes
    of the [min W 10] newest executions of the test (of all of them when
    there are fewer), oldest first, behind as many passes (1s) as are
    needed to fill it up to ten. *)
Theorem history_length_ten
    (cols : Memory.columns) (W : Z) (current_failures : list string)
    (min_occurrences : nat) (results_by_test : list (string * list Memory.db_row))
    (rec : Memory.recurring_failure) :
  rec ∈ Memory._detect_recurring_failures_from_db cols W current_failures
          min_occurrences results_by_test ->
  length (Memory.history rec) = 10 /\
  exists rows,
    (Memory.test_name rec, rows) ∈ results_by_test /\
    ((0 <= W)%Z ->
     let real :=
       Memory.pass_bit
         <$> reverse (Memory.execution_record cols
                        <$> take (Z.to_nat W `min` 10) rows) in
     Memory.history rec = replicate (10 - length real) 1 ++ real).
Proof.
  intros H. apply MemoryFacts.detect_inv in H as (rows & Hin & _ & _ & Hrec).
  split.
  - rewrite Hrec. apply MemoryFacts.length_build_history.
  - exists rows. split; [exact Hin|]. intros HW. cbv zeta.
    rewrite Hrec. unfold Memory.recurring_record. cbn [Memory.history].
    rewrite MemoryFacts.build_history_spec. cbv zeta.
    rewrite <- MemoryFacts.slice_to_fmap, (MemoryFacts.slice_to_twice W rows HW).
    rewrite <- fmap_take, take_take.
    replace (10 `min` Z.to_nat W) with (Z.to_nat W `min` 10) by lia. reflexivity.
Qed.

Lemma history_length_ten_witness :
  Samples.sample_record
    ∈ Memory._detect_recurring_failures_from_db Samples.all_cols 12 [] 5
        [("T.m", Samples.twelve_failures)]
  /\ length (Memory.history Samples.sample_record) = 10.
Proof.
  assert (H : Samples.sample_record
                ∈ Memory._detect_recurring_failures_from_db Samples.all_cols 12 [] 5
                    [("T.m", Samples.twelve_failures)]).
  { vm_compute. constructor. }
  split; [exact H|].
  exact (proj1 (history_length_ten _ _ _ _ _ _ H)).
Defined.

(** C7, the claim as it stands fails: the last ten of the twelve
    executions are all failures, so the recomputed count is not 9. *)
Lemma truncation_scenario_not_nine :
  Memory.pass_bit
    <$> reverse (Memory.execution_record Samples.all_cols <$> Samples.twelve)
  = Samples.pattern12
  /\ Memory.occurrences
       <$> Memory._detect_recurring_failures_from_db Samples.all_cols 10 [] 5
             [("T.m", Samples.twelve)]
     <> [9].
Proof. split; [reflexivity|]. vm_compute. discriminate. Qed.

(** C7 (amended): for a test with 12 executions whose pattern, oldest
    first, is P,P followed by ten F, and a window of 10, the history vector
    is the last ten entries of the pattern with no padded entry, and the
    recomputed failure count is 10. *)
Theorem truncation_scenario :
  Memory.pass_bit
    <$> reverse (Memory.execution_record Samples.all_cols <$> Samples.twelve)
  = Samples.pattern12
  /\ (fun r => (Memory.test_name r, Memory.history r, Memory.occurrences r,
                Memory.d_padded <$> Memory.execution_details r))
       <$> Memory._detect_recurring_failures_from_db Samples.all_cols 10 [] 5
             [("T.m", Samples.twelve)]
     = [("T.m", drop 2 Samples.pattern12, 10, replicate 10 false)].
Proof. split; vm_compute; reflexivity. Qed.

(** C8, the claim fails on the code.  With [FLAKY_TESTS_LAST_RUNS = -1]
    and three failing rows 12, 11, 10 of one test, the query keeps rows 12
    and 11 ([rows[:-1]]), the history is built from [executions[:-1]],
    that is from row 12 alone, behind nine padded passes, but the details
    are built from [executions_list[:10]], rows 11 and 12.  Entry 8 of
    the history is a padded pass, and entry 8 of the details is not marked
    as padded: it carries execution 11, a failure, as PASSED. *)
Theorem execution_details_misaligned :
  (fun r => (Memory.occurrences r, Memory.history r))
    <$> Samples.negative_window_records
  = [(1, [1; 1; 1; 1; 1; 1; 1; 1; 1; 0])]
  /\ (fun r => (fun d => (Memory.d_padded d, Memory.d_id d, Memory.d_testStatus d))
                 <$> drop 8 (Memory.execution_details r))
       <$> Samples.negative_window_records
     = [[(false, Some 11%Z, Some "PASSED"); (false, Some 12%Z, Some "FAILED")]]
  /\ Memory.pass_bit
       (Memory.execution_record Samples.all_cols (Samples.row_of 11 "FAILED")) = 0.
Proof. repeat split; vm_compute; reflexivity. Qed.

(** The alignment that the code documents holds for every window that is
    not negative: the list of execution details is as long as the history
    vector, and entry [i] either is marked as padded, carries no execution
    and stands for a padded pass, or carries the identity, build, date and
    failure reason of the execution from which entry [i] of the history
    was derived, with that entry's status; the executions are taken oldest
    first. *)
Theorem execution_details_aligned
    (cols : Memory.columns) (W : Z) (current_failures : list string)
    (min_occurrences : nat) (results_by_test : list (string * list Memory.db_row))
    (rec : Memory.recurring_failure) :
  (0 <= W)%Z ->
  rec ∈ Memory._detect_recurring_failures_from_db cols W current_failures
          min_occurrences results_by_test ->
  length (Memory.execution_details rec) = length (Memory.history rec) /\
  exists rows,
    (Memory.test_name rec, rows) ∈ results_by_test /\
    let real :=
      reverse (take 10 (Memory.execution_record cols <$> take (Z.to_nat W) rows)) in
    let padding := 10 - length real in
    forall i h, Memory.history rec !! i = Some h ->
      exists d,
        Memory.execution_details rec !! i = Some d /\
        Memory.d_index d = i /\
        Memory.d_history_index d = i /\
        Memory.d_status d = (if h =? 1 then "pass" else "fail") /\
        ((i < padding /\ h = 1 /\ Memory.d_padded d = true /\
          Memory.d_id d = None /\ Memory.d_buildTag d = None /\
          Memory.d_date d = None /\ Memory.d_failureReason d = None)
         \/
         (padding <= i /\ Memory.d_padded d = false /\
          exists e,
            real !! (i - padding) = Some e /\
            h = Memory.pass_bit e /\
            Memory.d_testStatus d
              = Some (if Memory.is_failure e then "FAILED" else "PASSED") /\
            Memory.d_id d = Memory.id e /\
            Memory.d_buildTag d = Memory.buildTag e /\
            Memory.d_date d = Some (Memory.date_text e) /\
            Memory.d_failureReason d
              = Some (if (i =? 9) && Py.mem (Memory.test_name rec) current_failures
                         && Memory.is_failure e
                         && negb (Py.truthy
                                    (Py.strip (default "" (Memory.failureReason e))))
                      then "Test failed in current build"
                      else default "" (Memory.failureReason e)))).
Proof.
  intros HW H. apply MemoryFacts.detect_inv in H as (rows & Hin & _ & _ & Hrec).
  rewrite (MemoryFacts.slice_to_nonneg W rows HW) in Hrec.
  set (E := Memory.execution_record cols <$> take (Z.to_nat W) rows) in *.
  cbv zeta in Hrec.
  split.
  - rewrite Hrec. unfold Memory.recurring_record, Memory.build_execution_details.
    cbn [Memory.execution_details Memory.history]. apply length_imap.
  - exists rows. split; [exact Hin|]. cbv zeta. fold E.
    set (R := reverse (take 10 E)).
    assert (HH : Memory.history rec
                 = replicate (10 - length R) 1 ++ (Memory.pass_bit <$> R)).
    { rewrite Hrec. unfold Memory.recurring_record. cbn [Memory.history].
      rewrite MemoryFacts.build_history_spec. cbv zeta.
      assert (Hlen : length E <= Z.to_nat W).
      { unfold E. rewrite length_fmap, length_take. lia. }
      rewrite (MemoryFacts.slice_to_nonneg W E HW), (take_ge E (Z.to_nat W) Hlen).
      fold R. rewrite length_fmap. reflexivity. }
    assert (HD : Memory.execution_details rec
                 = imap (Memory.detail_at (Memory.mem_current current_failures rec)
                           10 (10 - length R) R) (Memory.history rec)).
    { rewrite Hrec at 1. unfold Memory.recurring_record, Memory.build_execution_details.
      cbn [Memory.execution_details]. fold R.
      rewrite Hrec at 3. unfold Memory.recurring_record. cbn [Memory.history].
      rewrite MemoryFacts.length_build_history.
      unfold Memory.mem_current. rewrite Hrec at 1.
      unfold Memory.recurring_record. cbn [Memory.test_name]. reflexivity. }
    intros i h Hi. rewrite HD, list_lookup_imap, Hi. cbn [fmap option_fmap option_map].
    eexists. split; [reflexivity|].
    assert (HlenR : length R <= 10).
    { unfold R. rewrite length_reverse, length_take. lia. }
    rewrite HH in Hi.
    destruct (Nat.lt_ge_cases i (10 - length R)) as [Hlt|Hge].
    + rewrite lookup_app_l in Hi by (rewrite length_replicate; exact Hlt).
      apply lookup_replicate in Hi as [-> _].
      unfold Memory.detail_at. apply Nat.ltb_lt in Hlt as Hlt'. rewrite Hlt'.
      cbn. repeat split; auto. left. repeat split; auto.
    + rewrite lookup_app_r in Hi by (rewrite length_replicate; exact Hge).
      rewrite length_replicate in Hi.
      rewrite list_lookup_fmap in Hi.
      destruct (R !! (i - (10 - length R))) as [e|] eqn:He; [|discriminate].
      cbn in Hi. injection Hi as <-.
      unfold Memory.detail_at. apply Nat.ltb_ge in Hge as Hge'. rewrite Hge', He.
      cbn [Memory.d_index Memory.d_history_index Memory.d_status Memory.d_padded
           Memory.d_id Memory.d_buildTag Memory.d_date Memory.d_testStatus
           Memory.d_failureReason].
      repeat split; auto. right. split; [exact Hge|]. split; [reflexivity|].
      exists e. unfold Memory.mem_current.
      change (10 - 1) with 9.
      unfold Memory.pass_bit. destruct (Memory.is_failure e); repeat split; reflexivity.
Qed.

Lemma execution_details_aligned_witness :
  Samples.sample_record
    ∈ Memory._detect_recurring_failures_from_db Samples.all_cols 12 [] 5
        [("T.m", Samples.twelve_failures)]
  /\ length (Memory.execution_details Samples.sample_record)
     = length (Memory.history Samples.sample_record).
Proof.
  assert (H : Samples.sample_record
                ∈ Memory._detect_recurring_failures_from_db Samples.all_cols 12 [] 5
                    [("T.m", Samples.twelve_failures)]).
  { vm_compute. constructor. }
  split; [exact H|].
  assert (HW : (0 <= 12)%Z) by lia.
  exact (proj1 (execution_details_aligned _ _ _ _ _ _ HW H)).
Defined.

(* ===================================================================== *)
(** * Category rule engine *)
(* ===================================================================== *)

Module CategoryFacts.
Import CategoryRules.

(** ** The head of a list sorted largest first *)
Section SortFacts.
Context {A : Type} (lt : A -> A -> bool).
Hypothesis lt_asym : forall x y, lt x y = true -> lt y x = false.
Hypothesis lt_neg_trans :
  forall x y z, lt x y = false -> lt y z = false -> lt x z = false.

Lemma elem_of_insert_desc x y l : x ∈ insert_desc lt y l <-> x = y \/ x ∈ l.
Proof.
  induction l as [|z l IH]; simpl.
  - rewrite list_elem_of_singleton. split; [auto|]. intros [H|H]; [exact H|inversion H].
  - destruct (lt y z).
    + rewrite !elem_of_cons, IH. tauto.
    + rewrite !elem_of_cons. tauto.
Qed.

Lemma elem_of_sort_desc x l : x ∈ sort_desc lt l <-> x ∈ l.
Proof.
  induction l as [|y l IH]; simpl; [reflexivity|].
  rewrite elem_of_insert_desc, elem_of_cons, IH. reflexivity.
Qed.

Lemma lt_irrefl x : lt x x = false.
Proof. destruct (lt x x) eqn:E; [|reflexivity]. rewrite (lt_asym _ _ E) in E. discriminate. Qed.

Lemma insert_desc_top x l :
  head_on_top lt l -> head_on_top lt (insert_desc lt x l).
Proof.
  destruct l as [|h l]; simpl.
  - intros _ z Hz. apply list_elem_of_singleton in Hz as ->. apply lt_irrefl.
  - intros Htop. destruct (lt x h) eqn:Hxh; simpl.
    + intros z Hz. apply elem_of_cons in Hz as [->|Hz]; [apply lt_irrefl|].
      apply elem_of_insert_desc in Hz as [->|Hz]; [apply lt_asym, Hxh|].
      apply Htop. right. exact Hz.
    + intros z Hz. apply elem_of_cons in Hz as [->|Hz]; [apply lt_irrefl|].
      apply (lt_neg_trans x h z Hxh). apply Htop, Hz.
Qed.

Lemma sort_desc_top l : head_on_top lt (sort_desc lt l).
Proof. induction l as [|x l IH]; simpl; [exact I|]. apply insert_desc_top, IH. Qed.

Lemma sort_desc_nil l : sort_desc lt l = [] -> l = [].
Proof.
  destruct l as [|x l]; [reflexivity|]. simpl.
  destruct (sort_desc lt l) as [|h t]; simpl; [discriminate|].
  destruct (lt x h); discriminate.
Qed.
End SortFacts.

Lemma rule_lt_asym r1 r2 : rule_lt r1 r2 = true -> rule_lt r2 r1 = false.
Proof.
  unfold rule_lt, key_lt. intros H.
  apply orb_true_iff in H as [H|H].
  - apply Nat.ltb_lt in H. apply orb_false_iff. split.
    + apply Nat.ltb_ge. lia.
    + apply andb_false_iff. left. apply Nat.eqb_neq. lia.
  - apply andb_true_iff in H as [H1 H2].
    apply Nat.eqb_eq in H1. apply Nat.ltb_lt in H2. apply orb_false_iff. split.
    + apply Nat.ltb_ge. lia.
    + apply andb_false_iff. right. apply Nat.ltb_ge. lia.
Qed.

Lemma rule_lt_false r1 r2 :
  rule_lt r1 r2 = false <->
  fst (selection_key r2) < fst (selection_key r1) \/
  (fst (selection_key r2) = fst (selection_key r1) /\
   snd (selection_key r2) <= snd (selection_key r1)).
Proof.
  unfold rule_lt, key_lt. rewrite orb_false_iff, andb_false_iff.
  rewrite !Nat.ltb_ge, Nat.eqb_neq. lia.
Qed.

Lemma rule_lt_neg_trans r1 r2 r3 :
  rule_lt r1 r2 = false -> rule_lt r2 r3 = false -> rule_lt r1 r3 = false.
Proof. rewrite !rule_lt_false. lia. Qed.

(** What [selected_rule] returns: nothing when no rule matches, and
    otherwise a matching rule whose key no matching rule exceeds. *)
Lemma selected_rule_spec rules failure cache :
  match selected_rule rules failure cache with
  | None => forall r, r ∈ rules -> matches r failure cache = false
  | Some sel =>
      sel ∈ rules /\ matches sel failure cache = true /\
      forall r, r ∈ rules -> matches r failure cache = true ->
        rule_lt sel r = false
  end.
Proof.
  unfold selected_rule.
  pose proof (sort_desc_top rule_lt rule_lt_asym rule_lt_neg_trans
                (matching_rules rules failure cache)) as Htop.
  destruct (sort_desc rule_lt (matching_rules rules failure cache)) as [|sel t] eqn:E.
  - apply sort_desc_nil in E. intros r Hr.
    destruct (matches r failure cache) eqn:Hm; [|reflexivity].
    assert (Hin : r ∈ matching_rules rules failure cache).
    { unfold matching_rules. apply list_elem_of_filter. split; assumption. }
    rewrite E in Hin. inversion Hin.
  - assert (Hsel : sel ∈ sort_desc rule_lt (matching_rules rules failure cache)).
    { rewrite E. left. }
    apply elem_of_sort_desc in Hsel.
    unfold matching_rules in Hsel. apply list_elem_of_filter in Hsel as [Hm Hin].
    split; [exact Hin|]. split; [exact Hm|].
    intros r Hr Hmr. apply Htop.
    assert (Hin' : r ∈ sort_desc rule_lt (matching_rules rules failure cache)).
    { apply elem_of_sort_desc. unfold matching_rules.
      apply list_elem_of_filter. split; assumption. }
    rewrite E in Hin'. exact Hin'.
Qed.

Lemma category_priority_timeout c : 15 <= category_priority c -> c = "TIMEOUT".
Proof.
  unfold category_priority.
  destruct (String.eqb_spec c "TIMEOUT") as [->|_]; [reflexivity|].
  repeat (match goal with |- context [String.eqb c ?s] => destruct (String.eqb c s) end);
    lia.
Qed.

(** The table of [classify], entry by entry; a category that is not in
    the table reads 0. *)
Lemma category_priority_cases c :
  (c = "TIMEOUT" /\ category_priority c = 15) \/
  (c = "ELEMENT_NOT_FOUND" /\ category_priority c = 12) \/
  (c = "ASSERTION_FAILURE" /\ category_priority c = 8) \/
  (c = "ENVIRONMENT_ISSUE" /\ category_priority c = 6) \/
  (c = "OTHER" /\ category_priority c = 1) \/
  category_priority c = 0.
Proof.
  unfold category_priority.
  destruct (String.eqb_spec c "TIMEOUT") as [->|_]; [left; split; reflexivity|].
  destruct (String.eqb_spec c "ELEMENT_NOT_FOUND") as [->|_];
    [right; left; split; reflexivity|].
  destruct (String.eqb_spec c "ASSERTION_FAILURE") as [->|_];
    [do 2 right; left; split; reflexivity|].
  destruct (String.eqb_spec c "ENVIRONMENT_ISSUE") as [->|_];
    [do 3 right; left; split; reflexivity|].
  destruct (String.eqb_spec c "OTHER") as [->|_];
    [do 4 right; left; split; reflexivity|].
  do 5 right. reflexivity.
Qed.

(** The numbers of the table follow the order TIMEOUT, ELEMENT_NOT_FOUND,
    ASSERTION_FAILURE, ENVIRONMENT_ISSUE, OTHER: a category whose number
    is not below that of entry [j] of this order stands at [j] or before. *)
Lemma category_priority_order c' c j :
  ["TIMEOUT"; "ELEMENT_NOT_FOUND"; "ASSERTION_FAILURE"; "ENVIRONMENT_ISSUE"; "OTHER"]
    !! j = Some c' ->
  category_priority c' <= category_priority c ->
  exists i, i <= j /\
    ["TIMEOUT"; "ELEMENT_NOT_FOUND"; "ASSERTION_FAILURE"; "ENVIRONMENT_ISSUE"; "OTHER"]
      !! i = Some c.
Proof.
  intros Hj Hle.
  destruct (category_priority_cases c)
    as [[-> Hc]|[[-> Hc]|[[-> Hc]|[[-> Hc]|[[-> Hc]|Hc]]]]];
    rewrite Hc in Hle; clear Hc;
    (do 5 (destruct j as [|j];
           [ injection Hj as <-; vm_compute in Hle;
             first [ solve [exists 0; split; [lia|reflexivity]]
                   | solve [exists 1; split; [lia|reflexivity]]
                   | solve [exists 2; split; [lia|reflexivity]]
                   | solve [exists 3; split; [lia|reflexivity]]
                   | solve [exists 4; split; [lia|reflexivity]]
                   | exfalso; lia ]
           | ]));
    cbn in Hj; discriminate Hj.
Qed.

Lemma merged_in_categories tag :
  tag ∈ categories \/ tag = "NETWORK_ISSUE" \/ tag = "ENVIRONMENT_FAILURE" ->
  (if String.eqb tag "NETWORK_ISSUE" || String.eqb tag "ENVIRONMENT_FAILURE"
   then "ENVIRONMENT_ISSUE" else tag) ∈ categories.
Proof.
  intros [H|[->| ->]]; [|vm_compute; set_solver..].
  unfold categories in H. repeat (apply elem_of_cons in H as [->|H]);
    [vm_compute; set_solver.. | inversion H].
Qed.

Lemma engine_rules_sorted :
  engine_rules =
  [ PageLoadTimeoutRule; ElementClickInterceptedRule; ElementLocatorExceptionRule;
    IllegalArgumentExceptionRule; NonPageLoadTimeoutFilterRule;
    AssertionFailureFilterRule ].
Proof. reflexivity. Qed.

Lemma engine_rule_categories r :
  r ∈ engine_rules -> category r ∈ ["TIMEOUT"; "ELEMENT_NOT_FOUND"; "OTHER"].
Proof.
  rewrite engine_rules_sorted. intros H.
  repeat (apply elem_of_cons in H as [->|H]);
    [ left | right; left | right; left | right; left
    | right; right; left | right; right; left | inversion H ].
Qed.

End CategoryFacts.

(** C5: when rules match, [classify] returns the category of a matching
    rule whose category no matching rule precedes in the fixed order
    TIMEOUT > ELEMENT_NOT_FOUND > ASSERTION_FAILURE > ENVIRONMENT_ISSUE >
    OTHER, which is the order of the numbers of the category-priority
    table; the rule priority decides only among the rules of equal
    category priority; so a failure that matches a rule for TIMEOUT and a
    rule for ELEMENT_NOT_FOUND is classified TIMEOUT. *)
Theorem category_priority_resolution
    (rules : list CategoryRules.CategoryRule)
    (failure : Analyzer.FailureClassification) (cache : Cache.TestDataCache)
    (r : CategoryRules.CategoryRule) :
  r ∈ rules ->
  CategoryRules.matches r failure cache = true ->
  exists sel,
    CategoryRules.selected_rule rules failure cache = Some sel /\
    sel ∈ rules /\
    CategoryRules.matches sel failure cache = true /\
    CategoryRules.classify_with rules failure cache = CategoryRules.category sel /\
    (forall r', r' ∈ rules -> CategoryRules.matches r' failure cache = true ->
       CategoryRules.category_priority (CategoryRules.category r')
         <= CategoryRules.category_priority (CategoryRules.category sel) /\
       (CategoryRules.category_priority (CategoryRules.category r')
          = CategoryRules.category_priority (CategoryRules.category sel) ->
        CategoryRules.priority r' <= CategoryRules.priority sel) /\
       (forall j,
          ["TIMEOUT"; "ELEMENT_NOT_FOUND"; "ASSERTION_FAILURE";
           "ENVIRONMENT_ISSUE"; "OTHER"] !! j = Some (CategoryRules.category r') ->
          exists i, i <= j /\
            ["TIMEOUT"; "ELEMENT_NOT_FOUND"; "ASSERTION_FAILURE";
             "ENVIRONMENT_ISSUE"; "OTHER"] !! i = Some (CategoryRules.category sel))) /\
    (CategoryRules.category r = "TIMEOUT" ->
     CategoryRules.classify_with rules failure cache = "TIMEOUT") /\
    (CategoryRules.category_priority "OTHER"
       < CategoryRules.category_priority "ENVIRONMENT_ISSUE" /\
     CategoryRules.category_priority "ENVIRONMENT_ISSUE"
       < CategoryRules.category_priority "ASSERTION_FAILURE" /\
     CategoryRules.category_priority "ASSERTION_FAILURE"
       < CategoryRules.category_priority "ELEMENT_NOT_FOUND" /\
     CategoryRules.category_priority "ELEMENT_NOT_FOUND"
       < CategoryRules.category_priority "TIMEOUT").
Proof.
  intros Hr Hm.
  pose proof (CategoryFacts.selected_rule_spec rules failure cache) as Hspec.
  unfold CategoryRules.classify_with.
  destruct (CategoryRules.selected_rule rules failure cache) as [sel|].
  - destruct Hspec as (Hin & Hmsel & Htop).
    assert (Hkey : forall r', r' ∈ rules ->
              CategoryRules.matches r' failure cache = true ->
              CategoryRules.category_priority (CategoryRules.category r')
                < CategoryRules.category_priority (CategoryRules.category sel) \/
              (CategoryRules.category_priority (CategoryRules.category r')
                 = CategoryRules.category_priority (CategoryRules.category sel) /\
               CategoryRules.priority r' <= CategoryRules.priority sel)).
    { intros r' Hr' Hm'. specialize (Htop _ Hr' Hm').
      apply CategoryFacts.rule_lt_false in Htop.
      cbn [CategoryRules.selection_key fst snd] in Htop. exact Htop. }
    exists sel. split; [reflexivity|]. split; [exact Hin|]. split; [exact Hmsel|].
    split; [reflexivity|]. split; [|split].
    + intros r' Hr' Hm'. specialize (Hkey _ Hr' Hm'). split; [lia|]. split; [lia|].
      intros j Hj. apply (CategoryFacts.category_priority_order _ _ _ Hj). lia.
    + intros Hcat. specialize (Hkey _ Hr Hm). rewrite Hcat in Hkey.
      apply CategoryFacts.category_priority_timeout.
      change (CategoryRules.category_priority "TIMEOUT") with 15 in Hkey. lia.
    + vm_compute. lia.
  - rewrite (Hspec r Hr) in Hm. discriminate.
Qed.

Lemma category_priority_resolution_witness :
  CategoryRules.PageLoadTimeoutRule ∈ CategoryRules.engine_rules
  /\ CategoryRules.matches CategoryRules.PageLoadTimeoutRule
       Samples.timeout_and_click ∅ = true
  /\ CategoryRules.matches CategoryRules.ElementClickInterceptedRule
       Samples.timeout_and_click ∅ = true
  /\ CategoryRules.classify Samples.timeout_and_click ∅ = "TIMEOUT".
Proof.
  assert (Hin : CategoryRules.PageLoadTimeoutRule ∈ CategoryRules.engine_rules).
  { rewrite CategoryFacts.engine_rules_sorted. left. }
  assert (Hm : CategoryRules.matches CategoryRules.PageLoadTimeoutRule
                 Samples.timeout_and_click ∅ = true).
  { vm_compute. reflexivity. }
  split; [exact Hin|]. split; [exact Hm|]. split; [vm_compute; reflexivity|].
  destruct (category_priority_resolution CategoryRules.engine_rules
              Samples.timeout_and_click ∅ CategoryRules.PageLoadTimeoutRule Hin Hm)
    as (sel & _ & _ & _ & _ & _ & Ht & _).
  exact (Ht eq_refl).
Defined.

(** C6, the claim as it stands fails: when no rule matches, the upstream
    tag is returned as it is, and it need not be one of the five
    categories. *)
Lemma classify_outside_enumeration :
  CategoryRules.classify Samples.product_bug ∅ = "PRODUCT_BUG"
  /\ ~ CategoryRules.classify Samples.product_bug ∅ ∈ CategoryRules.categories.
Proof.
  assert (H : CategoryRules.classify Samples.product_bug ∅ = "PRODUCT_BUG")
    by (vm_compute; reflexivity).
  split; [exact H|]. rewrite H. unfold CategoryRules.categories.
  intros Hin. repeat (apply elem_of_cons in Hin as [Hin|Hin]; [discriminate Hin|]).
  inversion Hin.
Qed.

(** C6 (amended): [classify] returns one string.  When a rule of the
    engine matches, it is the category of a matching rule, one of TIMEOUT,
    ELEMENT_NOT_FOUND and OTHER; when none matches, it is the upstream tag,
    with NETWORK_ISSUE and ENVIRONMENT_FAILURE turned into
    ENVIRONMENT_ISSUE.  So the result is one of the five categories
    whenever the upstream tag is one of them or one of these two names. *)
Theorem classify_in_enumeration
    (failure : Analyzer.FailureClassification) (cache : Cache.TestDataCache) :
  let tag := Analyzer.root_cause_category failure in
  let merged :=
    if String.eqb tag "NETWORK_ISSUE" || String.eqb tag "ENVIRONMENT_FAILURE"
    then "ENVIRONMENT_ISSUE" else tag in
  match CategoryRules.selected_rule CategoryRules.engine_rules failure cache with
  | Some sel =>
      CategoryRules.matches sel failure cache = true /\
      CategoryRules.classify failure cache = CategoryRules.category sel /\
      CategoryRules.classify failure cache ∈ ["TIMEOUT"; "ELEMENT_NOT_FOUND"; "OTHER"]
  | None =>
      (forall r, r ∈ CategoryRules.engine_rules ->
                 CategoryRules.matches r failure cache = false) /\
      CategoryRules.classify failure cache = merged
  end
  /\ (tag ∈ CategoryRules.categories \/ tag = "NETWORK_ISSUE"
      \/ tag = "ENVIRONMENT_FAILURE" ->
      CategoryRules.classify failure cache ∈ CategoryRules.categories).
Proof.
  intros tag merged.
  pose proof (CategoryFacts.selected_rule_spec CategoryRules.engine_rules failure cache)
    as Hspec.
  unfold CategoryRules.classify, CategoryRules.classify_with. fold tag. fold merged.
  destruct (CategoryRules.selected_rule CategoryRules.engine_rules failure cache)
    as [sel|].
  - destruct Hspec as (Hin & Hm & _).
    pose proof (CategoryFacts.engine_rule_categories sel Hin) as Hcat.
    split; [repeat split; assumption|]. intros _.
    unfold CategoryRules.categories.
    repeat (apply elem_of_cons in Hcat as [->|Hcat]);
      [ right; left | left | do 4 right; left | inversion Hcat ].
  - split; [split; [exact Hspec|reflexivity]|].
    intros Htag. apply CategoryFacts.merged_in_categories, Htag.
Qed.

Lemma classify_in_enumeration_witness :
  Analyzer.root_cause_category Samples.network_issue = "NETWORK_ISSUE"
  /\ CategoryRules.classify Samples.network_issue ∅ ∈ CategoryRules.categories.
Proof.
  split; [reflexivity|].
  apply (proj2 (classify_in_enumeration Samples.network_issue ∅)).
  right. left. reflexivity.
Defined.

(* ===================================================================== *)
(** * Log isolator *)
(* ===================================================================== *)

Module HtmlFacts.
Import Py HtmlParser.

Lemma take_str_all s : take_str (String.length s) s = s.
Proof. induction s as [|c s IH]; [reflexivity|]. simpl. rewrite IH. reflexivity. Qed.

Lemma slice_all s : slice 0 (String.length s) s = s.
Proof. unfold slice. rewrite Nat.sub_0_r. simpl. apply take_str_all. Qed.

Lemma isolate_slice full_log :
  exists i j, isolate full_log = slice i j full_log.
Proof.
  unfold isolate.
  destruct ((find_start full_log =? 0)
            && (find_end full_log (find_start full_log) =? String.length full_log)).
  - exists 0, (String.length full_log). symmetry. apply slice_all.
  - eexists _, _. reflexivity.
Qed.

Lemma isolate_no_boundary full_log : no_boundary full_log -> isolate full_log = full_log.
Proof.
  intros (Hstart & Hend & Hmarkers).
  unfold isolate, find_start. rewrite Hstart.
  unfold find_end. cbn [drop_str]. rewrite Hend, Hmarkers.
  cbn [Nat.eqb]. rewrite Nat.eqb_refl. reflexivity.
Qed.

End HtmlFacts.

(** C9: log isolation always returns a slice of the log (no step of it
    can fail), and when none of the start markers, no end marker and none
    of the fallback end markers occurs in the log it returns the whole
    log. *)
Theorem isolate_degraded_mode (font_texts : list string) :
  let full_log := HtmlParser.full_log_of font_texts in
  (exists i j, HtmlParser._extract_execution_log font_texts = Py.slice i j full_log)
  /\ (HtmlParser.no_boundary full_log ->
      HtmlParser._extract_execution_log font_texts = full_log).
Proof.
  intros full_log. unfold HtmlParser._extract_execution_log. fold full_log. split.
  - apply HtmlFacts.isolate_slice.
  - apply HtmlFacts.isolate_no_boundary.
Qed.

Lemma isolate_degraded_mode_witness :
  HtmlParser.no_boundary (HtmlParser.full_log_of ["step one"; "step two"])
  /\ HtmlParser._extract_execution_log ["step one"; "step two"]
     = HtmlParser.full_log_of ["step one"; "step two"].
Proof.
  assert (H : HtmlParser.no_boundary (HtmlParser.full_log_of ["step one"; "step two"])).
  { repeat split; vm_compute; reflexivity. }
  split; [exact H|].
  exact (proj2 (isolate_degraded_mode ["step one"; "step two"]) H).
Defined.

(* ===================================================================== *)
(** * Root-cause normalization *)
(* ===================================================================== *)

Module RootCauseFacts.
Import Py PyFacts.

Lemma length_take_str n s : String.length (take_str n s) <= n.
Proof.
  revert s. induction n as [|n IH]; intros [|c s]; simpl; try lia.
  specialize (IH s). lia.
Qed.

Lemma length_strip s : String.length (strip s) <= String.length s.
Proof.
  unfold strip. pose proof (length_lstrip (rstrip s)). pose proof (length_rstrip s). lia.
Qed.

End RootCauseFacts.

(** C10: the normalized root cause has at most 200 characters, whatever
    the substitutions do; so two messages whose normalized texts agree on
    the first 200 characters get the same normalized root cause and count
    as one reason. *)
Theorem normalize_root_cause_truncates
    (re_sub : Utils.substitution -> string -> string) (a b : string) :
  String.length (Utils.normalize_root_cause re_sub a) <= 200 /\
  (Py.truthy a = true -> Py.truthy b = true ->
   Py.take_str 200 (Utils.normalized_before_cut re_sub a)
   = Py.take_str 200 (Utils.normalized_before_cut re_sub b) ->
   Utils.normalize_root_cause re_sub a = Utils.normalize_root_cause re_sub b /\
   Memory.unique_root_causes re_sub [a; b] = 1 /\
   Memory.same_reason re_sub [a; b] = true).
Proof.
  split.
  - unfold Utils.normalize_root_cause. destruct (negb (Py.truthy a)); [simpl; lia|].
    pose proof (RootCauseFacts.length_strip
                  (Py.take_str 200 (Utils.normalized_before_cut re_sub a))).
    pose proof (RootCauseFacts.length_take_str 200
                  (Utils.normalized_before_cut re_sub a)). lia.
  - intros Ha Hb Hcut.
    assert (Heq : Utils.normalize_root_cause re_sub a
                  = Utils.normalize_root_cause re_sub b).
    { unfold Utils.normalize_root_cause. rewrite Ha, Hb, Hcut. reflexivity. }
    split; [exact Heq|].
    assert (Hu : Memory.unique_root_causes re_sub [a; b] = 1).
    { unfold Memory.unique_root_causes. cbn [List.filter]. rewrite Ha, Hb.
      cbn [map]. rewrite Heq.
      set (x := Utils.normalize_root_cause re_sub b). cbn [remove_dups].
      destruct (decide_rel elem_of x [x]) as [_|Hn]; [|exfalso; apply Hn; left].
      destruct (decide_rel elem_of x []) as [Hin|_]; [inversion Hin|reflexivity]. }
    split; [exact Hu|]. unfold Memory.same_reason. rewrite Hu. reflexivity.
Qed.

Lemma normalize_root_cause_truncates_witness :
  Samples.long_a <> Samples.long_b
  /\ Utils.normalized_before_cut Samples.no_occurrence Samples.long_a
     <> Utils.normalized_before_cut Samples.no_occurrence Samples.long_b
  /\ Utils.normalize_root_cause Samples.no_occurrence Samples.long_a
     = Utils.normalize_root_cause Samples.no_occurrence Samples.long_b
  /\ Memory.same_reason Samples.no_occurrence [Samples.long_a; Samples.long_b] = true.
Proof.
  split; [vm_compute; discriminate|]. split; [vm_compute; discriminate|].
  pose proof (proj2 (normalize_root_cause_truncates Samples.no_occurrence
                       Samples.long_a Samples.long_b)) as H.
  specialize (H eq_refl eq_refl).
  assert (Hcut : Py.take_str 200
                   (Utils.normalized_before_cut Samples.no_occurrence Samples.long_a)
                 = Py.take_str 200
                     (Utils.normalized_before_cut Samples.no_occurrence Samples.long_b)).
  { vm_compute. reflexivity. }
  destruct (H Hcut) as (H1 & _ & H3). split; [exact H1|exact H3].
Defined.

(* ===================================================================== *)
(** * Record reconciler *)
(* ===================================================================== *)

Module ReconcileFacts.
Import Py Models DataBuilder.

Lemma failing_pass s : failing s = true -> s <> PASS.
Proof. destruct s; simpl; congruence. Qed.

Lemma status_eqb_eq a b : status_eqb a b = true <-> a = b.
Proof. destruct a, b; simpl; split; congruence. Qed.

(** The decision on a duplicate. *)
Lemma should_replace_iff log cand existing :
  should_replace log cand existing = true <->
  (truthy_opt log = true /\ truthy_opt (execution_log existing) = false) \/
  (failing (status cand) = true /\ status existing = PASS).
Proof.
  unfold should_replace. rewrite <- status_eqb_eq.
  destruct (truthy_opt log), (truthy_opt (execution_log existing)),
           (failing (status cand)), (status_eqb (status existing) PASS);
    simpl; intuition congruence.
Qed.

(** A row is turned into a test result exactly when it has a name and
    its status is not [None]; the result carries the parsed status and
    the log it was given. *)
Lemma db_row_to_test_result_Some row log dur t :
  db_row_to_test_result row log dur = Some t ->
  is_Some (row_name row) /\ row_status row = Some (status t) /\
  execution_log t = log.
Proof.
  unfold db_row_to_test_result, row_name, row_status.
  destruct (get_or_empty (testcaseName row)) as [n|]; [|discriminate].
  destruct (truthy n); cbn [negb]; [|discriminate].
  destruct (2 <=? length (split "." n)).
  - destruct (get_or_empty (testStatus row)) as [raw|]; [|discriminate].
    destruct (error_info (get_or_empty (failureReason row))) as [[? ?] ?].
    intros [= <-]. cbn. eauto.
  - destruct (get_or_empty (testStatus row)) as [raw|]; [|discriminate].
    destruct (error_info (get_or_empty (failureReason row))) as [[? ?] ?].
    intros [= <-]. cbn. eauto.
Qed.

Lemma db_row_to_test_result_None row log dur n :
  row_name row = Some n ->
  db_row_to_test_result row log dur = None -> row_status row = None.
Proof.
  unfold db_row_to_test_result, row_name, row_status.
  destruct (get_or_empty (testcaseName row)) as [m|]; [|discriminate].
  destruct (truthy m); cbn [negb]; [|discriminate]. intros _.
  destruct (2 <=? length (split "." m)).
  - destruct (get_or_empty (testStatus row)) as [raw|]; [|reflexivity].
    destruct (error_info (get_or_empty (failureReason row))) as [[? ?] ?].
    discriminate.
  - destruct (get_or_empty (testStatus row)) as [raw|]; [|reflexivity].
    destruct (error_info (get_or_empty (failureReason row))) as [[? ?] ?].
    discriminate.
Qed.

Lemma process_row_unnamed logs durs m row :
  row_name row = None -> process_row logs durs m row = m.
Proof.
  unfold process_row, row_name.
  destruct (get_or_empty (testcaseName row)) as [n|]; [|reflexivity].
  destruct (truthy n); [discriminate|reflexivity].
Qed.

Lemma process_row_named logs durs m row n :
  row_name row = Some n ->
  process_row logs durs m row =
  match db_row_to_test_result row (_find_matching_execution_log n logs)
          (_find_matching_duration n durs) with
  | Some t => deduplicate m n (_find_matching_execution_log n logs) t
  | None => m
  end.
Proof.
  unfold process_row, row_name.
  destruct (get_or_empty (testcaseName row)) as [n'|]; [|discriminate].
  destruct (truthy n'); [|discriminate]. intros [= ->]. reflexivity.
Qed.

Lemma invariant_skip logs processed m row :
  invariant logs processed m ->
  (forall n, row_name row = Some n -> row_status row = None) ->
  invariant logs (processed ++ [row]) m.
Proof.
  intros [I1 I2 I3] Hrow. split.
  - exact I1.
  - intros n r Hn Hp row' Hin Hname st Hst.
    apply elem_of_app in Hin as [Hin|Hin]; [eapply I2; eauto|].
    apply list_elem_of_singleton in Hin as ->.
    rewrite (Hrow _ Hname) in Hst. discriminate.
  - intros n Hn row' Hin Hname.
    apply elem_of_app in Hin as [Hin|Hin]; [eapply I3; eauto|].
    apply list_elem_of_singleton in Hin as ->. eauto.
Qed.

Lemma invariant_step logs durs processed m row :
  invariant logs processed m ->
  invariant logs (processed ++ [row]) (process_row logs durs m row).
Proof.
  intros Inv. destruct (row_name row) as [n0|] eqn:Hname.
  2:{ rewrite (process_row_unnamed _ _ _ _ Hname).
      apply invariant_skip; [exact Inv|]. congruence. }
  rewrite (process_row_named _ _ _ _ _ Hname).
  destruct (db_row_to_test_result row (_find_matching_execution_log n0 logs)
              (_find_matching_duration n0 durs)) as [t|] eqn:Ht.
  2:{ apply invariant_skip; [exact Inv|]. intros n Hn.
      eapply db_row_to_test_result_None; eauto. }
  apply db_row_to_test_result_Some in Ht as (_ & Hst & Hlog).
  destruct Inv as [I1 I2 I3].
  unfold deduplicate.
  destruct (m !! n0) as [existing|] eqn:Hm.
  - assert (Hrep : should_replace (_find_matching_execution_log n0 logs) t existing
                   = failing (status t) && status_eqb (status existing) PASS).
    { unfold should_replace. rewrite (I1 _ _ Hm).
      destruct (truthy_opt (_find_matching_execution_log n0 logs)),
               (failing (status t)), (status_eqb (status existing) PASS);
        reflexivity. }
    rewrite Hrep.
    destruct (failing (status t)) eqn:Hf; cbn [andb].
    + destruct (status_eqb (status existing) PASS) eqn:He.
      * (* the failing candidate replaces the passing entry *)
        split.
        -- intros n r Hn. destruct (decide (n0 = n)) as [<-|Hne].
           ++ rewrite lookup_insert_eq in Hn. injection Hn as <-. exact Hlog.
           ++ rewrite lookup_insert_ne in Hn by exact Hne. eauto.
        -- intros n r Hn Hp row' Hin Hname' st Hst'.
           destruct (decide (n0 = n)) as [<-|Hne].
           ++ rewrite lookup_insert_eq in Hn. injection Hn as <-.
              apply failing_pass in Hf. contradiction.
           ++ rewrite lookup_insert_ne in Hn by exact Hne.
              apply elem_of_app in Hin as [Hin|Hin]; [eapply I2; eauto|].
              apply list_elem_of_singleton in Hin as ->. congruence.
        -- intros n Hn row' Hin Hname'.
           destruct (decide (n0 = n)) as [<-|Hne].
           ++ rewrite lookup_insert_eq in Hn. discriminate.
           ++ rewrite lookup_insert_ne in Hn by exact Hne.
              apply elem_of_app in Hin as [Hin|Hin]; [eapply I3; eauto|].
              apply list_elem_of_singleton in Hin as ->. congruence.
      * (* the entry is not PASS: it stays *)
        split.
        -- exact I1.
        -- intros n r Hn Hp row' Hin Hname' st Hst'.
           apply elem_of_app in Hin as [Hin|Hin]; [eapply I2; eauto|].
           apply list_elem_of_singleton in Hin as ->.
           assert (n = n0) by congruence. subst n.
           rewrite Hm in Hn. injection Hn as <-.
           apply status_eqb_eq in Hp. congruence.
        -- intros n Hn row' Hin Hname'.
           apply elem_of_app in Hin as [Hin|Hin]; [eapply I3; eauto|].
           apply list_elem_of_singleton in Hin as ->.
           assert (n = n0) by congruence. subst n. congruence.
    + (* the candidate does not fail: the entry stays *)
      split.
      * exact I1.
      * intros n r Hn Hp row' Hin Hname' st Hst'.
        apply elem_of_app in Hin as [Hin|Hin]; [eapply I2; eauto|].
        apply list_elem_of_singleton in Hin as ->. congruence.
      * intros n Hn row' Hin Hname'.
        apply elem_of_app in Hin as [Hin|Hin]; [eapply I3; eauto|].
        apply list_elem_of_singleton in Hin as ->.
        assert (n = n0) by congruence. subst n. congruence.
  - (* first row of this name *)
    split.
    + intros n r Hn. destruct (decide (n0 = n)) as [<-|Hne].
      * rewrite lookup_insert_eq in Hn. injection Hn as <-. exact Hlog.
      * rewrite lookup_insert_ne in Hn by exact Hne. eauto.
    + intros n r Hn Hp row' Hin Hname' st Hst'.
      destruct (decide (n0 = n)) as [<-|Hne].
      * rewrite lookup_insert_eq in Hn. injection Hn as <-.
        apply elem_of_app in Hin as [Hin|Hin].
        -- rewrite (I3 _ Hm _ Hin Hname') in Hst'. discriminate.
        -- apply list_elem_of_singleton in Hin as ->.
           assert (st = status t) by congruence. subst st. rewrite Hp. reflexivity.
      * rewrite lookup_insert_ne in Hn by exact Hne.
        apply elem_of_app in Hin as [Hin|Hin]; [eapply I2; eauto|].
        apply list_elem_of_singleton in Hin as ->. congruence.
    + intros n Hn row' Hin Hname'.
      destruct (decide (n0 = n)) as [<-|Hne].
      * rewrite lookup_insert_eq in Hn. discriminate.
      * rewrite lookup_insert_ne in Hn by exact Hne.
        apply elem_of_app in Hin as [Hin|Hin]; [eapply I3; eauto|].
        apply list_elem_of_singleton in Hin as ->. congruence.
Qed.

Lemma invariant_fold logs durs rows :
  invariant logs rows (get_full_report_data_from_db rows logs durs).
Proof.
  unfold get_full_report_data_from_db.
  induction rows as [|row rows IH] using rev_ind.
  - cbn [fold_left]. split.
    + intros n r Hn. rewrite lookup_empty in Hn. discriminate.
    + intros n r Hn. rewrite lookup_empty in Hn. discriminate.
    + intros n _ row Hin. inversion Hin.
  - rewrite fold_left_app. cbn [fold_left]. apply invariant_step, IH.
Qed.

End ReconcileFacts.

(* ===================================================================== *)
(** * Further properties of the code *)
(* ===================================================================== *)

(** ** Names *)

Module NameFacts.
Import Py PyFacts Utils UtilsFacts.

Lemma collapse_length n : forall parts, length parts <= n ->
  length (collapse parts) <= length parts.
Proof.
  induction n as [|n IH]; intros parts Hlen.
  - destruct parts; [simpl; lia|simpl in Hlen; lia].
  - destruct parts as [|p [|q rest]]; [simpl; lia..|].
    rewrite collapse_cons. simpl in Hlen.
    destruct (String.eqb p q).
    + specialize (IH rest ltac:(lia)). simpl in *. lia.
    + specialize (IH (q :: rest) ltac:(simpl; lia)). simpl in *. lia.
Qed.

(** The segments of a collapsed name are the collapsed segments. *)
Lemma split_remove_duplicate_class_name name :
  split "." (remove_duplicate_class_name name) = collapse (split "." name).
Proof.
  rewrite remove_duplicate_class_name_join.
  destruct (collapse_props _ (split "." name) (le_n _)) as (_ & _ & Hall & _).
  apply split_join.
  - apply collapse_not_nil, split_not_nil.
  - apply Hall, split_parts_free.
Qed.

Lemma first_ok_lstrip s : first_ok (lstrip s) = true.
Proof.
  induction s as [|c s IH]; [reflexivity|]. simpl.
  destruct (is_space c) eqn:E; [exact IH|]. simpl. rewrite E. reflexivity.
Qed.

Lemma last_ok_rstrip s : last_ok (rstrip s) = true.
Proof.
  induction s as [|c s IH]; [reflexivity|]. simpl.
  destruct (rstrip s) as [|d r] eqn:E.
  - destruct (is_space c) eqn:Ec; [reflexivity|]. simpl. rewrite Ec. reflexivity.
  - exact IH.
Qed.

Lemma last_ok_lstrip s : last_ok s = true -> last_ok (lstrip s) = true.
Proof.
  induction s as [|c s IH]; [reflexivity|]. intros H. simpl.
  destruct (is_space c) eqn:Ec; [|exact H].
  apply IH. simpl in H. destruct s as [|d s']; [reflexivity|exact H].
Qed.

Lemma strip_strip s : strip (strip s) = strip s.
Proof.
  apply strip_id. unfold strip. split.
  - apply first_ok_lstrip.
  - apply last_ok_lstrip, last_ok_rstrip.
Qed.

(** a list with at least two entries ends with its last two *)
Lemma last_two_spec (parts : list string) :
  2 <= length parts ->
  last_two parts = [last_part (removelast parts); last_part parts].
Proof.
  unfold last_two, last_part. induction parts as [|p rest IH]; [simpl; lia|].
  intros Hlen. destruct rest as [|q [|r rest']]; [simpl in Hlen; lia|reflexivity|].
  specialize (IH ltac:(simpl; lia)).
  replace (length (p :: q :: r :: rest') - 2) with (S (length (q :: r :: rest') - 2))
    by (simpl; lia).
  cbn [skipn]. rewrite IH. reflexivity.
Qed.

Lemma app_assoc_str (a b c : string) : (a +:+ b) +:+ c = a +:+ (b +:+ c).
Proof. induction a as [|x a IH]; [reflexivity|]. rewrite !app_cons, IH. reflexivity. Qed.

Lemma join_snoc (l : list string) (x : string) :
  l <> [] -> join "." (l ++ [x]) = join "." l +:+ "." +:+ x.
Proof.
  induction l as [|p rest IH]; [congruence|]. intros _.
  destruct rest as [|q rest']; [reflexivity|].
  change ((p :: q :: rest') ++ [x]) with (p :: ((q :: rest') ++ [x])).
  change ((q :: rest') ++ [x]) with (q :: (rest' ++ [x])) at 1.
  rewrite join_cons. change (q :: (rest' ++ [x])) with ((q :: rest') ++ [x]).
  rewrite IH by discriminate. rewrite join_cons.
  rewrite !app_assoc_str. reflexivity.
Qed.

Lemma join_removelast (parts : list string) :
  2 <= length parts ->
  join "." (removelast parts) +:+ "." +:+ last_part parts = join "." parts.
Proof.
  intros Hlen. unfold last_part.
  assert (Hne : parts <> []) by (destruct parts; [simpl in Hlen; lia|discriminate]).
  rewrite (app_removelast_last "" Hne) at 3.
  rewrite join_snoc; [reflexivity|].
  destruct parts as [|p [|q rest]]; [simpl in Hlen; lia..|discriminate].
Qed.

Lemma Forall_last_part P (parts : list string) :
  P "" -> Forall P parts -> P (last_part parts).
Proof.
  intros H0 H. unfold last_part. induction H as [|p rest Hp Hrest IH]; [exact H0|].
  destruct rest; [exact Hp|exact IH].
Qed.

Lemma Forall_removelast {A} (P : A -> Prop) (l : list A) :
  Forall P l -> Forall P (removelast l).
Proof.
  induction 1 as [|x l Hx Hl IH]; [constructor|].
  destruct l; [constructor|]. simpl. constructor; [exact Hx|exact IH].
Qed.

End NameFacts.

(** X1: a name in which no two neighbouring segments are equal is returned
    unchanged by [remove_duplicate_class_name]. *)
Theorem remove_duplicate_class_name_unchanged (name : string) :
  Utils.no_adjacent (Py.split "." name) = true ->
  Utils.remove_duplicate_class_name name = name.
Proof.
  intros H. rewrite UtilsFacts.remove_duplicate_class_name_join.
  rewrite (UtilsFacts.collapse_fixed _ H). apply (PyFacts.join_split "." name).
Qed.

Lemma remove_duplicate_class_name_unchanged_witness :
  Utils.no_adjacent (Py.split "." "Pkg.web.Foo.testBar") = true
  /\ Utils.remove_duplicate_class_name "Pkg.web.Foo.testBar" = "Pkg.web.Foo.testBar".
Proof.
  split; [reflexivity|].
  apply (remove_duplicate_class_name_unchanged "Pkg.web.Foo.testBar"). reflexivity.
Defined.

(** X2: [remove_duplicate_class_name] keeps the first and the last segment
    of a name (the method name survives) and never adds a segment. *)
Theorem remove_duplicate_class_name_keeps_ends (name : string) :
  let parts := Py.split "." name in
  let cleaned := Py.split "." (Utils.remove_duplicate_class_name name) in
  hd_error cleaned = hd_error parts /\
  Py.last_part cleaned = Py.last_part parts /\
  length cleaned <= length parts.
Proof.
  cbv zeta. rewrite NameFacts.split_remove_duplicate_class_name.
  destruct (UtilsFacts.collapse_props _ (Py.split "." name) (le_n _))
    as (Hhd & Hlast & _ & _).
  split; [exact Hhd|]. split; [exact Hlast|].
  apply (NameFacts.collapse_length _ _ (le_n _)).
Qed.

(** X3: [TestNameNormalizer.normalize] never returns a name with leading
    or trailing white space. *)
Theorem normalize_stripped (name : string) :
  Py.strip (Utils.normalize name) = Utils.normalize name.
Proof.
  unfold Utils.normalize. destruct (negb (Py.truthy name)); [reflexivity|].
  apply NameFacts.strip_strip.
Qed.

(** X4: the three strategies of [find_matching_test] test the same thing:
    the function returns the first result whose normalized full name is
    the normalized test name, and nothing when there is none. *)
Theorem find_matching_test_first_match
    (test_name : string) (test_results : list Models.TestResult) :
  Matching.find_matching_test test_name test_results
  = List.find (fun r => Utils.match_names test_name (Models.full_name r)) test_results.
Proof.
  induction test_results as [|r rest IH]; [reflexivity|].
  cbn [Matching.find_matching_test List.find]. rewrite IH.
  assert (H : Matching.result_matches test_name r
              = Utils.match_names test_name (Models.full_name r)).
  { unfold Matching.result_matches.
    destruct (Utils.match_names test_name (Models.full_name r)) eqn:E; [reflexivity|].
    assert (E2 : String.eqb (Utils.normalize (Models.full_name r))
                   (Utils.normalize test_name) = false).
    { rewrite String.eqb_sym. exact E. }
    cbv zeta. rewrite E2.
    change (Utils.remove_duplicate_class_name (Models.class_name r)
            +:+ "." +:+ Models.method_name r) with (Models.full_name r).
    rewrite E.
    destruct (Py.truthy (Models.class_name r) && Py.truthy (Models.method_name r));
      reflexivity. }
  rewrite H. reflexivity.
Qed.

Module PathFacts.
Import Py PyFacts Utils.

Lemma has_char_replace_char (a b : ascii) (s : string) :
  a <> b -> has_char a (replace_aux (String a "") (String b "") 0 s) = false.
Proof.
  intros Hab. induction s as [|c s IH]; [reflexivity|].
  cbn [replace_aux startswith String.length Nat.sub].
  destruct (Ascii.eqb_spec a c) as [<-|Hne]; cbn [andb].
  - rewrite app_cons, app_nil_l. cbn [has_char]. rewrite IH, orb_false_r.
    apply Ascii.eqb_neq. congruence.
  - cbn [has_char]. rewrite IH, orb_false_r. apply Ascii.eqb_neq. congruence.
Qed.

Lemma replace_char_absent (a : ascii) (new s : string) :
  has_char a s = false -> replace_aux (String a "") new 0 s = s.
Proof.
  induction s as [|c s IH]; [reflexivity|]. cbn [has_char]. intros H.
  apply orb_false_iff in H as [Hc Hs].
  cbn [replace_aux startswith]. rewrite Ascii.eqb_sym, Hc. cbn [andb].
  rewrite (IH Hs). reflexivity.
Qed.

Lemma split_single sep s p : split sep s = [p] -> has_char sep s = false.
Proof.
  intros H. pose proof (split_parts_free sep s) as Hf. rewrite H in Hf.
  inversion Hf; subst. pose proof (join_split sep s) as J. rewrite H in J.
  simpl in J. congruence.
Qed.

End PathFacts.

(** X5: [normalize_path] returns a path without backslash, and a path
    without backslash is left as it is; so applying it twice is the same as
    applying it once. *)
Theorem normalize_path_no_backslash (path : string) :
  Py.has_char "\" (Utils.normalize_path path) = false /\
  (Py.has_char "\" path = false -> Utils.normalize_path path = path) /\
  Utils.normalize_path (Utils.normalize_path path) = Utils.normalize_path path.
Proof.
  assert (H1 : Py.has_char "\" (Utils.normalize_path path) = false).
  { unfold Utils.normalize_path. destruct path as [|c path]; [reflexivity|].
    cbn [Py.truthy negb]. unfold Py.replace. cbn [Py.truthy].
    apply PathFacts.has_char_replace_char. discriminate. }
  assert (H2 : forall p, Py.has_char "\" p = false -> Utils.normalize_path p = p).
  { intros p Hp. unfold Utils.normalize_path. destruct p as [|c p]; [reflexivity|].
    cbn [Py.truthy negb]. unfold Py.replace. cbn [Py.truthy].
    apply PathFacts.replace_char_absent, Hp. }
  split; [exact H1|]. split; [apply H2|apply H2, H1].
Qed.

Lemma normalize_path_no_backslash_witness :
  Py.has_char "\" "Results/Growth/job" = false
  /\ Utils.normalize_path "Results/Growth/job" = "Results/Growth/job".
Proof.
  split; [reflexivity|].
  apply (proj1 (proj2 (normalize_path_no_backslash "Results/Growth/job"))).
  reflexivity.
Defined.

(** X6: the project name extracted from a report name never contains a
    hyphen: it is one of the hyphen-separated segments of the name. *)
Theorem extract_project_name_no_hyphen (report_name : string) :
  Py.has_char "-" (Utils.extract_project_name report_name) = false.
Proof.
  unfold Utils.extract_project_name.
  destruct (negb (Py.truthy report_name)); [reflexivity|].
  pose proof (PyFacts.split_parts_free "-" report_name) as Hf.
  pose proof (PyFacts.split_not_nil "-" report_name) as Hnil.
  destruct (Py.split "-" report_name) as [|p [|q rest]] eqn:E; [congruence| |].
  - cbn [length Nat.leb]. apply (PathFacts.split_single _ _ _ E).
  - cbn [length Nat.leb hd].
    inversion Hf as [|? ? Hp Hrest]; subst. inversion Hrest as [|? ? Hq _]; subst.
    match goal with |- context [if ?b then _ else _] => destruct b end;
      [exact Hq|exact Hp].
Qed.

(** X7: [extract_class_method] keeps at most the last two segments of a
    name, and applying it to its own result changes nothing. *)
Theorem extract_class_method_idempotent (full_name : string) :
  length (Py.split "." (Memory.extract_class_method full_name)) <= 2 /\
  Memory.extract_class_method (Memory.extract_class_method full_name)
  = Memory.extract_class_method full_name.
Proof.
  unfold Memory.extract_class_method at 1 3 4.
  destruct (2 <=? length (Py.split "." full_name)) eqn:Hlen.
  - apply Nat.leb_le in Hlen.
    rewrite (NameFacts.last_two_spec _ Hlen).
    set (a := Py.last_part (removelast (Py.split "." full_name))).
    set (b := Py.last_part (Py.split "." full_name)).
    assert (Hsplit : Py.split "." (Py.join "." [a; b]) = [a; b]).
    { apply PyFacts.split_join; [discriminate|].
      pose proof (PyFacts.split_parts_free "." full_name) as Hf.
      constructor; [|constructor; [|constructor]].
      - apply NameFacts.Forall_last_part; [reflexivity|].
        apply NameFacts.Forall_removelast, Hf.
      - apply NameFacts.Forall_last_part; [reflexivity|exact Hf]. }
    split; [rewrite Hsplit; simpl; lia|].
    unfold Memory.extract_class_method. rewrite Hsplit. reflexivity.
  - apply Nat.leb_gt in Hlen. split; [lia|].
    unfold Memory.extract_class_method.
    destruct (2 <=? length (Py.split "." full_name)) eqn:Hlen'; [|reflexivity].
    apply Nat.leb_le in Hlen'. lia.
Qed.

(** ** Rows and results *)

Module RowFacts.
Import Py PyFacts Models DataBuilder.

Lemma upper_lower_char c : upper_char (lower_char c) = upper_char c.
Proof. destruct c as [[] [] [] [] [] [] [] []]; reflexivity. Qed.

Lemma upper_upper_char c : upper_char (upper_char c) = upper_char c.
Proof. destruct c as [[] [] [] [] [] [] [] []]; reflexivity. Qed.

Lemma upper_lower s : upper (lower s) = upper s.
Proof.
  induction s as [|c s IH]; [reflexivity|]. unfold upper, lower in *. simpl.
  rewrite upper_lower_char, IH. reflexivity.
Qed.

Lemma upper_upper s : upper (upper s) = upper s.
Proof.
  induction s as [|c s IH]; [reflexivity|]. unfold upper in *. simpl.
  rewrite upper_upper_char, IH. reflexivity.
Qed.

(** The status of the result of a row. *)
Lemma status_of_result row log dur :
  status <$> db_row_to_test_result row log dur
  = match row_name row with Some _ => row_status row | None => None end.
Proof.
  unfold db_row_to_test_result, row_name, row_status.
  destruct (get_or_empty (testcaseName row)) as [n|]; [|reflexivity].
  destruct (truthy n); cbn [negb]; [|reflexivity].
  destruct (2 <=? length (split "." n));
    (destruct (get_or_empty (testStatus row)) as [raw|]; [|reflexivity]);
    destruct (error_info (get_or_empty (failureReason row))) as [[? ?] ?];
    reflexivity.
Qed.

Lemma dict_get_elem {V} k (d : dict V) v : dict_get k d = Some v -> (k, v) ∈ d.
Proof.
  induction d as [|[k' v'] d IH]; [discriminate|]. simpl.
  destruct (String.eqb_spec k k') as [->|_].
  - intros [= ->]. left.
  - intros H. right. apply IH, H.
Qed.

Lemma by_method_name_elem {V} m (d : dict V) v :
  by_method_name m d = Some v -> exists k, (k, v) ∈ d.
Proof.
  induction d as [|[k' v'] d IH]; [discriminate|]. cbn [by_method_name].
  match goal with |- context [if ?b then _ else _] => destruct b end.
  - intros [= ->]. exists k'. left.
  - intros H. destruct (IH H) as [k Hk]. exists k. right. exact Hk.
Qed.

End RowFacts.

(** X8: a row is turned into a test result exactly when its name is a
    non-empty string and its status is not [None]; the class and the
    method of the result put the name together again: for a name with a
    dot they are its two sides at the last dot, and a name without dot is
    the method of an empty class. *)
Theorem db_row_to_test_result_name (row : DataBuilder.db_row)
    (execution_log : option string) (duration : option Q) :
  match DataBuilder.db_row_to_test_result row execution_log duration with
  | Some t =>
      exists name,
        DataBuilder.row_name row = Some name /\
        DataBuilder.row_status row = Some (Models.status t) /\
        Py.has_char "." (Models.method_name t) = false /\
        (if Py.has_char "." name
         then Models.class_name t +:+ "." +:+ Models.method_name t = name
         else Models.class_name t = "" /\ Models.method_name t = name)
  | None =>
      DataBuilder.row_name row = None \/ DataBuilder.row_status row = None
  end.
Proof.
  unfold DataBuilder.db_row_to_test_result, DataBuilder.row_name, DataBuilder.row_status.
  destruct (DataBuilder.get_or_empty (DataBuilder.testcaseName row)) as [n|];
    [|left; reflexivity].
  destruct (Py.truthy n); cbn [negb]; [|left; reflexivity].
  destruct (DataBuilder.get_or_empty (DataBuilder.testStatus row)) as [raw|].
  2:{ destruct (2 <=? length (Py.split "." n)); right; reflexivity. }
  destruct (DataBuilder.error_info
              (DataBuilder.get_or_empty (DataBuilder.failureReason row)))
    as [[et em] stt].
  pose proof (PyFacts.split_parts_free "." n) as Hf.
  destruct (2 <=? length (Py.split "." n)) eqn:Hlen.
  - apply Nat.leb_le in Hlen. exists n. cbn.
    split; [reflexivity|]. split; [reflexivity|]. split.
    + apply NameFacts.Forall_last_part; [reflexivity|exact Hf].
    + assert (Hdot : Py.has_char "." n = true).
      { destruct (Py.has_char "." n) eqn:E; [reflexivity|].
        rewrite (PyFacts.split_free _ _ E) in Hlen. simpl in Hlen. lia. }
      rewrite Hdot. rewrite NameFacts.join_removelast by exact Hlen.
      apply (PyFacts.join_split "." n).
  - apply Nat.leb_gt in Hlen. exists n. cbn.
    split; [reflexivity|]. split; [reflexivity|].
    pose proof (PyFacts.split_not_nil "." n) as Hnil.
    destruct (Py.split "." n) as [|p [|q rest]] eqn:E;
      [congruence| |simpl in Hlen; lia].
    pose proof (PathFacts.split_single _ _ _ E) as Hdot. rewrite Hdot.
    split; [reflexivity|]. split; reflexivity.
Qed.

(** X9: for a status text of 7-bit characters, on which [Py.lower] and
    [Py.upper] are the case mappings of Python, the status of a row is read
    without regard to the case of its letters: a row whose status text is
    lowered or raised gets the same result status. *)
Theorem status_case_insensitive (name reason : DataBuilder.field) (raw : string)
    (execution_log : option string) (duration : option Q) :
  Py.isascii raw = true ->
  let row_with st :=
    {| DataBuilder.testcaseName := name;
       DataBuilder.testStatus := DataBuilder.Val st;
       DataBuilder.failureReason := reason |} in
  Models.status <$> DataBuilder.db_row_to_test_result (row_with (Py.lower raw))
                      execution_log duration
  = Models.status <$> DataBuilder.db_row_to_test_result (row_with raw)
                        execution_log duration
  /\ Models.status <$> DataBuilder.db_row_to_test_result (row_with (Py.upper raw))
                         execution_log duration
     = Models.status <$> DataBuilder.db_row_to_test_result (row_with raw)
                           execution_log duration.
Proof.
  intros _. cbv zeta. rewrite !RowFacts.status_of_result.
  unfold DataBuilder.row_name, DataBuilder.row_status.
  cbn [DataBuilder.testcaseName DataBuilder.testStatus DataBuilder.get_or_empty].
  rewrite RowFacts.upper_lower, RowFacts.upper_upper. split; reflexivity.
Qed.

Lemma status_case_insensitive_witness :
  Models.status
    <$> DataBuilder.db_row_to_test_result (Samples.db_row_of "T.m" (Py.lower "Failed"))
          None None
  = Models.status
      <$> DataBuilder.db_row_to_test_result (Samples.db_row_of "T.m" "Failed") None None
  /\ Models.status
       <$> DataBuilder.db_row_to_test_result (Samples.db_row_of "T.m" (Py.upper "Failed"))
             None None
     = Models.status
         <$> DataBuilder.db_row_to_test_result (Samples.db_row_of "T.m" "Failed")
               None None.
Proof.
  apply (status_case_insensitive (DataBuilder.Val "T.m") DataBuilder.Absent "Failed"
           None None).
  vm_compute. reflexivity.
Defined.

(** X10: the log lookup never invents a log: what it returns is a value
    of the dictionary; an exact key wins over the other strategies; and
    with an empty dictionary, or for a name without dot that is no key,
    it finds nothing. *)
Theorem find_matching_execution_log_sound
    (testcase_name : string) (execution_logs : DataBuilder.dict string) :
  (forall log,
     DataBuilder._find_matching_execution_log testcase_name execution_logs = Some log ->
     exists key, (key, log) ∈ execution_logs) /\
  (forall log,
     DataBuilder.dict_get testcase_name execution_logs = Some log ->
     DataBuilder._find_matching_execution_log testcase_name execution_logs = Some log) /\
  (Py.has_char "." testcase_name = false ->
   DataBuilder.dict_get testcase_name execution_logs = None ->
   DataBuilder._find_matching_execution_log testcase_name execution_logs = None) /\
  DataBuilder._find_matching_execution_log testcase_name [] = None.
Proof.
  unfold DataBuilder._find_matching_execution_log, DataBuilder.find_matching.
  split; [|split; [|split; [|reflexivity]]].
  - intros log. destruct execution_logs as [|e d] eqn:Ed; [discriminate|].
    cbv beta iota. rewrite <- Ed. clear Ed e d.
    destruct (DataBuilder.dict_get testcase_name execution_logs) as [v|] eqn:E1.
    { intros [= ->]. eexists. apply RowFacts.dict_get_elem, E1. }
    destruct (2 <=? length (Py.split "." testcase_name)); [|discriminate].
    destruct (DataBuilder.dict_get
                (Py.join "." (Py.last_two (Py.split "." testcase_name)))
                execution_logs) as [v|] eqn:E2.
    { intros [= ->]. eexists. apply RowFacts.dict_get_elem, E2. }
    match goal with
    | |- context [DataBuilder.dict_get ?k execution_logs] =>
        destruct (DataBuilder.dict_get k execution_logs) as [v|] eqn:E3
    end.
    { intros [= ->]. eexists. apply RowFacts.dict_get_elem, E3. }
    apply RowFacts.by_method_name_elem.
  - intros log H. destruct execution_logs as [|e d]; [discriminate H|].
    rewrite H. reflexivity.
  - intros Hdot Hkey. destruct execution_logs as [|e d]; [reflexivity|].
    rewrite Hkey. rewrite (PyFacts.split_free _ _ Hdot). reflexivity.
Qed.

Lemma find_matching_execution_log_sound_witness :
  DataBuilder._find_matching_execution_log "P.Foo.Foo.t" [("x.Bar.T", "log1")]
  = Some "log1"
  /\ exists key, (key, "log1") ∈ [("x.Bar.T", "log1")].
Proof.
  assert (H : DataBuilder._find_matching_execution_log "P.Foo.Foo.t"
                [("x.Bar.T", "log1")] = Some "log1") by (vm_compute; reflexivity).
  split; [exact H|].
  exact (proj1 (find_matching_execution_log_sound "P.Foo.Foo.t" [("x.Bar.T", "log1")])
           "log1" H).
Defined.

(** X11: the third strategy of the lookups can never find anything new:
    the class of a name has no dot, so cleaning it changes nothing and the
    key it builds is the key the second strategy has tried. *)
Theorem cleaned_class_method_redundant (testcase_name : string) :
  let parts := Py.split "." testcase_name in
  2 <= length parts ->
  Utils.remove_duplicate_class_name (Py.last_part (removelast parts))
    +:+ "." +:+ Py.last_part parts
  = Py.join "." (Py.last_two parts).
Proof.
  intros parts Hlen. rewrite (NameFacts.last_two_spec _ Hlen).
  assert (Hfree : Py.has_char "." (Py.last_part (removelast parts)) = false).
  { apply NameFacts.Forall_last_part; [reflexivity|].
    apply NameFacts.Forall_removelast, PyFacts.split_parts_free. }
  unfold Utils.remove_duplicate_class_name. rewrite Hfree.
  rewrite orb_true_r. reflexivity.
Qed.

Lemma cleaned_class_method_redundant_witness :
  2 <= length (Py.split "." "P.Foo.Foo.t")
  /\ Utils.remove_duplicate_class_name
       (Py.last_part (removelast (Py.split "." "P.Foo.Foo.t")))
       +:+ "." +:+ Py.last_part (Py.split "." "P.Foo.Foo.t")
     = Py.join "." (Py.last_two (Py.split "." "P.Foo.Foo.t")).
Proof.
  assert (H : 2 <= length (Py.split "." "P.Foo.Foo.t")) by (vm_compute; lia).
  split; [exact H|]. exact (cleaned_class_method_redundant "P.Foo.Foo.t" H).
Defined.

(** ** Reconciliation *)

Module ReconcileMore.
Import Py Models DataBuilder ReconcileFacts.

Lemma should_replace_same_log log t existing :
  execution_log existing = log ->
  should_replace log t existing
  = failing (status t) && status_eqb (status existing) PASS.
Proof.
  intros H. unfold should_replace. rewrite H.
  destruct (truthy_opt log), (failing (status t)),
           (status_eqb (status existing) PASS); reflexivity.
Qed.

Lemma from_rows_step logs durs processed m row :
  from_rows logs durs processed m ->
  from_rows logs durs (processed ++ [row]) (process_row logs durs m row).
Proof.
  intros Hm.
  assert (Hkeep : from_rows logs durs (processed ++ [row]) m).
  { intros n r Hn. destruct (Hm n r Hn) as (row' & Hin & H).
    exists row'. split; [apply elem_of_app; left; exact Hin|exact H]. }
  destruct (row_name row) as [n0|] eqn:Hname.
  2:{ rewrite (process_row_unnamed _ _ _ _ Hname). exact Hkeep. }
  rewrite (process_row_named _ _ _ _ _ Hname).
  destruct (db_row_to_test_result row (_find_matching_execution_log n0 logs)
              (_find_matching_duration n0 durs)) as [t|] eqn:Ht; [|exact Hkeep].
  assert (Hins : from_rows logs durs (processed ++ [row]) (<[n0:=t]> m)).
  { intros n r Hn. destruct (decide (n0 = n)) as [<-|Hne].
    - rewrite lookup_insert_eq in Hn. injection Hn as <-.
      exists row. split; [apply elem_of_app; right; left|]. split; assumption.
    - rewrite lookup_insert_ne in Hn by exact Hne. apply Hkeep, Hn. }
  unfold deduplicate. destruct (m !! n0); [|exact Hins].
  destruct (should_replace _ t _); [exact Hins|exact Hkeep].
Qed.

Lemma from_rows_fold logs durs rows :
  from_rows logs durs rows (get_full_report_data_from_db rows logs durs).
Proof.
  unfold get_full_report_data_from_db.
  induction rows as [|row rows IH] using rev_ind.
  - intros n r Hn. cbn [fold_left] in Hn. rewrite lookup_empty in Hn. discriminate.
  - rewrite fold_left_app. cbn [fold_left]. apply from_rows_step, IH.
Qed.

(** A row that has been processed changes nothing when it comes again. *)
Lemma process_row_seen logs durs processed m row :
  invariant logs processed m -> row ∈ processed ->
  process_row logs durs m row = m.
Proof.
  intros [I1 I2 I3] Hin.
  destruct (row_name row) as [n0|] eqn:Hname;
    [|apply process_row_unnamed, Hname].
  rewrite (process_row_named _ _ _ _ _ Hname).
  destruct (db_row_to_test_result row (_find_matching_execution_log n0 logs)
              (_find_matching_duration n0 durs)) as [t|] eqn:Ht; [|reflexivity].
  apply db_row_to_test_result_Some in Ht as (_ & Hst & Hlog).
  unfold deduplicate. destruct (m !! n0) as [existing|] eqn:Hm.
  - rewrite (should_replace_same_log _ _ _ (I1 _ _ Hm)).
    destruct (failing (status t)) eqn:Hf; [|reflexivity].
    destruct (status_eqb (status existing) PASS) eqn:He; [|reflexivity].
    apply status_eqb_eq in He.
    rewrite (I2 _ _ Hm He _ Hin Hname _ Hst) in Hf. discriminate.
  - rewrite (I3 _ Hm _ Hin Hname) in Hst. discriminate.
Qed.

Lemma fold_seen logs durs processed m rows' :
  invariant logs processed m ->
  (forall row, row ∈ rows' -> row ∈ processed) ->
  fold_left (process_row logs durs) rows' m = m.
Proof.
  intros Inv. induction rows' as [|row rows' IH]; [reflexivity|].
  intros Hsub. cbn [fold_left].
  rewrite (process_row_seen _ _ _ _ _ Inv) by (apply Hsub; left).
  apply IH. intros row' Hin. apply Hsub. right. exact Hin.
Qed.

End ReconcileMore.

Module PrecedenceFacts.
Import Py Models DataBuilder ReconcileFacts ReconcileMore.




End PrecedenceFacts.



(** X12: every reconciled record is the result of a row of the batch that
    carries its name, built with the log and the duration looked up for
    that name; and a name without record has only rows that could not be
    converted. *)
Theorem reconciled_records_come_from_rows
    (rows : list DataBuilder.db_row) (logs : DataBuilder.dict string)
    (durs : DataBuilder.dict Q) (name : string) :
  match DataBuilder.get_full_report_data_from_db rows logs durs !! name with
  | Some r =>
      Models.execution_log r = DataBuilder._find_matching_execution_log name logs /\
      exists row,
        row ∈ rows /\ DataBuilder.row_name row = Some name /\
        DataBuilder.db_row_to_test_result row
          (DataBuilder._find_matching_execution_log name logs)
          (DataBuilder._find_matching_duration name durs) = Some r
  | None =>
      forall row, row ∈ rows -> DataBuilder.row_name row = Some name ->
        DataBuilder.row_status row = None
  end.
Proof.
  destruct (ReconcileFacts.invariant_fold logs durs rows) as [I1 _ I3].
  pose proof (ReconcileMore.from_rows_fold logs durs rows) as Hfrom.
  destruct (DataBuilder.get_full_report_data_from_db rows logs durs !! name)
    as [r|] eqn:E.
  - split; [apply I1, E|apply Hfrom, E].
  - apply I3, E.
Qed.

(** X13: rows that the batch already contains change nothing when they
    are fed again after it: the result of the batch followed by any of its
    own rows is the result of the batch. *)
Theorem reconcile_refeed
    (rows rows' : list DataBuilder.db_row) (logs : DataBuilder.dict string)
    (durs : DataBuilder.dict Q) :
  (forall row, row ∈ rows' -> row ∈ rows) ->
  DataBuilder.get_full_report_data_from_db (rows ++ rows') logs durs
  = DataBuilder.get_full_report_data_from_db rows logs durs.
Proof.
  intros Hsub. unfold DataBuilder.get_full_report_data_from_db.
  rewrite fold_left_app.
  apply (ReconcileMore.fold_seen logs durs rows); [|exact Hsub].
  apply ReconcileFacts.invariant_fold.
Qed.

Lemma reconcile_refeed_witness :
  DataBuilder.get_full_report_data_from_db
    ([Samples.db_row_of "T.m" "PASSED"; Samples.db_row_of "T.m" "FAILED"]
     ++ [Samples.db_row_of "T.m" "PASSED"]) [("T.m", "log")] []
  = DataBuilder.get_full_report_data_from_db
      [Samples.db_row_of "T.m" "PASSED"; Samples.db_row_of "T.m" "FAILED"]
      [("T.m", "log")] [].
Proof.
  apply (reconcile_refeed
           [Samples.db_row_of "T.m" "PASSED"; Samples.db_row_of "T.m" "FAILED"]
           [Samples.db_row_of "T.m" "PASSED"]).
  intros row H. apply list_elem_of_singleton in H. rewrite H. left.
Defined.

(** ** Log isolation *)

Module IsolateFacts.
Import Py PyFacts HtmlParser.

Lemma length_take_str_le n s : String.length (take_str n s) <= String.length s.
Proof.
  revert s. induction n as [|n IH]; intros [|c s]; simpl; try lia.
  specialize (IH s). lia.
Qed.

Lemma length_drop_str_le n s : String.length (drop_str n s) <= String.length s.
Proof.
  revert s. induction n as [|n IH]; intros [|c s]; simpl; try lia.
  specialize (IH s). lia.
Qed.

End IsolateFacts.

(** X14: the isolated log never holds text from before the start marker
    and is never longer than the log: it is a prefix of the log cut at the
    position of the start marker (position 0 when there is none). *)
Theorem isolate_after_start (full_log : string) :
  (exists n,
     HtmlParser.isolate full_log
     = Py.take_str n (Py.drop_str (HtmlParser.find_start full_log) full_log))
  /\ String.length (HtmlParser.isolate full_log) <= String.length full_log.
Proof.
  assert (H : exists n,
            HtmlParser.isolate full_log
            = Py.take_str n (Py.drop_str (HtmlParser.find_start full_log) full_log)).
  { unfold HtmlParser.isolate.
    destruct (HtmlParser.find_start full_log =? 0) eqn:E0; cbn [andb].
    - apply Nat.eqb_eq in E0. rewrite E0.
      destruct (HtmlParser.find_end full_log 0 =? String.length full_log).
      + exists (String.length full_log). cbn [Py.drop_str].
        symmetry. apply HtmlFacts.take_str_all.
      + eexists. reflexivity.
    - eexists. reflexivity. }
  split; [exact H|]. destruct H as [n ->].
  pose proof (IsolateFacts.length_take_str_le n
                (Py.drop_str (HtmlParser.find_start full_log) full_log)).
  pose proof (IsolateFacts.length_drop_str_le (HtmlParser.find_start full_log) full_log).
  lia.
Qed.

(** ** History engine *)

Module HistoryFacts.
Import Memory MemoryFacts.

Lemma reverse_rev {A} (l : list A) : reverse l = rev l.
Proof. unfold reverse. symmetry. apply rev_alt. Qed.

Lemma count_reverse {A} (f : A -> bool) (l : list A) :
  length (List.filter f (reverse l)) = length (List.filter f l).
Proof. rewrite reverse_rev, List.filter_rev, List.length_rev. reflexivity. Qed.

Lemma count_take_le {A} (f : A -> bool) (n : nat) (l : list A) :
  length (List.filter f (take n l)) <= length (List.filter f l).
Proof.
  revert n. induction l as [|x l IH]; intros [|n]; simpl; try lia.
  specialize (IH n). destruct (f x); simpl; lia.
Qed.

Lemma count_le_length {A} (f : A -> bool) (l : list A) :
  length (List.filter f l) <= length l.
Proof. induction l as [|x l IH]; simpl; [lia|]. destruct (f x); simpl; lia. Qed.

Lemma failures_replicate_ones k : failures_in_history (replicate k 1) = 0.
Proof. induction k as [|k IH]; [reflexivity|]. exact IH. Qed.

Lemma failures_pass_bits (l : list execution) :
  failures_in_history (pass_bit <$> l) = length (List.filter is_failure l).
Proof.
  unfold failures_in_history. induction l as [|e l IH]; [reflexivity|].
  cbn [fmap list_fmap List.filter]. unfold pass_bit at 1.
  destruct (is_failure e); cbn; rewrite <- IH; reflexivity.
Qed.

(** The failures of the vector are those of the newest executions. *)
Lemma failures_build_history W count executions :
  failures_in_history (build_history W count executions)
  = length (List.filter is_failure (take 10 (Py.slice_to W executions))).
Proof.
  rewrite build_history_spec. cbv zeta. unfold failures_in_history.
  rewrite List.filter_app, length_app.
  fold (failures_in_history (replicate
          (10 - length (pass_bit <$> reverse (take 10 (Py.slice_to W executions)))) 1)).
  rewrite failures_replicate_ones.
  fold (failures_in_history (pass_bit <$> reverse (take 10 (Py.slice_to W executions)))).
  rewrite failures_pass_bits, count_reverse. reflexivity.
Qed.

Lemma bits_build_history W count executions :
  Forall (fun h => h = 0 \/ h = 1) (build_history W count executions).
Proof.
  rewrite build_history_spec. cbv zeta. apply Forall_app. split.
  - apply Forall_replicate. right. reflexivity.
  - apply Forall_fmap. apply Forall_forall. intros e _. unfold pass_bit. cbn.
    destruct (is_failure e); auto.
Qed.

(** In a vector of 0s and 1s there is no 1 exactly when every entry
    counts as a failure. *)
Lemma no_pass_iff_all_fail (history : list nat) :
  Forall (fun h => h = 0 \/ h = 1) history ->
  existsb (Nat.eqb 1) history = false <->
  failures_in_history history = length history.
Proof.
  unfold failures_in_history. induction 1 as [|h l [-> | ->] Hl IH]; [tauto| |].
  - cbn. rewrite IH. lia.
  - cbn. pose proof (count_le_length (fun status => status =? 0) l). split; [discriminate|lia].
Qed.

Lemma some_fail_iff (history : list nat) :
  existsb (Nat.eqb 0) history = true <-> 0 < failures_in_history history.
Proof.
  unfold failures_in_history. induction history as [|h l IH]; [cbn; split; [discriminate|lia]|].
  cbn. destruct h as [|h]; cbn; [split; [lia|reflexivity]|exact IH].
Qed.

Lemma fmap_sublist {A B} (f : A -> B) (l1 l2 : list A) :
  l1 `sublist_of` l2 -> f <$> l1 `sublist_of` f <$> l2.
Proof. induction 1; cbn; constructor; assumption. Qed.

Lemma candidates_names min_occurrences (test_history : list (string * list execution)) :
  (fun c => fst (fst c)) <$> candidates min_occurrences test_history
  `sublist_of` fst <$> test_history.
Proof.
  unfold candidates. induction test_history as [|[n ex] l IH]; [constructor|].
  cbn. destruct (min_occurrences <=? failure_count ex); cbn;
    constructor; exact IH.
Qed.

End HistoryFacts.

(** X15: the reported number of occurrences never exceeds 10 and never
    exceeds the raw count of failing rows of the test: recomputing from the
    history vector can lower the count, never raise it. *)
Theorem occurrences_bounded
    (cols : Memory.columns) (W : Z) (current_failures : list string)
    (min_occurrences : nat) (results_by_test : list (string * list Memory.db_row))
    (rec : Memory.recurring_failure) :
  rec ∈ Memory._detect_recurring_failures_from_db cols W current_failures
          min_occurrences results_by_test ->
  Memory.occurrences rec <= 10 /\
  exists rows,
    (Memory.test_name rec, rows) ∈ results_by_test /\
    Memory.occurrences rec
    <= Memory.failure_count (Memory.execution_record cols <$> Py.slice_to W rows).
Proof.
  intros H. apply MemoryFacts.detect_inv in H as (rows & Hin & _ & _ & Hrec).
  cbv zeta in Hrec.
  set (E := Memory.execution_record cols <$> Py.slice_to W rows) in *.
  assert (Hocc : Memory.occurrences rec
                 = Memory.failures_in_history
                     (Memory.build_history W (Memory.failure_count E) E)).
  { rewrite Hrec at 1. apply MemoryFacts.occurrences_recurring_record. }
  split.
  - rewrite Hocc. unfold Memory.failures_in_history.
    etransitivity; [apply HistoryFacts.count_le_length|].
    rewrite MemoryFacts.length_build_history. lia.
  - exists rows. split; [exact Hin|].
    rewrite Hocc, HistoryFacts.failures_build_history.
    destruct (MemoryFacts.slice_to_take W E) as [k ->].
    etransitivity; apply HistoryFacts.count_take_le.
Qed.

Lemma occurrences_bounded_witness :
  Samples.sample_record
    ∈ Memory._detect_recurring_failures_from_db Samples.all_cols 12 [] 5
        [("T.m", Samples.twelve_failures)]
  /\ Memory.occurrences Samples.sample_record <= 10.
Proof.
  assert (H : Samples.sample_record
                ∈ Memory._detect_recurring_failures_from_db Samples.all_cols 12 [] 5
                    [("T.m", Samples.twelve_failures)]).
  { vm_compute. constructor. }
  split; [exact H|].
  exact (proj1 (occurrences_bounded _ _ _ _ _ _ H)).
Defined.

(** X16: the records are reported in the order of the tests of the query,
    at most one per test: their names are a sublist of the names of the
    query result. *)
Theorem detect_names_sublist
    (cols : Memory.columns) (W : Z) (current_failures : list string)
    (min_occurrences : nat) (results_by_test : list (string * list Memory.db_row)) :
  Memory.test_name
    <$> Memory._detect_recurring_failures_from_db cols W current_failures
          min_occurrences results_by_test
  `sublist_of` fst <$> results_by_test.
Proof.
  unfold Memory._detect_recurring_failures_from_db.
  etransitivity; [apply HistoryFacts.fmap_sublist, sublist_filter|].
  rewrite <- list_fmap_compose.
  erewrite list_fmap_ext with (g := fun c => fst (fst c)).
  2:{ intros i [[n c] ex] _. reflexivity. }
  etransitivity; [apply HistoryFacts.candidates_names|].
  unfold Memory._get_test_execution_history_from_db.
  rewrite <- list_fmap_compose.
  erewrite list_fmap_ext with (g := fst); [reflexivity|].
  intros i [n rows] _. reflexivity.
Qed.

(** X17: the history vector does not depend on the raw failure count: the
    default vectors chosen from that count are never used, since the vector
    has ten entries before the test for emptiness. *)
Theorem build_history_ignores_count
    (W : Z) (count count' : nat) (executions : list Memory.execution) :
  Memory.build_history W count executions = Memory.build_history W count' executions.
Proof. rewrite !MemoryFacts.build_history_spec. reflexivity. Qed.

(** X18: with a minimum of at least one failure, the history of a reported
    test shows no pass exactly when the test is reported with 10
    occurrences; only then is its pattern one of the two continuous ones. *)
Theorem continuous_iff_ten_occurrences
    (cols : Memory.columns) (W : Z) (current_failures : list string)
    (min_occurrences : nat) (results_by_test : list (string * list Memory.db_row))
    (rec : Memory.recurring_failure) :
  rec ∈ Memory._detect_recurring_failures_from_db cols W current_failures
          min_occurrences results_by_test ->
  1 <= min_occurrences ->
  (Memory.is_intermittent (Memory.history rec) = false <-> Memory.occurrences rec = 10)
  /\ forall same different,
       Memory._categorize_failure_pattern
         (Memory.is_intermittent (Memory.history rec)) same different
       = (if Memory.occurrences rec =? 10
          then (if same then "Continuously failing due to same reason"
                else "Continuously failing but different reasons")
          else (if same then "Intermittently failing due to same reason"
                else "Intermittently failing but different reasons")).
Proof.
  intros H Hmin. apply MemoryFacts.detect_inv in H as (rows & _ & _ & Hocc & Hrec).
  cbv zeta in Hrec.
  set (E := Memory.execution_record cols <$> Py.slice_to W rows) in *.
  assert (Hh : Memory.history rec
               = Memory.build_history W (Memory.failure_count E) E).
  { rewrite Hrec at 1. reflexivity. }
  assert (Ho : Memory.occurrences rec
               = Memory.failures_in_history (Memory.history rec)).
  { rewrite Hh. rewrite Hrec at 1. apply MemoryFacts.occurrences_recurring_record. }
  assert (Hlen : length (Memory.history rec) = 10).
  { rewrite Hh. apply MemoryFacts.length_build_history. }
  assert (Hbits : Forall (fun h => h = 0 \/ h = 1) (Memory.history rec)).
  { rewrite Hh. apply HistoryFacts.bits_build_history. }
  assert (Hfail : existsb (Nat.eqb 0) (Memory.history rec) = true).
  { apply HistoryFacts.some_fail_iff. rewrite <- Ho. lia. }
  assert (Hiff : Memory.is_intermittent (Memory.history rec) = false
                 <-> Memory.occurrences rec = 10).
  { unfold Memory.is_intermittent. rewrite Hfail, andb_true_r.
    rewrite (HistoryFacts.no_pass_iff_all_fail _ Hbits), <- Ho, Hlen. reflexivity. }
  split; [exact Hiff|]. intros same different.
  unfold Memory._categorize_failure_pattern.
  destruct (Memory.occurrences rec =? 10) eqn:E10.
  - apply Nat.eqb_eq in E10. apply Hiff in E10. rewrite E10. reflexivity.
  - apply Nat.eqb_neq in E10.
    destruct (Memory.is_intermittent (Memory.history rec)) eqn:Ei; [reflexivity|].
    exfalso. apply E10, Hiff. reflexivity.
Qed.

Lemma continuous_iff_ten_occurrences_witness :
  Samples.sample_record
    ∈ Memory._detect_recurring_failures_from_db Samples.all_cols 12 [] 5
        [("T.m", Samples.twelve_failures)]
  /\ 1 <= 5
  /\ (Memory.is_intermittent (Memory.history Samples.sample_record) = false
      <-> Memory.occurrences Samples.sample_record = 10).
Proof.
  assert (H : Samples.sample_record
                ∈ Memory._detect_recurring_failures_from_db Samples.all_cols 12 [] 5
                    [("T.m", Samples.twelve_failures)]).
  { vm_compute. constructor. }
  assert (H5 : 1 <= 5) by lia.
  split; [exact H|]. split; [exact H5|].
  exact (proj1 (continuous_iff_ten_occurrences _ _ _ _ _ _ H H5)).
Defined.

(** ** Category rule engine *)

Module EngineFacts.
Import Analyzer CategoryRules CategoryFacts.

Lemma top_category sel r :
  rule_lt sel r = false ->
  category_priority (category r) <= category_priority (category sel).
Proof.
  intros H. apply rule_lt_false in H. cbn [selection_key fst snd] in H. lia.
Qed.

Lemma filter_below_element (filter_rule element_rule : CategoryRule) :
  category filter_rule = "OTHER" -> category element_rule = "ELEMENT_NOT_FOUND" ->
  rule_lt filter_rule element_rule = true.
Proof.
  intros Hf He. unfold rule_lt, key_lt, selection_key. cbn [fst snd].
  rewrite Hf, He. reflexivity.
Qed.

(** The rules that do not read the upstream tag. *)
Lemma matches_with_category_page failure cache c :
  matches PageLoadTimeoutRule (with_category failure c) cache
  = matches PageLoadTimeoutRule failure cache.
Proof. reflexivity. Qed.

Lemma matches_with_category_click failure cache c :
  matches ElementClickInterceptedRule (with_category failure c) cache
  = matches ElementClickInterceptedRule failure cache.
Proof. reflexivity. Qed.

Lemma matches_with_category_locator failure cache c :
  matches ElementLocatorExceptionRule (with_category failure c) cache
  = matches ElementLocatorExceptionRule failure cache.
Proof. reflexivity. Qed.

Lemma matches_with_category_illegal failure cache c :
  matches IllegalArgumentExceptionRule (with_category failure c) cache
  = matches IllegalArgumentExceptionRule failure cache.
Proof. reflexivity. Qed.

(** The two filters fire only on their own tag. *)
Lemma timeout_filter_tag failure cache :
  matches NonPageLoadTimeoutFilterRule failure cache = true ->
  root_cause_category failure = "TIMEOUT".
Proof.
  cbn [matches NonPageLoadTimeoutFilterRule].
  destruct (String.eqb_spec (root_cause_category failure) "TIMEOUT") as [H|_];
    [intros _; exact H|discriminate].
Qed.

Lemma assertion_filter_tag failure cache :
  matches AssertionFailureFilterRule failure cache = true ->
  root_cause_category failure = "ASSERTION_FAILURE".
Proof.
  cbn [matches AssertionFailureFilterRule].
  destruct (String.eqb_spec (root_cause_category failure) "ASSERTION_FAILURE") as [H|_];
    [intros _; exact H|discriminate].
Qed.

Lemma timeout_filter_with_category failure cache :
  matches NonPageLoadTimeoutFilterRule
    (with_category failure (root_cause_category failure)) cache
  = matches NonPageLoadTimeoutFilterRule failure cache.
Proof. reflexivity. Qed.

Lemma assertion_filter_with_category failure cache :
  matches AssertionFailureFilterRule
    (with_category failure (root_cause_category failure)) cache
  = matches AssertionFailureFilterRule failure cache.
Proof. reflexivity. Qed.

End EngineFacts.

(** The decision of [classify], rule by rule. *)
Lemma classify_cases
    (failure : Analyzer.FailureClassification) (cache : Cache.TestDataCache) :
  CategoryRules.classify failure cache =
  if CategoryRules.matches CategoryRules.PageLoadTimeoutRule failure cache
  then "TIMEOUT"
  else if CategoryRules.matches CategoryRules.ElementClickInterceptedRule failure cache
          || CategoryRules.matches CategoryRules.ElementLocatorExceptionRule failure cache
          || CategoryRules.matches CategoryRules.IllegalArgumentExceptionRule failure cache
  then "ELEMENT_NOT_FOUND"
  else if CategoryRules.matches CategoryRules.NonPageLoadTimeoutFilterRule failure cache
          || CategoryRules.matches CategoryRules.AssertionFailureFilterRule failure cache
  then "OTHER"
  else CategoryRules.merged (Analyzer.root_cause_category failure).
Proof.
  pose proof (CategoryFacts.selected_rule_spec CategoryRules.engine_rules failure cache)
    as Hspec.
  unfold CategoryRules.classify, CategoryRules.classify_with.
  fold (CategoryRules.merged (Analyzer.root_cause_category failure)).
  assert (Hall : forall r, r ∈ CategoryRules.engine_rules <->
            r = CategoryRules.PageLoadTimeoutRule \/
            r = CategoryRules.ElementClickInterceptedRule \/
            r = CategoryRules.ElementLocatorExceptionRule \/
            r = CategoryRules.IllegalArgumentExceptionRule \/
            r = CategoryRules.NonPageLoadTimeoutFilterRule \/
            r = CategoryRules.AssertionFailureFilterRule).
  { intros r. rewrite CategoryFacts.engine_rules_sorted.
    rewrite !elem_of_cons, elem_of_nil. tauto. }
  destruct (CategoryRules.selected_rule CategoryRules.engine_rules failure cache)
    as [sel|].
  - destruct Hspec as (Hin & Hm & Htop).
    destruct (CategoryRules.matches CategoryRules.PageLoadTimeoutRule failure cache)
      eqn:Hpage.
    { apply CategoryFacts.category_priority_timeout.
      apply (EngineFacts.top_category sel CategoryRules.PageLoadTimeoutRule).
      apply Htop; [apply Hall; tauto|exact Hpage]. }
    assert (Helem : forall r,
              r ∈ CategoryRules.engine_rules ->
              CategoryRules.category r = "ELEMENT_NOT_FOUND" ->
              CategoryRules.matches r failure cache = true ->
              CategoryRules.category sel <> "OTHER").
    { intros r Hr Hcat Hmr Hsel. specialize (Htop r Hr Hmr).
      rewrite (EngineFacts.filter_below_element sel r Hsel Hcat) in Htop.
      discriminate. }
    apply Hall in Hin.
    destruct Hin as [->|[->|[->|[->|[->| ->]]]]].
    + congruence.
    + rewrite Hm. reflexivity.
    + rewrite Hm, orb_true_r. reflexivity.
    + rewrite Hm, !orb_true_r. reflexivity.
    + destruct (CategoryRules.matches CategoryRules.ElementClickInterceptedRule
                  failure cache) eqn:H1;
        [exfalso; apply (Helem CategoryRules.ElementClickInterceptedRule);
           [apply Hall; tauto|reflexivity|exact H1|reflexivity]|].
      destruct (CategoryRules.matches CategoryRules.ElementLocatorExceptionRule
                  failure cache) eqn:H2;
        [exfalso; apply (Helem CategoryRules.ElementLocatorExceptionRule);
           [apply Hall; tauto|reflexivity|exact H2|reflexivity]|].
      destruct (CategoryRules.matches CategoryRules.IllegalArgumentExceptionRule
                  failure cache) eqn:H3;
        [exfalso; apply (Helem CategoryRules.IllegalArgumentExceptionRule);
           [apply Hall; tauto|reflexivity|exact H3|reflexivity]|].
      rewrite Hm. reflexivity.
    + destruct (CategoryRules.matches CategoryRules.ElementClickInterceptedRule
                  failure cache) eqn:H1;
        [exfalso; apply (Helem CategoryRules.ElementClickInterceptedRule);
           [apply Hall; tauto|reflexivity|exact H1|reflexivity]|].
      destruct (CategoryRules.matches CategoryRules.ElementLocatorExceptionRule
                  failure cache) eqn:H2;
        [exfalso; apply (Helem CategoryRules.ElementLocatorExceptionRule);
           [apply Hall; tauto|reflexivity|exact H2|reflexivity]|].
      destruct (CategoryRules.matches CategoryRules.IllegalArgumentExceptionRule
                  failure cache) eqn:H3;
        [exfalso; apply (Helem CategoryRules.IllegalArgumentExceptionRule);
           [apply Hall; tauto|reflexivity|exact H3|reflexivity]|].
      rewrite Hm, orb_true_r. reflexivity.
  - rewrite !Hspec by (apply Hall; tauto). reflexivity.
Qed.

(** X19: the decision of [classify] in full: TIMEOUT when the page-load
    rule matches; otherwise ELEMENT_NOT_FOUND when one of the three element
    rules matches; otherwise OTHER when one of the two filters matches;
    otherwise the upstream tag, with NETWORK_ISSUE and ENVIRONMENT_FAILURE
    read as ENVIRONMENT_ISSUE.  A filter never overrides an element or a
    timeout rule. *)
Theorem classify_decision_table
    (failure : Analyzer.FailureClassification) (cache : Cache.TestDataCache) :
  CategoryRules.classify failure cache =
  if CategoryRules.matches CategoryRules.PageLoadTimeoutRule failure cache
  then "TIMEOUT"
  else if CategoryRules.matches CategoryRules.ElementClickInterceptedRule failure cache
          || CategoryRules.matches CategoryRules.ElementLocatorExceptionRule failure cache
          || CategoryRules.matches CategoryRules.IllegalArgumentExceptionRule failure cache
  then "ELEMENT_NOT_FOUND"
  else if CategoryRules.matches CategoryRules.NonPageLoadTimeoutFilterRule failure cache
          || CategoryRules.matches CategoryRules.AssertionFailureFilterRule failure cache
  then "OTHER"
  else CategoryRules.merged (Analyzer.root_cause_category failure).
Proof. exact (classify_cases failure cache). Qed.

(** X20: classifying is stable: a failure whose upstream tag is replaced
    by the category that [classify] returned for it is classified into that
    same category again. *)
Theorem classify_stable
    (failure : Analyzer.FailureClassification) (cache : Cache.TestDataCache) :
  CategoryRules.classify
    (CategoryRules.with_category failure (CategoryRules.classify failure cache)) cache
  = CategoryRules.classify failure cache.
Proof.
  pose proof (classify_cases failure cache) as Hc.
  remember (CategoryRules.classify failure cache) as c eqn:Hc0. clear Hc0.
  rewrite (classify_cases (CategoryRules.with_category failure c)).
  rewrite EngineFacts.matches_with_category_page,
          EngineFacts.matches_with_category_click,
          EngineFacts.matches_with_category_locator,
          EngineFacts.matches_with_category_illegal.
  change (Analyzer.root_cause_category (CategoryRules.with_category failure c)) with c.
  destruct (CategoryRules.matches CategoryRules.PageLoadTimeoutRule failure cache);
    [symmetry; exact Hc|].
  destruct (CategoryRules.matches CategoryRules.ElementClickInterceptedRule failure cache
            || CategoryRules.matches CategoryRules.ElementLocatorExceptionRule failure cache
            || CategoryRules.matches CategoryRules.IllegalArgumentExceptionRule
                 failure cache);
    [symmetry; exact Hc|].
  assert (Hother : c <> "TIMEOUT" -> c <> "ASSERTION_FAILURE" ->
            CategoryRules.matches CategoryRules.NonPageLoadTimeoutFilterRule
              (CategoryRules.with_category failure c) cache
            || CategoryRules.matches CategoryRules.AssertionFailureFilterRule
                 (CategoryRules.with_category failure c) cache = false).
  { intros Ht Ha. apply orb_false_iff. split.
    - destruct (CategoryRules.matches CategoryRules.NonPageLoadTimeoutFilterRule
                  (CategoryRules.with_category failure c) cache) eqn:E; [|reflexivity].
      apply EngineFacts.timeout_filter_tag in E. contradiction.
    - destruct (CategoryRules.matches CategoryRules.AssertionFailureFilterRule
                  (CategoryRules.with_category failure c) cache) eqn:E; [|reflexivity].
      apply EngineFacts.assertion_filter_tag in E. contradiction. }
  destruct (CategoryRules.matches CategoryRules.NonPageLoadTimeoutFilterRule failure cache
            || CategoryRules.matches CategoryRules.AssertionFailureFilterRule
                 failure cache) eqn:E3.
  - subst c. rewrite Hother by discriminate. reflexivity.
  - unfold CategoryRules.merged in Hc.
    destruct (String.eqb (Analyzer.root_cause_category failure) "NETWORK_ISSUE"
              || String.eqb (Analyzer.root_cause_category failure) "ENVIRONMENT_FAILURE")
      eqn:E4.
    + subst c. rewrite Hother by discriminate. reflexivity.
    + subst c.
      rewrite EngineFacts.timeout_filter_with_category,
              EngineFacts.assertion_filter_with_category, E3.
      unfold CategoryRules.merged. rewrite E4. reflexivity.
Qed.

(** ** The cache of test data *)

Module ContainsFacts.
Import Py.

Lemma contains_cons n c h :
  contains n (String c h) = startswith n (String c h) || contains n h.
Proof. reflexivity. Qed.

Lemma startswith_refl s : startswith s s = true.
Proof.
  induction s as [|c s IH]; [reflexivity|].
  cbn [startswith]. rewrite Ascii.eqb_refl. exact IH.
Qed.

Lemma startswith_app p s t :
  startswith p s = true -> startswith p (s +:+ t) = true.
Proof.
  revert s. induction p as [|a p IH]; intros s H; [reflexivity|].
  destruct s as [|b s]; [discriminate|].
  change (String b s +:+ t) with (String b (s +:+ t)).
  cbn [startswith] in *.
  apply andb_true_iff in H as [H1 H2].
  rewrite H1. apply IH. exact H2.
Qed.

Lemma startswith_contains n s : startswith n s = true -> contains n s = true.
Proof. intros H. destruct s; cbn [contains]; rewrite H; reflexivity. Qed.

Lemma contains_empty s : contains "" s = true.
Proof. destruct s; reflexivity. Qed.

Lemma contains_refl s : contains s s = true.
Proof.
  destruct s as [|c s]; [reflexivity|].
  rewrite contains_cons, startswith_refl. reflexivity.
Qed.

Lemma contains_nil n : contains n "" = true -> n = "".
Proof. destruct n; [reflexivity|discriminate]. Qed.

Lemma contains_app_l n a b :
  contains n a = true -> contains n (a +:+ b) = true.
Proof.
  induction a as [|c a IH]; intros H.
  - apply contains_nil in H. subst n. apply contains_empty.
  - rewrite contains_cons in H. apply orb_true_iff in H as [H|H].
    + change (String c a +:+ b) with (String c (a +:+ b)).
      rewrite contains_cons.
      change (String c (a +:+ b)) with (String c a +:+ b).
      rewrite (startswith_app _ _ _ H). reflexivity.
    + change (String c a +:+ b) with (String c (a +:+ b)).
      rewrite contains_cons, (IH H). apply orb_true_r.
Qed.

Lemma contains_app_r n a b :
  contains n b = true -> contains n (a +:+ b) = true.
Proof.
  intros H. induction a as [|c a IH]; [exact H|].
  change (String c a +:+ b) with (String c (a +:+ b)).
  rewrite contains_cons, IH. apply orb_true_r.
Qed.

Lemma contains_tail c n s :
  contains (String c n) s = true -> contains n s = true.
Proof.
  induction s as [|b s IH]; intros H; [discriminate|].
  rewrite contains_cons in H. apply orb_true_iff in H as [H|H].
  - cbn [startswith] in H. apply andb_true_iff in H as [_ H].
    rewrite contains_cons.
    rewrite (startswith_contains _ _ H). apply orb_true_r.
  - rewrite contains_cons, (IH H). apply orb_true_r.
Qed.

Lemma startswith_prefix p q s :
  startswith (p +:+ q) s = true -> startswith p s = true.
Proof.
  revert s. induction p as [|a p IH]; intros s H; [reflexivity|].
  change (String a p +:+ q) with (String a (p +:+ q)) in H.
  destruct s as [|b s]; [discriminate|].
  cbn [startswith] in *. apply andb_true_iff in H as [H1 H2].
  rewrite H1. apply IH. exact H2.
Qed.

Lemma contains_prefix p q s :
  contains (p +:+ q) s = true -> contains p s = true.
Proof.
  induction s as [|b s IH]; intros H.
  - apply startswith_contains. apply (startswith_prefix p q).
    cbn [contains] in H. rewrite orb_false_r in H. exact H.
  - rewrite contains_cons in *. apply orb_true_iff in H as [H|H].
    + rewrite (startswith_prefix _ _ _ H). reflexivity.
    + rewrite (IH H). apply orb_true_r.
Qed.

(** a needle between two characters *)
Lemma contains_inner a n b s :
  contains (String a (n +:+ String b "")) s = true -> contains n s = true.
Proof. intros H. apply contains_tail in H. apply (contains_prefix _ _ _ H). Qed.

End ContainsFacts.

Module CacheFacts.
Import Py Models CacheBuild ContainsFacts.

Lemma truthy_false s : truthy s = false -> s = "".
Proof. destruct s; [reflexivity|discriminate]. Qed.

(** One of the two appending steps of [combine] keeps what the text
    already contains. *)
Lemma append_part_keeps base extra x :
  contains x base = true ->
  contains x
    (if truthy extra && negb (contains extra base)
     then (if truthy base then base +:+ (newline +:+ newline) +:+ extra else extra)
     else base) = true.
Proof.
  intros H.
  destruct (truthy extra && negb (contains extra base)); [|exact H].
  destruct (truthy base) eqn:Hb.
  - apply contains_app_l. exact H.
  - apply truthy_false in Hb. subst base. apply contains_nil in H. subst x.
    apply contains_empty.
Qed.

(** ... and its result contains the part it was given. *)
Lemma append_part_has base extra :
  contains extra
    (if truthy extra && negb (contains extra base)
     then (if truthy base then base +:+ (newline +:+ newline) +:+ extra else extra)
     else base) = true.
Proof.
  destruct (truthy extra) eqn:He.
  - destruct (contains extra base) eqn:Hc; cbn [andb negb]; [exact Hc|].
    destruct (truthy base).
    + apply contains_app_r, contains_app_r, contains_refl.
    + apply contains_refl.
  - apply truthy_false in He. subst extra. cbn [andb]. apply contains_empty.
Qed.

Lemma combine_contains execution_log error_message stack_trace :
  contains execution_log (combine execution_log error_message stack_trace) = true /\
  contains error_message (combine execution_log error_message stack_trace) = true /\
  contains stack_trace (combine execution_log error_message stack_trace) = true.
Proof.
  unfold combine. cbv zeta.
  split; [|split].
  - apply append_part_keeps, append_part_keeps, contains_refl.
  - apply append_part_keeps, append_part_has.
  - apply append_part_has.
Qed.

(** Every entry of the cache is the entry of a result, stored under the
    normalized full name of that result, which is not empty. *)
Lemma _build_cache_inv test_results key e :
  _build_cache test_results !! key = Some e ->
  key <> "" /\
  exists result, result ∈ test_results /\
    key = Utils.normalize (full_name result) /\ e = entry_of result.
Proof.
  unfold _build_cache.
  induction test_results as [|r l IH] using rev_ind.
  - cbn [fold_left]. rewrite lookup_empty. discriminate.
  - rewrite fold_left_app. cbn [fold_left]. unfold cache_step at 1.
    destruct (truthy (Utils.normalize (full_name r))) eqn:Ht.
    + destruct (decide (Utils.normalize (full_name r) = key)) as [<-|Hne].
      * rewrite lookup_insert_eq. intros [= <-]. split.
        { intros E. rewrite E in Ht. discriminate. }
        exists r. split; [apply elem_of_app; right; apply list_elem_of_singleton; reflexivity|].
        split; reflexivity.
      * rewrite lookup_insert_ne by exact Hne. intros H.
        destruct (IH H) as (Hk & r' & Hin & Hkey & He).
        split; [exact Hk|]. exists r'. split; [apply elem_of_app; left; exact Hin|].
        split; assumption.
    + intros H. destruct (IH H) as (Hk & r' & Hin & Hkey & He).
      split; [exact Hk|]. exists r'. split; [apply elem_of_app; left; exact Hin|].
      split; assumption.
Qed.

Lemma _build_cache_snoc l r :
  _build_cache (l ++ [r]) = cache_step (_build_cache l) r.
Proof. unfold _build_cache. rewrite fold_left_app. reflexivity. Qed.

Lemma _build_cache_skip l later key :
  (forall r, r ∈ later -> Utils.normalize (full_name r) <> key) ->
  fold_left cache_step later l !! key = l !! key.
Proof.
  revert l. induction later as [|r later IH]; intros l H; [reflexivity|].
  cbn [fold_left]. rewrite IH.
  - unfold cache_step. destruct (truthy (Utils.normalize (full_name r))); [|reflexivity].
    apply lookup_insert_ne. apply H. left.
  - intros r' Hr'. apply H. right. exact Hr'.
Qed.

End CacheFacts.

(** X21: the combined log that the rules search always contains the
    execution log of the test, for a cache built from any results and for
    any name, known to the cache or not. *)
Theorem combined_log_contains_execution_log
    (test_results : list Models.TestResult) (test_name : string) :
  Py.contains
    (Cache.get_execution_log (CacheBuild._build_cache test_results) test_name)
    (Cache.get_combined_log (CacheBuild._build_cache test_results) test_name) = true.
Proof.
  unfold Cache.get_execution_log, Cache.get_combined_log. cbv zeta.
  destruct (CacheBuild._build_cache test_results !! Utils.normalize test_name)
    as [e|] eqn:E; [|reflexivity].
  apply CacheFacts._build_cache_inv in E as (_ & r & _ & _ & ->).
  apply CacheFacts.combine_contains.
Qed.

(** X22: every entry of the cache is built from one of the results, is
    stored under the normalized full name of that result, never under the
    empty name, and its combined log contains its execution log, its error
    message and its stack trace. *)
Theorem cache_entry_of_result
    (test_results : list Models.TestResult) (key : string) (e : Cache.entry) :
  CacheBuild._build_cache test_results !! key = Some e ->
  key <> "" /\
  (exists result, result ∈ test_results /\
     key = Utils.normalize (Models.full_name result) /\
     e = CacheBuild.entry_of result) /\
  Py.contains (Cache.execution_log e) (Cache.combined_log e) = true /\
  Py.contains (Cache.error_message e) (Cache.combined_log e) = true /\
  Py.contains (Cache.stack_trace e) (Cache.combined_log e) = true.
Proof.
  intros H. destruct (CacheFacts._build_cache_inv _ _ _ H) as (Hk & r & Hin & Hkey & He).
  split; [exact Hk|]. split; [exists r; auto|].
  subst e. apply CacheFacts.combine_contains.
Qed.

Lemma cache_entry_of_result_witness :
  CacheBuild._build_cache [Samples.pass_with_log] !! "T.m"
    = Some (CacheBuild.entry_of Samples.pass_with_log) /\
  Py.contains "log" (Cache.combined_log (CacheBuild.entry_of Samples.pass_with_log))
    = true.
Proof.
  assert (H : CacheBuild._build_cache [Samples.pass_with_log] !! "T.m"
              = Some (CacheBuild.entry_of Samples.pass_with_log)).
  { vm_compute. reflexivity. }
  split; [exact H|].
  exact (proj1 (proj2 (proj2
    (cache_entry_of_result [Samples.pass_with_log] "T.m" _ H)))).
Defined.

(** X23: when several results have the same normalized full name, the
    cache keeps the entry of the last of them. *)
Theorem cache_last_result_wins
    (earlier later : list Models.TestResult) (result : Models.TestResult) :
  Utils.normalize (Models.full_name result) <> "" ->
  (forall r, r ∈ later ->
     Utils.normalize (Models.full_name r) <> Utils.normalize (Models.full_name result)) ->
  CacheBuild._build_cache (earlier ++ result :: later)
    !! Utils.normalize (Models.full_name result)
  = Some (CacheBuild.entry_of result).
Proof.
  intros Hne Hlater. unfold CacheBuild._build_cache.
  rewrite fold_left_app. cbn [fold_left].
  rewrite CacheFacts._build_cache_skip by exact Hlater.
  unfold CacheBuild.cache_step at 1.
  destruct (Py.truthy (Utils.normalize (Models.full_name result))) eqn:Ht.
  - apply lookup_insert_eq.
  - apply CacheFacts.truthy_false in Ht. contradiction.
Qed.

Lemma cache_last_result_wins_witness :
  CacheBuild._build_cache ([Samples.fail_no_log] ++ Samples.pass_with_log :: [])
    !! Utils.normalize (Models.full_name Samples.pass_with_log)
  = Some (CacheBuild.entry_of Samples.pass_with_log).
Proof.
  apply (cache_last_result_wins [Samples.fail_no_log] [] Samples.pass_with_log).
  - vm_compute. discriminate.
  - intros r Hr. apply elem_of_nil in Hr. destruct Hr.
Defined.

(** X24: [has_test] answers yes exactly for the names whose normalized
    form is not empty and is the normalized full name of a result. *)
Theorem has_test_iff (test_results : list Models.TestResult) (test_name : string) :
  CacheBuild.has_test (CacheBuild._build_cache test_results) test_name = true <->
  Utils.normalize test_name <> "" /\
  exists result, result ∈ test_results /\
    Utils.normalize (Models.full_name result) = Utils.normalize test_name.
Proof.
  unfold CacheBuild.has_test. rewrite bool_decide_eq_true. split.
  - intros [e He]. apply CacheFacts._build_cache_inv in He as (Hk & r & Hin & Hkey & _).
    split; [exact Hk|]. exists r. split; [exact Hin|]. symmetry. exact Hkey.
  - intros (Hk & r & Hin & Hkey).
    induction test_results as [|r' l IH] using rev_ind.
    + apply elem_of_nil in Hin. destruct Hin.
    + rewrite CacheFacts._build_cache_snoc. unfold CacheBuild.cache_step.
      destruct (decide (Utils.normalize (Models.full_name r') = Utils.normalize test_name))
        as [E|E].
      * rewrite E. destruct (Py.truthy (Utils.normalize test_name)) eqn:Ht.
        { rewrite lookup_insert_eq. eexists. reflexivity. }
        apply CacheFacts.truthy_false in Ht. contradiction.
      * assert (Hl : r ∈ l).
        { apply elem_of_app in Hin as [Hin|Hin]; [exact Hin|].
          apply list_elem_of_singleton in Hin. subst r'. contradiction. }
        destruct (Py.truthy (Utils.normalize (Models.full_name r'))).
        { rewrite lookup_insert_ne by exact E. apply IH. exact Hl. }
        apply IH. exact Hl.
Qed.

(** ** Summary, platform and labels *)

Module SummaryFacts.
Import Py Models Summary.

Lemma count_status_cons st r l :
  count_status st (r :: l) =
  (if status_eqb (status r) st then 1 else 0) + count_status st l.
Proof.
  unfold count_status. cbn [List.filter].
  destruct (status_eqb (status r) st); reflexivity.
Qed.

End SummaryFacts.

(** X25: the four counts of the summary add up to the total: every result
    is counted under exactly one status. *)
Theorem summary_counts_add_up (results : list Models.TestResult) :
  Summary.total (Summary.get_summary_stats results) =
  Summary.passed (Summary.get_summary_stats results)
  + Summary.failed (Summary.get_summary_stats results)
  + Summary.skipped (Summary.get_summary_stats results)
  + Summary.errors (Summary.get_summary_stats results).
Proof.
  unfold Summary.get_summary_stats. cbn [Summary.total Summary.passed Summary.failed
    Summary.skipped Summary.errors].
  induction results as [|r l IH]; [reflexivity|].
  rewrite !SummaryFacts.count_status_cons. cbn [length]. rewrite IH.
  destruct (Models.status r); cbn [Models.status_eqb]; lia.
Qed.

(** X26: the normalized root cause has no leading and no trailing white
    space, whatever the substitutions do. *)
Theorem normalize_root_cause_stripped
    (re_sub : Utils.substitution -> string -> string) (root_cause : string) :
  Py.strip (Utils.normalize_root_cause re_sub root_cause)
  = Utils.normalize_root_cause re_sub root_cause.
Proof.
  unfold Utils.normalize_root_cause.
  destruct (negb (Py.truthy root_cause)); [reflexivity|].
  apply NameFacts.strip_strip.
Qed.

(** X27: the two platform heuristics: wherever the parser of the HTML
    report names a platform, the builder of the database rows names one
    too, and a class that the parser files under API is filed under API by
    the builder. *)
Theorem platform_heuristics_agree (class_name : string) :
  Summary._extract_platform class_name <> "UNKNOWN" ->
  DataBuilder.platform_of class_name <> None /\
  (Summary._extract_platform class_name = "API" ->
   DataBuilder.platform_of class_name = Some "API").
Proof.
  unfold Summary._extract_platform, DataBuilder.platform_of. cbv zeta.
  intros H.
  destruct (Py.contains ".api." (Py.lower class_name)) eqn:Ea.
  { rewrite (ContainsFacts.contains_inner "." "api" "." _ Ea). cbn [orb].
    split; [discriminate|reflexivity]. }
  rewrite orb_false_r.
  destruct (Py.contains "api" (Py.lower class_name)); [split; [discriminate|reflexivity]|].
  destruct (Py.contains ".mobile." (Py.lower class_name)) eqn:Em.
  { rewrite (ContainsFacts.contains_inner "." "mobile" "." _ Em). cbn [orb].
    split; [|discriminate].
    destruct (Py.contains "web" (Py.lower class_name) ||
              Py.contains ".web." (Py.lower class_name)); discriminate. }
  destruct (Py.contains ".web." (Py.lower class_name)) eqn:Ew.
  { rewrite (ContainsFacts.contains_inner "." "web" "." _ Ew). cbn [orb].
    split; discriminate. }
  contradiction.
Qed.

Lemma platform_heuristics_agree_witness :
  DataBuilder.platform_of "com.shop.api.OrderTest" <> None /\
  (Summary._extract_platform "com.shop.api.OrderTest" = "API" ->
   DataBuilder.platform_of "com.shop.api.OrderTest" = Some "API").
Proof.
  apply (platform_heuristics_agree "com.shop.api.OrderTest").
  vm_compute. discriminate.
Defined.

Module ClassifyFacts.
Import Py.

Lemma truthy_lower s : truthy (lower s) = truthy s.
Proof. destruct s; reflexivity. Qed.

Lemma truthy_upper s : truthy (upper s) = truthy s.
Proof. destruct s; reflexivity. Qed.

End ClassifyFacts.

(** X28: [_classify_from_error_message] returns one of three labels and
    does not look at the case of the letters of the message. *)
Theorem classify_from_error_message_case (error_message : string) :
  (Memory._classify_from_error_message error_message = "UNKNOWN" \/
   Memory._classify_from_error_message error_message = "PRODUCT_BUG" \/
   Memory._classify_from_error_message error_message = "AUTOMATION_ISSUE") /\
  Memory._classify_from_error_message (Py.lower error_message)
  = Memory._classify_from_error_message error_message /\
  Memory._classify_from_error_message (Py.upper error_message)
  = Memory._classify_from_error_message error_message.
Proof.
  unfold Memory._classify_from_error_message. cbv zeta.
  rewrite RowFacts.upper_lower, RowFacts.upper_upper.
  rewrite ClassifyFacts.truthy_lower, ClassifyFacts.truthy_upper.
  split; [|split; reflexivity].
  destruct (negb (Py.truthy error_message)); [tauto|].
  repeat match goal with
         | |- context [if ?b then _ else _] => destruct b
         end; tauto.
Qed.

(** ** The category breakdown *)

Module MainFacts.
Import Py Analyzer Main.

Lemma mem_elem x l : mem x l = true <-> x ∈ l.
Proof.
  unfold mem. rewrite existsb_exists, list_elem_of_In. split.
  - intros (y & Hy & E). apply String.eqb_eq in E. subst y. exact Hy.
  - intros H. exists x. split; [exact H|apply String.eqb_refl].
Qed.

Lemma mem_not_elem x l : mem x l = false <-> x ∉ l.
Proof.
  rewrite <- mem_elem. destruct (mem x l).
  - split; [discriminate|]. intros H. exfalso. apply H. reflexivity.
  - split; [discriminate|reflexivity].
Qed.

(** The names kept from a list are new and pairwise different. *)
Lemma deduplicate_from_names seen l :
  NoDup ((fun c => strip (test_name c)) <$> deduplicate_from seen l) /\
  forall k, k ∈ ((fun c => strip (test_name c)) <$> deduplicate_from seen l) -> k ∉ seen.
Proof.
  revert seen. induction l as [|x l IH]; intros seen.
  - cbn. split; [constructor|]. intros k Hk. apply elem_of_nil in Hk. destruct Hk.
  - cbn [deduplicate_from]. cbv zeta.
    destruct (mem (strip (test_name x)) seen) eqn:Hm; [apply IH|].
    apply mem_not_elem in Hm.
    destruct (IH (strip (test_name x) :: seen)) as [Hnd Hnew].
    rewrite fmap_cons. split.
    + constructor; [|exact Hnd]. intros Hin. apply (Hnew _ Hin). left.
    + intros k Hk. apply elem_of_cons in Hk as [->|Hk]; [exact Hm|].
      intros Hs. apply (Hnew _ Hk). right. exact Hs.
Qed.

Lemma deduplicate_from_sublist seen l : sublist (deduplicate_from seen l) l.
Proof.
  revert seen. induction l as [|x l IH]; intros seen; [constructor|].
  cbn [deduplicate_from]. cbv zeta.
  destruct (mem (strip (test_name x)) seen).
  - apply sublist_cons. apply IH.
  - apply sublist_skip. apply IH.
Qed.

Lemma deduplicate_from_find seen l name :
  List.find (fun c => String.eqb (strip (test_name c)) name) (deduplicate_from seen l)
  = if mem name seen then None
    else List.find (fun c => String.eqb (strip (test_name c)) name) l.
Proof.
  revert seen. induction l as [|x l IH]; intros seen.
  - cbn. destruct (mem name seen); reflexivity.
  - cbn [deduplicate_from]. cbv zeta.
    destruct (mem (strip (test_name x)) seen) eqn:Hm.
    + rewrite IH. destruct (mem name seen) eqn:Hn; [reflexivity|].
      cbn [List.find].
      destruct (String.eqb (strip (test_name x)) name) eqn:E; [|reflexivity].
      apply String.eqb_eq in E. congruence.
    + cbn [List.find].
      destruct (String.eqb (strip (test_name x)) name) eqn:E.
      * apply String.eqb_eq in E. subst name. rewrite Hm. reflexivity.
      * rewrite IH. unfold mem at 1. cbn [existsb]. fold (mem name seen).
        rewrite String.eqb_sym, E. reflexivity.
Qed.

End MainFacts.

(** X29: the loop of the category breakdown that removes duplicates keeps,
    for every stripped test name, the first classification of that name and
    no other: the kept classifications are in the order of the input, their
    stripped names are pairwise different, and looking a name up gives the
    same classification before and after. *)
Theorem deduplicated_first_of_each_name
    (classifications : list Analyzer.FailureClassification) :
  sublist (Main.deduplicated_classifications classifications) classifications /\
  NoDup ((fun c => Py.strip (Analyzer.test_name c))
           <$> Main.deduplicated_classifications classifications) /\
  forall name,
    List.find (fun c => String.eqb (Py.strip (Analyzer.test_name c)) name)
      (Main.deduplicated_classifications classifications)
    = List.find (fun c => String.eqb (Py.strip (Analyzer.test_name c)) name)
        classifications.
Proof.
  unfold Main.deduplicated_classifications. split; [|split].
  - apply MainFacts.deduplicate_from_sublist.
  - apply MainFacts.deduplicate_from_names.
  - intros name. rewrite MainFacts.deduplicate_from_find. reflexivity.
Qed.

(** X30: after the loop of the category breakdown, the failures listed
    under a category are exactly the failures that [classify] puts into it,
    in their order; a category without failures has no key; and the count
    of a category is the length of its list. *)
Theorem category_breakdown_groups
    (cache : Cache.TestDataCache) (failures : list Analyzer.FailureClassification)
    (category : string) :
  snd (Main.category_breakdown cache failures) !! category
  = match filter (fun f => CategoryRules.classify f cache = category) failures with
    | [] => None
    | l => Some l
    end /\
  fst (Main.category_breakdown cache failures) !! category
  = length <$> snd (Main.category_breakdown cache failures) !! category.
Proof.
  unfold Main.category_breakdown.
  induction failures as [|x l IH] using rev_ind.
  - cbn. rewrite !lookup_empty. split; reflexivity.
  - rewrite fold_left_app. cbn [fold_left].
    destruct IH as [IHg IHc].
    destruct (fold_left (Main.count_failure cache) l (∅, ∅)) as [counts groups].
    unfold Main.count_failure. cbv zeta. cbn [fst snd] in *.
    rewrite filter_app.
    destruct (decide (CategoryRules.classify x cache = category)) as [E|E].
    + rewrite E, !lookup_insert_eq.
      rewrite IHc, IHg.
      rewrite (filter_cons_True _ x []) by exact E. rewrite filter_nil.
      destruct (filter (fun f => CategoryRules.classify f cache = category) l) as [|a l'].
      * cbn. split; reflexivity.
      * cbn. split; [reflexivity|]. rewrite length_app. cbn. f_equal; lia.
    + rewrite !lookup_insert_ne by exact E.
      rewrite (filter_cons_False _ x []) by exact E. rewrite filter_nil, app_nil_r.
      split; [exact IHg|exact IHc].
Qed.
